(** * Site failover worker: failover decision core

    A shallow embedding of the worker's decision core:
    - [MonitorState]: the Durable Object holding the single persisted
      [MonitorStateData] (durable-object.ts);
    - [StateManager]: the worker-side stub that calls it (state-manager.ts);
    - [CloudflareAPIClient]: the retrying rule controller (cloudflare-api.ts);
    - [handleScheduled]: the cron cycle (index.ts);
    - the simulate-failover and simulate-recovery handlers (openapi-routes.ts).

    JavaScript numbers that count things are modelled as [Z] (exact below
    2^53), ISO-8601 time strings by the instant they denote, objects by
    records, and asynchronous effects by explicit passing of a [World]
    that holds the durable storage, the clock, the network and the list of
    network and timer events performed so far.  Logger calls are not
    modelled. *)

From Stdlib Require Import ZArith List String Ascii Bool Lia DecimalString.
Import ListNotations.
Local Open Scope string_scope.
Local Open Scope list_scope.
Local Open Scope Z_scope.

Infix "+++" := String.append (at level 60, right associativity).

(** ** JavaScript values *)

(** Template-literal rendering of an integer: [`${n}`]. *)
Definition showZ (n : Z) : string := NilZero.string_of_int (Z.to_int n).

(** An [Error] object; only its [message] is ever inspected. *)
Record JsError := mkError { message : string }.

(** An ISO-8601 string as [new Date(s)] reads it: [Some ms] for a valid
    date (milliseconds since the epoch), [None] for an Invalid Date, whose
    time value is NaN. *)
Definition DateString := option Z.

(** [now >= new Date(s)] and friends: every comparison with NaN is false. *)
Definition dateGe (now : Z) (d : DateString) : bool :=
  match d with Some t => now >=? t | None => false end.
Definition dateLe (now : Z) (d : DateString) : bool :=
  match d with Some t => now <=? t | None => false end.
(** [new Date(s) > now] *)
Definition dateAfter (d : DateString) (now : Z) : bool :=
  match d with Some t => t >? now | None => false end.

(** A JSON value of a rule object.  Nested arrays and objects are kept in
    serialised form: the client never looks inside them. *)
Inductive Json :=
| JNull
| JBool (b : bool)
| JNumber (n : Z)
| JString (s : string)
| JRaw (serialised : string).

(** A plain object: its own properties in insertion order, keys unique. *)
Definition JsObject := list (string * Json).

Fixpoint getProp (k : string) (o : JsObject) : option Json :=
  match o with
  | [] => None
  | (k', v) :: o' => if String.eqb k' k then Some v else getProp k o'
  end.

(** Assignment to a property: an existing key keeps its position, a new key
    goes last. *)
Fixpoint setProp (k : string) (v : Json) (o : JsObject) : JsObject :=
  match o with
  | [] => [(k, v)]
  | (k', v') :: o' =>
      if String.eqb k' k then (k', v) :: o' else (k', v') :: setProp k v o'
  end.

(** ** types.ts *)

Module MaintenanceWindow.
Record t := mk
  { id : string;
    startTime : DateString;
    endTime : DateString;
    reason : option string }.
End MaintenanceWindow.

Inductive RuleEvent := enabled_event | disabled_event.

Module RedirectRuleHistoryEntry.
Record t := mk
  { timestamp : Z;
    event : RuleEvent;
    reason : string;
    failureCount : Z;
    recoveryCount : Z }.
End RedirectRuleHistoryEntry.

Record MonitorStateData := mkState
  { failureCount : Z;
    recoveryCount : Z;
    lastCheckTime : option Z;
    redirectRuleEnabled : bool;
    maintenanceMode : bool;
    maintenanceModeReason : option string;
    scheduledMaintenanceWindows : list MaintenanceWindow.t;
    redirectRuleHistory : list RedirectRuleHistoryEntry.t;
    healthChecksTotal : Z;
    successesTotal : Z;
    failuresTotal : Z;
    redirectRuleChangesTotal : Z;
    apiErrorsTotal : Z;
    lastCronExecution : option Z;
    workerStartTime : Z;
    apiCallsDisabled : bool }.

(** Field assignments [state.f = v]. *)
Definition set_failureCount (v : Z) (s : MonitorStateData) : MonitorStateData :=
  mkState v (recoveryCount s) (lastCheckTime s) (redirectRuleEnabled s)
    (maintenanceMode s) (maintenanceModeReason s) (scheduledMaintenanceWindows s)
    (redirectRuleHistory s) (healthChecksTotal s) (successesTotal s) (failuresTotal s)
    (redirectRuleChangesTotal s) (apiErrorsTotal s) (lastCronExecution s)
    (workerStartTime s) (apiCallsDisabled s).
Definition set_recoveryCount (v : Z) (s : MonitorStateData) : MonitorStateData :=
  mkState (failureCount s) v (lastCheckTime s) (redirectRuleEnabled s)
    (maintenanceMode s) (maintenanceModeReason s) (scheduledMaintenanceWindows s)
    (redirectRuleHistory s) (healthChecksTotal s) (successesTotal s) (failuresTotal s)
    (redirectRuleChangesTotal s) (apiErrorsTotal s) (lastCronExecution s)
    (workerStartTime s) (apiCallsDisabled s).
Definition set_lastCheckTime (v : option Z) (s : MonitorStateData) : MonitorStateData :=
  mkState (failureCount s) (recoveryCount s) v (redirectRuleEnabled s)
    (maintenanceMode s) (maintenanceModeReason s) (scheduledMaintenanceWindows s)
    (redirectRuleHistory s) (healthChecksTotal s) (successesTotal s) (failuresTotal s)
    (redirectRuleChangesTotal s) (apiErrorsTotal s) (lastCronExecution s)
    (workerStartTime s) (apiCallsDisabled s).
Definition set_redirectRuleEnabled (v : bool) (s : MonitorStateData) : MonitorStateData :=
  mkState (failureCount s) (recoveryCount s) (lastCheckTime s) v
    (maintenanceMode s) (maintenanceModeReason s) (scheduledMaintenanceWindows s)
    (redirectRuleHistory s) (healthChecksTotal s) (successesTotal s) (failuresTotal s)
    (redirectRuleChangesTotal s) (apiErrorsTotal s) (lastCronExecution s)
    (workerStartTime s) (apiCallsDisabled s).
Definition set_maintenanceMode (v : bool) (s : MonitorStateData) : MonitorStateData :=
  mkState (failureCount s) (recoveryCount s) (lastCheckTime s) (redirectRuleEnabled s)
    v (maintenanceModeReason s) (scheduledMaintenanceWindows s)
    (redirectRuleHistory s) (healthChecksTotal s) (successesTotal s) (failuresTotal s)
    (redirectRuleChangesTotal s) (apiErrorsTotal s) (lastCronExecution s)
    (workerStartTime s) (apiCallsDisabled s).
Definition set_maintenanceModeReason (v : option string) (s : MonitorStateData) : MonitorStateData :=
  mkState (failureCount s) (recoveryCount s) (lastCheckTime s) (redirectRuleEnabled s)
    (maintenanceMode s) v (scheduledMaintenanceWindows s)
    (redirectRuleHistory s) (healthChecksTotal s) (successesTotal s) (failuresTotal s)
    (redirectRuleChangesTotal s) (apiErrorsTotal s) (lastCronExecution s)
    (workerStartTime s) (apiCallsDisabled s).
Definition set_scheduledMaintenanceWindows (v : list MaintenanceWindow.t) (s : MonitorStateData) : MonitorStateData :=
  mkState (failureCount s) (recoveryCount s) (lastCheckTime s) (redirectRuleEnabled s)
    (maintenanceMode s) (maintenanceModeReason s) v
    (redirectRuleHistory s) (healthChecksTotal s) (successesTotal s) (failuresTotal s)
    (redirectRuleChangesTotal s) (apiErrorsTotal s) (lastCronExecution s)
    (workerStartTime s) (apiCallsDisabled s).
Definition set_redirectRuleHistory (v : list RedirectRuleHistoryEntry.t) (s : MonitorStateData) : MonitorStateData :=
  mkState (failureCount s) (recoveryCount s) (lastCheckTime s) (redirectRuleEnabled s)
    (maintenanceMode s) (maintenanceModeReason s) (scheduledMaintenanceWindows s)
    v (healthChecksTotal s) (successesTotal s) (failuresTotal s)
    (redirectRuleChangesTotal s) (apiErrorsTotal s) (lastCronExecution s)
    (workerStartTime s) (apiCallsDisabled s).
Definition set_healthChecksTotal (v : Z) (s : MonitorStateData) : MonitorStateData :=
  mkState (failureCount s) (recoveryCount s) (lastCheckTime s) (redirectRuleEnabled s)
    (maintenanceMode s) (maintenanceModeReason s) (scheduledMaintenanceWindows s)
    (redirectRuleHistory s) v (successesTotal s) (failuresTotal s)
    (redirectRuleChangesTotal s) (apiErrorsTotal s) (lastCronExecution s)
    (workerStartTime s) (apiCallsDisabled s).
Definition set_successesTotal (v : Z) (s : MonitorStateData) : MonitorStateData :=
  mkState (failureCount s) (recoveryCount s) (lastCheckTime s) (redirectRuleEnabled s)
    (maintenanceMode s) (maintenanceModeReason s) (scheduledMaintenanceWindows s)
    (redirectRuleHistory s) (healthChecksTotal s) v (failuresTotal s)
    (redirectRuleChangesTotal s) (apiErrorsTotal s) (lastCronExecution s)
    (workerStartTime s) (apiCallsDisabled s).
Definition set_failuresTotal (v : Z) (s : MonitorStateData) : MonitorStateData :=
  mkState (failureCount s) (recoveryCount s) (lastCheckTime s) (redirectRuleEnabled s)
    (maintenanceMode s) (maintenanceModeReason s) (scheduledMaintenanceWindows s)
    (redirectRuleHistory s) (healthChecksTotal s) (successesTotal s) v
    (redirectRuleChangesTotal s) (apiErrorsTotal s) (lastCronExecution s)
    (workerStartTime s) (apiCallsDisabled s).
Definition set_redirectRuleChangesTotal (v : Z) (s : MonitorStateData) : MonitorStateData :=
  mkState (failureCount s) (recoveryCount s) (lastCheckTime s) (redirectRuleEnabled s)
    (maintenanceMode s) (maintenanceModeReason s) (scheduledMaintenanceWindows s)
    (redirectRuleHistory s) (healthChecksTotal s) (successesTotal s) (failuresTotal s)
    v (apiErrorsTotal s) (lastCronExecution s)
    (workerStartTime s) (apiCallsDisabled s).
Definition set_apiErrorsTotal (v : Z) (s : MonitorStateData) : MonitorStateData :=
  mkState (failureCount s) (recoveryCount s) (lastCheckTime s) (redirectRuleEnabled s)
    (maintenanceMode s) (maintenanceModeReason s) (scheduledMaintenanceWindows s)
    (redirectRuleHistory s) (healthChecksTotal s) (successesTotal s) (failuresTotal s)
    (redirectRuleChangesTotal s) v (lastCronExecution s)
    (workerStartTime s) (apiCallsDisabled s).
Definition set_lastCronExecution (v : option Z) (s : MonitorStateData) : MonitorStateData :=
  mkState (failureCount s) (recoveryCount s) (lastCheckTime s) (redirectRuleEnabled s)
    (maintenanceMode s) (maintenanceModeReason s) (scheduledMaintenanceWindows s)
    (redirectRuleHistory s) (healthChecksTotal s) (successesTotal s) (failuresTotal s)
    (redirectRuleChangesTotal s) (apiErrorsTotal s) v
    (workerStartTime s) (apiCallsDisabled s).
Definition set_apiCallsDisabled (v : bool) (s : MonitorStateData) : MonitorStateData :=
  mkState (failureCount s) (recoveryCount s) (lastCheckTime s) (redirectRuleEnabled s)
    (maintenanceMode s) (maintenanceModeReason s) (scheduledMaintenanceWindows s)
    (redirectRuleHistory s) (healthChecksTotal s) (successesTotal s) (failuresTotal s)
    (redirectRuleChangesTotal s) (apiErrorsTotal s) (lastCronExecution s)
    (workerStartTime s) v.

Record ValidatedConfig := mkConfig
  { monitorUrl : string;
    failureCountThreshold : Z;
    recoveryCountThreshold : Z;
    timeoutSeconds : Z;
    redirectRuleId : string;
    accountId : string;
    zoneId : string;
    cloudflareApiToken : string;
    logLevel : string;
    apiToken : string }.

(** ** The outside world *)

Module Http.
Inductive Method := GET | POST | PUT | DELETE.

(** The body of a PUT to the rulesets API is [{ rules: [...] }]. *)
Record Request := mkRequest
  { method : Method;
    url : string;
    headers : list (string * string);
    body : option (list JsObject) }.

(** [rules] is [data.result.rules] of the JSON body when the body parses
    and has that array, [None] otherwise. *)
Record Response := mkResponse
  { status : Z;
    statusText : string;
    rules : option (list JsObject) }.

(** [response.ok] *)
Definition ok (r : Response) : bool := (200 <=? status r) && (status r <=? 299).

(** What [await fetch(...)] does: reject with an error (transport error,
    abort on timeout) or resolve with a response. *)
Inductive FetchResult :=
| Rejected (e : JsError)
| Resolved (r : Response).
End Http.

(** Network and timer events, oldest first. *)
Inductive Event :=
| EvFetch (req : Http.Request) (res : Http.FetchResult)
| EvSleep (ms : Z).

(** [storage] is the Durable Object's key ['state']; [clock] gives the
    reading of the [n]-th [new Date()]; [net] gives the result of the
    [n]-th outbound [fetch], which may depend on the request. *)
Record World := mkWorld
  { storage : option MonitorStateData;
    clock : nat -> Z;
    ticks : nat;
    net : nat -> Http.Request -> Http.FetchResult;
    sent : nat;
    trace : list Event }.

Definition set_storage (v : option MonitorStateData) (w : World) : World :=
  mkWorld v (clock w) (ticks w) (net w) (sent w) (trace w).

(** [new Date()] *)
Definition newDate (w : World) : Z * World :=
  (clock w (ticks w),
   mkWorld (storage w) (clock w) (S (ticks w)) (net w) (sent w) (trace w)).

(** [await fetch(req)] *)
Definition fetch (req : Http.Request) (w : World) : Http.FetchResult * World :=
  let res := net w (sent w) req in
  (res,
   mkWorld (storage w) (clock w) (ticks w) (net w) (S (sent w))
     (trace w ++ [EvFetch req res])).

(** [await new Promise(resolve => setTimeout(resolve, ms))] *)
Definition sleep (ms : Z) (w : World) : World :=
  mkWorld (storage w) (clock w) (ticks w) (net w) (sent w)
    (trace w ++ [EvSleep ms]).

(** ** Computations that may throw *)

Inductive Outcome (A : Type) :=
| Ok (a : A)
| Throw (e : JsError).
Arguments Ok {A} a.
Arguments Throw {A} e.

Definition M (A : Type) := World -> Outcome A * World.

Definition ret {A} (a : A) : M A := fun w => (Ok a, w).
Definition throw {A} (e : JsError) : M A := fun w => (Throw e, w).
Definition bind {A B} (m : M A) (k : A -> M B) : M B :=
  fun w => match m w with
           | (Ok a, w') => k a w'
           | (Throw e, w') => (Throw e, w')
           end.
(** [try { m } catch (error) { h error }] *)
Definition tryCatch {A} (m : M A) (h : JsError -> M A) : M A :=
  fun w => match m w with
           | (Ok a, w') => (Ok a, w')
           | (Throw e, w') => h e w'
           end.
Definition lift {A} (f : World -> A * World) : M A :=
  fun w => let (a, w') := f w in (Ok a, w').

Declare Scope js_scope.
Delimit Scope js_scope with js.
Notation "x <- m ;; k" := (bind m (fun x => k))
  (at level 61, m at next level, right associativity) : js_scope.
Notation "m ;;; k" := (bind m (fun _ => k))
  (at level 61, right associativity) : js_scope.

(** ** durable-object.ts: class MonitorState *)

Module MonitorState.

(** JSON bodies the Durable Object reads, at the types its casts declare. *)
Inductive Body :=
| RuleStateBody (enabled : bool) (reason : string)
| MaintenanceModeBody (enabled : bool) (reason : option string)
| WindowBody (window : MaintenanceWindow.t)
| ThresholdBody (threshold : Z).

Record Request := mkRequest
  { method : Http.Method;
    pathname : string;
    body : option Body }.

Inductive Payload :=
| StateJson (state : MonitorStateData)
| ErrorJson (error : string)
| Text (text : string).

Record Response := mkResponse
  { status : Z;
    payload : Payload }.

Definition ok (r : Response) : bool := (200 <=? status r) && (status r <=? 299).

(** [new Response(JSON.stringify(state), ...)]: status 200 by default. *)
Definition json (state : MonitorStateData) : Response := mkResponse 200 (StateJson state).

Definition defaultState (now : Z) : MonitorStateData :=
  {| failureCount := 0;
     recoveryCount := 0;
     lastCheckTime := None;
     redirectRuleEnabled := false;
     maintenanceMode := false;
     maintenanceModeReason := None;
     scheduledMaintenanceWindows := [];
     redirectRuleHistory := [];
     healthChecksTotal := 0;
     successesTotal := 0;
     failuresTotal := 0;
     redirectRuleChangesTotal := 0;
     apiErrorsTotal := 0;
     lastCronExecution := None;
     workerStartTime := now;
     apiCallsDisabled := false |}.

Definition setState (state : MonitorStateData) (w : World) : World :=
  set_storage (Some state) w.

Definition getState (w : World) : MonitorStateData * World :=
  match storage w with
  | None =>
      let (now, w1) := newDate w in
      let defaultState := defaultState now in
      (defaultState, setState defaultState w1)
  | Some data => (data, w)
  end.

(** [url.pathname.split('/').pop()] *)
Fixpoint lastSegment (acc : string) (s : string) : string :=
  match s with
  | EmptyString => acc
  | String c rest =>
      if Ascii.eqb c "/" then lastSegment "" rest
      else lastSegment (acc +++ String c "") rest
  end.

Definition isMethod (m m' : Http.Method) : bool :=
  match m, m' with
  | Http.GET, Http.GET | Http.POST, Http.POST
  | Http.PUT, Http.PUT | Http.DELETE, Http.DELETE => true
  | _, _ => false
  end.

(** The handler's [catch]: a request whose JSON body cannot be read
    ([request.json()] rejects) is answered with status 500. *)
Definition badBody (w : World) : Response * World :=
  (mkResponse 500 (ErrorJson "Unexpected end of JSON input"), w).

(** A handler: [getState], the handler's state change [f], [setState],
    and the new state as the response. *)
Definition update (f : MonitorStateData -> MonitorStateData) (w : World)
  : Response * World :=
  let (state, w1) := getState w in
  let state := f state in
  (json state, setState state w1).

(** As [update], where [f] also reads [new Date()] after [getState]. *)
Definition updateAt (f : Z -> MonitorStateData -> MonitorStateData) (w : World)
  : Response * World :=
  let (state, w1) := getState w in
  let (now, w2) := newDate w1 in
  let state := f now state in
  (json state, setState state w2).

(** The state changes of the handlers, in the order of [fetch]. *)

Definition incrementFailure (now : Z) (state : MonitorStateData) : MonitorStateData :=
  let state := set_failureCount (failureCount state + 1) state in
  let state := set_recoveryCount 0 state in
  let state := set_lastCheckTime (Some now) state in
  let state := set_failuresTotal (failuresTotal state + 1) state in
  set_healthChecksTotal (healthChecksTotal state + 1) state.

Definition incrementRecovery (now : Z) (state : MonitorStateData) : MonitorStateData :=
  let state := set_recoveryCount (recoveryCount state + 1) state in
  let state := set_failureCount 0 state in
  let state := set_lastCheckTime (Some now) state in
  let state := set_healthChecksTotal (healthChecksTotal state + 1) state in
  set_successesTotal (successesTotal state + 1) state.

Definition resetCounters (state : MonitorStateData) : MonitorStateData :=
  let state := set_failureCount 0 state in
  let state := set_recoveryCount 0 state in
  let state := set_healthChecksTotal 0 state in
  let state := set_successesTotal 0 state in
  let state := set_failuresTotal 0 state in
  let state := set_redirectRuleChangesTotal 0 state in
  set_apiErrorsTotal 0 state.

Definition updateRedirectRuleState (enabled : bool) (reason : string) (now : Z)
  (state : MonitorStateData) : MonitorStateData :=
  let state := set_redirectRuleEnabled enabled state in
  let state := set_redirectRuleChangesTotal (redirectRuleChangesTotal state + 1) state in
  let state :=
    set_redirectRuleHistory
      ({| RedirectRuleHistoryEntry.timestamp := now;
          RedirectRuleHistoryEntry.event :=
            if enabled then enabled_event else disabled_event;
          RedirectRuleHistoryEntry.reason := reason;
          RedirectRuleHistoryEntry.failureCount := failureCount state;
          RedirectRuleHistoryEntry.recoveryCount := recoveryCount state |}
       :: redirectRuleHistory state) state in
  if (Z.of_nat (List.length (redirectRuleHistory state)) >? 50)
  then set_redirectRuleHistory (firstn 50 (redirectRuleHistory state)) state
  else state.

Definition setMaintenanceMode (enabled : bool) (reason : option string)
  (state : MonitorStateData) : MonitorStateData :=
  let state := set_maintenanceMode enabled state in
  set_maintenanceModeReason reason state.

Definition addMaintenanceWindow (window : MaintenanceWindow.t)
  (state : MonitorStateData) : MonitorStateData :=
  set_scheduledMaintenanceWindows (scheduledMaintenanceWindows state ++ [window]) state.

Definition deleteMaintenanceWindow (windowId : string)
  (state : MonitorStateData) : MonitorStateData :=
  set_scheduledMaintenanceWindows
    (filter (fun w => negb (String.eqb (MaintenanceWindow.id w) windowId))
       (scheduledMaintenanceWindows state)) state.

Definition cleanMaintenanceWindows (now : Z) (state : MonitorStateData) : MonitorStateData :=
  set_scheduledMaintenanceWindows
    (filter (fun w => dateAfter (MaintenanceWindow.endTime w) now)
       (scheduledMaintenanceWindows state)) state.

Definition incrementApiErrors (state : MonitorStateData) : MonitorStateData :=
  set_apiErrorsTotal (apiErrorsTotal state + 1) state.

Definition updateCronExecution (now : Z) (state : MonitorStateData) : MonitorStateData :=
  set_lastCronExecution (Some now) state.

Definition disableApiCalls (state : MonitorStateData) : MonitorStateData :=
  set_apiCallsDisabled true state.

Definition simulateFailover (threshold : Z) (state : MonitorStateData) : MonitorStateData :=
  let state := set_failureCount threshold state in
  set_recoveryCount 0 state.

Definition simulateRecovery (threshold : Z) (state : MonitorStateData) : MonitorStateData :=
  let state := set_recoveryCount threshold state in
  set_failureCount 0 state.

Definition fetch (request : Request) (w : World) : Response * World :=
  let method := method request in
  let pathname := pathname request in
  if isMethod method Http.GET && String.eqb pathname "/state" then
    let (state, w1) := getState w in (json state, w1)
  else if isMethod method Http.POST && String.eqb pathname "/increment-failure" then
    updateAt incrementFailure w
  else if isMethod method Http.POST && String.eqb pathname "/increment-recovery" then
    updateAt incrementRecovery w
  else if isMethod method Http.POST && String.eqb pathname "/reset-counters" then
    update resetCounters w
  else if isMethod method Http.POST && String.eqb pathname "/update-redirect-rule-state" then
    match body request with
    | Some (RuleStateBody enabled reason) =>
        updateAt (updateRedirectRuleState enabled reason) w
    | _ => badBody w
    end
  else if isMethod method Http.POST && String.eqb pathname "/set-maintenance-mode" then
    match body request with
    | Some (MaintenanceModeBody enabled reason) =>
        update (setMaintenanceMode enabled reason) w
    | _ => badBody w
    end
  else if isMethod method Http.POST && String.eqb pathname "/add-maintenance-window" then
    match body request with
    | Some (WindowBody window) => update (addMaintenanceWindow window) w
    | _ => badBody w
    end
  else if isMethod method Http.DELETE
          && String.prefix "/delete-maintenance-window/" pathname then
    update (deleteMaintenanceWindow (lastSegment "" pathname)) w
  else if isMethod method Http.POST && String.eqb pathname "/clean-maintenance-windows" then
    updateAt cleanMaintenanceWindows w
  else if isMethod method Http.POST && String.eqb pathname "/increment-api-errors" then
    update incrementApiErrors w
  else if isMethod method Http.POST && String.eqb pathname "/update-cron-execution" then
    updateAt updateCronExecution w
  else if isMethod method Http.POST && String.eqb pathname "/disable-api-calls" then
    update disableApiCalls w
  else if isMethod method Http.POST && String.eqb pathname "/simulate-failover" then
    match body request with
    | Some (ThresholdBody threshold) => update (simulateFailover threshold) w
    | _ => badBody w
    end
  else if isMethod method Http.POST && String.eqb pathname "/simulate-recovery" then
    match body request with
    | Some (ThresholdBody threshold) => update (simulateRecovery threshold) w
    | _ => badBody w
    end
  else (mkResponse 404 (Text "Not Found"), w).

End MonitorState.

(** ** state-manager.ts: class StateManager *)

Module StateManager.
Import MonitorState.
Local Open Scope js_scope.

(** [await this.durableObject.fetch(...)], the [!response.ok] check with
    its error message, and [await response.json()].  Every ok response of
    the Durable Object carries a state. *)
Definition call (request : Request) (failure : string) : M MonitorStateData :=
  fun w =>
    let (response, w1) := MonitorState.fetch request w in
    if negb (MonitorState.ok response) then (Throw (mkError failure), w1)
    else match payload response with
         | StateJson state => (Ok state, w1)
         | _ => (Throw (mkError "Unexpected token in JSON"), w1)
         end.

Definition getState : M MonitorStateData :=
  call (mkRequest Http.GET "/state" None) "Failed to get state from Durable Object".

Definition incrementFailure : M MonitorStateData :=
  call (mkRequest Http.POST "/increment-failure" None) "Failed to increment failure counter".

Definition incrementRecovery : M MonitorStateData :=
  call (mkRequest Http.POST "/increment-recovery" None) "Failed to increment recovery counter".

Definition resetCounters : M MonitorStateData :=
  call (mkRequest Http.POST "/reset-counters" None) "Failed to reset counters".

Definition resetAllMetrics : M MonitorStateData :=
  call (mkRequest Http.POST "/reset-all-metrics" None) "Failed to reset all metrics".

Definition updateRedirectRuleState (enabled : bool) (reason : string) : M MonitorStateData :=
  call (mkRequest Http.POST "/update-redirect-rule-state" (Some (RuleStateBody enabled reason)))
    "Failed to update redirect rule state".

Definition setMaintenanceMode (enabled : bool) (reason : option string) : M MonitorStateData :=
  call (mkRequest Http.POST "/set-maintenance-mode" (Some (MaintenanceModeBody enabled reason)))
    "Failed to set maintenance mode".

Definition addMaintenanceWindow (window : MaintenanceWindow.t) : M MonitorStateData :=
  call (mkRequest Http.POST "/add-maintenance-window" (Some (WindowBody window)))
    "Failed to add maintenance window".

Definition deleteMaintenanceWindow (windowId : string) : M MonitorStateData :=
  call (mkRequest Http.DELETE ("/delete-maintenance-window/" +++ windowId) None)
    "Failed to delete maintenance window".

Definition cleanMaintenanceWindows : M MonitorStateData :=
  call (mkRequest Http.POST "/clean-maintenance-windows" None)
    "Failed to clean maintenance windows".

Definition incrementApiErrors : M MonitorStateData :=
  call (mkRequest Http.POST "/increment-api-errors" None) "Failed to increment API errors".

Definition updateCronExecution : M MonitorStateData :=
  call (mkRequest Http.POST "/update-cron-execution" None) "Failed to update cron execution".

Definition disableApiCalls : M MonitorStateData :=
  call (mkRequest Http.POST "/disable-api-calls" None) "Failed to disable API calls".

Definition simulateFailover (threshold : Z) : M MonitorStateData :=
  call (mkRequest Http.POST "/simulate-failover" (Some (ThresholdBody threshold)))
    "Failed to simulate failover".

Definition simulateRecovery (threshold : Z) : M MonitorStateData :=
  call (mkRequest Http.POST "/simulate-recovery" (Some (ThresholdBody threshold)))
    "Failed to simulate recovery".
End StateManager.

(** ** cloudflare-api.ts: class CloudflareAPIClient *)

Module CloudflareAPIClient.
Local Open Scope js_scope.

Record t := mk
  { apiToken : string;
    zoneId : string;
    accountId : string }.

Definition rulesetUrl (this : t) (ruleId : string) : string :=
  "https://api.cloudflare.com/client/v4/zones/" +++ zoneId this +++ "/rulesets/" +++ ruleId.

Definition apiHeaders (this : t) : list (string * string) :=
  [("Authorization", "Bearer " +++ apiToken this);
   ("Content-Type", "application/json")].

Definition getRuleset (this : t) (ruleId : string) : Http.Request :=
  Http.mkRequest Http.GET (rulesetUrl this ruleId) (apiHeaders this) None.

Definition putRuleset (this : t) (ruleId : string) (rules : list JsObject) : Http.Request :=
  Http.mkRequest Http.PUT (rulesetUrl this ruleId) (apiHeaders this) (Some rules).

(** [error.message === 'AUTHENTICATION_FAILED'] *)
Definition isAuthenticationFailed (error : JsError) : bool :=
  String.eqb (message error) "AUTHENTICATION_FAILED".

(** [await fetch(...)] inside a [try]: a rejection is thrown. *)
Definition awaitFetch (req : Http.Request) : M Http.Response :=
  fun w =>
    let (res, w1) := fetch req w in
    match res with
    | Http.Rejected e => (Throw e, w1)
    | Http.Resolved r => (Ok r, w1)
    end.

(** The [if (!response.ok) { ... }] block that follows each of the two
    requests. *)
Definition checkOk (response : Http.Response) : M unit :=
  if negb (Http.ok response) then
    let status := Http.status response in
    if (status =? 401) || (status =? 403)
    then throw (mkError "AUTHENTICATION_FAILED")
    else throw (mkError ("HTTP " +++ showZ status +++ ": " +++ Http.statusText response))
  else ret tt.

(** [rulesetData.result.rules.map(rule => ({ ...rule, enabled }))] *)
Definition updatedRules (enabled : bool) (rules : list JsObject) : list JsObject :=
  map (fun rule => setProp "enabled" (JBool enabled) rule) rules.

(** Reading [rulesetData.result.rules] of a body that does not parse or
    lacks the array throws (a SyntaxError or a TypeError). *)
Definition readRules (response : Http.Response) : M (list JsObject) :=
  match Http.rules response with
  | Some rules => ret rules
  | None => throw (mkError "Cannot read properties of undefined (reading 'rules')")
  end.

(** The body of the [try] block: one attempt. *)
Definition tryUpdate (this : t) (ruleId : string) (enabled : bool) : M bool :=
  getRulesetResponse <- awaitFetch (getRuleset this ruleId) ;;
  checkOk getRulesetResponse ;;;
  rules <- readRules getRulesetResponse ;;
  updateResponse <- awaitFetch (putRuleset this ruleId (updatedRules enabled rules)) ;;
  checkOk updateResponse ;;;
  ret true.

(** [Math.pow(2, attempt - 1) * 1000] *)
Definition backoffMs (attempt : Z) : Z := 2 ^ (attempt - 1) * 1000.

(** The [for] loop over the attempt numbers still to run, with its
    [catch] block, and the [return false] that follows the loop. *)
Fixpoint retryLoop (this : t) (ruleId : string) (enabled : bool)
  (remaining : list Z) : M bool :=
  match remaining with
  | [] => ret false
  | attempt :: rest =>
      fun w =>
        match tryUpdate this ruleId enabled w with
        | (Ok result, w1) => (Ok result, w1)
        | (Throw error, w1) =>
            if isAuthenticationFailed error then (Throw error, w1)
            else
              let w2 := if attempt <? 3 then sleep (backoffMs attempt) w1 else w1 in
              retryLoop this ruleId enabled rest w2
        end
  end.

(** [for (let attempt = 1; attempt <= 3; attempt++)] *)
Definition updateRedirectRule (this : t) (ruleId : string) (enabled : bool) : M bool :=
  retryLoop this ruleId enabled [1; 2; 3].
End CloudflareAPIClient.

(** ** index.ts: the cron cycle *)

Local Open Scope js_scope.

Definition apiClient (config : ValidatedConfig) : CloudflareAPIClient.t :=
  CloudflareAPIClient.mk (cloudflareApiToken config) (zoneId config) (accountId config).

Definition probeRequest (config : ValidatedConfig) : Http.Request :=
  Http.mkRequest Http.GET (monitorUrl config)
    [("User-Agent", "Site-Failover-Worker/1.0 (Cloudflare Workers) PDZRKZMkd2tnsg")] None.

(** The health check: healthy only on a response with status 200; a
    rejection (transport error, abort after [timeoutSeconds]) is caught. *)
Definition healthCheck (config : ValidatedConfig) (w : World) : bool * World :=
  let (res, w1) := fetch (probeRequest config) w in
  match res with
  | Http.Resolved response => (Http.status response =? 200, w1)
  | Http.Rejected _ => (false, w1)
  end.

(** [state.scheduledMaintenanceWindows.some(w => now >= new Date(w.startTime)
    && now <= new Date(w.endTime))] *)
Definition isInMaintenanceWindow (state : MonitorStateData) (now : Z) : bool :=
  existsb (fun w => dateGe now (MaintenanceWindow.startTime w)
                    && dateLe now (MaintenanceWindow.endTime w))
    (scheduledMaintenanceWindows state).

Definition maintenanceModeActive (state : MonitorStateData) (now : Z) : bool :=
  maintenanceMode state || isInMaintenanceWindow state now.

(** The [try { updateRedirectRule ... } catch] block of [handleScheduled];
    its two occurrences differ only in the flag and the reason. *)
Definition changeRedirectRule (config : ValidatedConfig) (enabled : bool)
  (reason : string) : M unit :=
  tryCatch
    (success <- CloudflareAPIClient.updateRedirectRule (apiClient config)
                  (redirectRuleId config) enabled ;;
     if success then
       StateManager.updateRedirectRuleState enabled reason ;;;
       StateManager.resetCounters ;;;
       ret tt
     else
       StateManager.incrementApiErrors ;;;
       ret tt)
    (fun error =>
       if CloudflareAPIClient.isAuthenticationFailed error then
         StateManager.disableApiCalls ;;; ret tt
       else
         StateManager.incrementApiErrors ;;; ret tt).

Definition recoveryReason (config : ValidatedConfig) : string :=
  "Recovery threshold reached (" +++ showZ (recoveryCountThreshold config)
    +++ " consecutive successes)".

Definition failureReason (config : ValidatedConfig) : string :=
  "Failure threshold reached (" +++ showZ (failureCountThreshold config)
    +++ " consecutive failures)".

(** The body of the outer [try] of [handleScheduled], once a configuration
    is at hand. *)
Definition cycle (config : ValidatedConfig) : M unit :=
  StateManager.updateCronExecution ;;;
  StateManager.cleanMaintenanceWindows ;;;
  state <- StateManager.getState ;;
  if apiCallsDisabled state then ret tt
  else
    now <- lift newDate ;;
    let maintenanceModeActive := maintenanceModeActive state now in
    isHealthy <- lift (healthCheck config) ;;
    if isHealthy then
      newState <- StateManager.incrementRecovery ;;
      if (recoveryCount newState >=? recoveryCountThreshold config)
         && redirectRuleEnabled state
      then
        if maintenanceModeActive then ret tt
        else changeRedirectRule config false (recoveryReason config)
      else ret tt
    else
      newState <- StateManager.incrementFailure ;;
      if (failureCount newState >=? failureCountThreshold config)
         && negb (redirectRuleEnabled state)
      then
        if maintenanceModeActive then ret tt
        else changeRedirectRule config true (failureReason config)
      else ret tt.

(** [handleScheduled]: [validated] is the cached configuration, or what
    [validateEnvironment] gives on the first run; when validation throws
    the worker refuses to run.  Every error of the cycle is caught. *)
Definition handleScheduled (validated : Outcome ValidatedConfig) (w : World) : World :=
  match validated with
  | Throw _ => w
  | Ok config => snd (tryCatch (cycle config) (fun _ => ret tt) w)
  end.

(** ** openapi-routes.ts: the simulate handlers *)

Module Routes.
Inductive Json :=
| SimulateResponse (success : bool) (newFailureCount newRecoveryCount : option Z)
    (message : string)
| ErrorResponse (error : string).

Record Reply := mkReply
  { status : Z;
    body : Json }.

(** The outer [try ... catch] of a handler: [c.json({ error }, 500)]. *)
Definition respond (handler : M Reply) (w : World) : Reply * World :=
  match handler w with
  | (Ok reply, w1) => (reply, w1)
  | (Throw error, w1) => (mkReply 500 (ErrorResponse (message error)), w1)
  end.

(** [validateEnvironment(c.env, logger)] *)
Definition validateEnvironment (validated : Outcome ValidatedConfig) : M ValidatedConfig :=
  match validated with
  | Ok config => ret config
  | Throw e => throw e
  end.

(** POST /simulate-failover *)
Definition simulateFailover (validated : Outcome ValidatedConfig) : World -> Reply * World :=
  respond
    (config <- validateEnvironment validated ;;
     state <- StateManager.simulateFailover (failureCountThreshold config) ;;
     success <- CloudflareAPIClient.updateRedirectRule (apiClient config)
                  (redirectRuleId config) true ;;
     if success then
       StateManager.updateRedirectRuleState true
         "Simulated failover - manually triggered via API" ;;;
       StateManager.resetCounters ;;;
       ret (mkReply 200 (SimulateResponse true (Some 0) None
                           "Redirect rule enabled successfully"))
     else
       StateManager.incrementApiErrors ;;;
       ret (mkReply 500 (SimulateResponse false None None
                           "Failed to enable redirect rule via Cloudflare API"))).

(** POST /simulate-recovery *)
Definition simulateRecovery (validated : Outcome ValidatedConfig) : World -> Reply * World :=
  respond
    (config <- validateEnvironment validated ;;
     state <- StateManager.simulateRecovery (recoveryCountThreshold config) ;;
     success <- CloudflareAPIClient.updateRedirectRule (apiClient config)
                  (redirectRuleId config) false ;;
     if success then
       StateManager.updateRedirectRuleState false
         "Simulated recovery - manually triggered via API" ;;;
       StateManager.resetCounters ;;;
       ret (mkReply 200 (SimulateResponse true None (Some 0)
                           "Redirect rule disabled successfully"))
     else
       StateManager.incrementApiErrors ;;;
       ret (mkReply 500 (SimulateResponse false None None
                           "Failed to disable redirect rule via Cloudflare API"))).
End Routes.

(** * Specification vocabulary *)

(** The two consecutive counters are never both nonzero. *)
Definition countersExclusive (state : MonitorStateData) : Prop :=
  failureCount state = 0 \/ recoveryCount state = 0.

(** Worlds the Durable Object can be in: it starts with an empty storage,
    serves any request, and anything else that happens meanwhile (clock
    reads, network traffic of the worker) leaves its storage alone. *)
Inductive reachable : World -> Prop :=
| reach_init : forall w, storage w = None -> reachable w
| reach_fetch : forall w request,
    reachable w -> reachable (snd (MonitorState.fetch request w))
| reach_frame : forall w w',
    reachable w -> storage w' = storage w -> reachable w'.

(** The events performed between world [w] and a later world [w']. *)
Definition eventsSince (w w' : World) : list Event :=
  skipn (List.length (trace w)) (trace w').

Definition requestsOf (events : list Event) : list Http.Request :=
  flat_map (fun ev => match ev with EvFetch req _ => [req] | EvSleep _ => [] end) events.

Definition sleepsOf (events : list Event) : list Z :=
  flat_map (fun ev => match ev with EvSleep ms => [ms] | EvFetch _ _ => [] end) events.

(** World [w'] is world [w] after the worker performed [events] and
    nothing else: no clock read, no change of the stored state. *)
Definition extends (w w' : World) (events : list Event) : Prop :=
  storage w' = storage w /\ clock w' = clock w /\ ticks w' = ticks w
  /\ net w' = net w
  /\ sent w' = (sent w + List.length (requestsOf events))%nat
  /\ trace w' = trace w ++ events.

(** A response with status 401 or 403. *)
Definition authResponse (ev : Event) : bool :=
  match ev with
  | EvFetch _ (Http.Resolved r) => (Http.status r =? 401) || (Http.status r =? 403)
  | _ => false
  end.

Definition isGet (req : Http.Request) : bool :=
  match Http.method req with Http.GET => true | _ => false end.

(** Every attempt of the rule controller starts with one GET of the
    ruleset: the attempts of a run are its GET requests. *)
Definition attemptsOf (events : list Event) : nat :=
  List.length (filter isGet (requestsOf events)).

(** The world after one [new Date()]. *)
Definition tick (w : World) : World := snd (newDate w).

(** The world with [state] persisted. *)
Definition store (state : MonitorStateData) (w : World) : World :=
  set_storage (Some state) w.

(** The events of one attempt: no timer, one GET, a request last. *)
Definition attemptEvents (events : list Event) : Prop :=
  sleepsOf events = [] /\ attemptsOf events = 1%nat
  /\ exists pre req res, events = pre ++ [EvFetch req res].

(** ** What a cycle observes

    The state the cycle reads (after it stamped the cron time and swept
    the expired windows), its [now], the answer to its probe, the state
    after the probe is counted, and the worlds at these points. *)

Definition stateRead (w : World) (state : MonitorStateData) : MonitorStateData :=
  MonitorState.cleanMaintenanceWindows (clock w (S (ticks w)))
    (MonitorState.updateCronExecution (clock w (ticks w)) state).

Definition nowRead (w : World) : Z := clock w (S (S (ticks w))).

Definition probeResult (config : ValidatedConfig) (w : World) : Http.FetchResult :=
  net w (sent w) (probeRequest config).

Definition isHealthy (res : Http.FetchResult) : bool :=
  match res with
  | Http.Resolved response => Http.status response =? 200
  | Http.Rejected _ => false
  end.

Definition stateCounted (config : ValidatedConfig) (w : World) (state : MonitorStateData)
  : MonitorStateData :=
  if isHealthy (probeResult config w)
  then MonitorState.incrementRecovery (clock w (S (S (S (ticks w))))) (stateRead w state)
  else MonitorState.incrementFailure (clock w (S (S (S (ticks w))))) (stateRead w state).

Definition worldLatched (w : World) (state : MonitorStateData) : World :=
  mkWorld (Some (stateRead w state)) (clock w) (S (S (ticks w))) (net w) (sent w) (trace w).

Definition worldCounted (config : ValidatedConfig) (w : World) (state : MonitorStateData)
  : World :=
  mkWorld (Some (stateCounted config w state)) (clock w) (S (S (S (S (ticks w)))))
    (net w) (S (sent w))
    (trace w ++ [EvFetch (probeRequest config) (probeResult config w)]).

(** Nothing persisted yet, or the defaults that the first access persists. *)
Definition fresh (w : World) : Prop :=
  storage w = None \/ exists t, storage w = Some (MonitorState.defaultState t).

(** Every probe finds the site unhealthy. *)
Definition alwaysUnhealthy (config : ValidatedConfig) (w : World) : Prop :=
  forall n, isHealthy (net w n (probeRequest config)) = false.

(** The rules API answers every GET of the ruleset with an ok response
    that carries rules, and every PUT with an ok response. *)
Definition ruleControllerSucceeds (config : ValidatedConfig) (w : World) : Prop :=
  (forall n, exists resp rules,
      net w n (CloudflareAPIClient.getRuleset (apiClient config) (redirectRuleId config))
        = Http.Resolved resp
      /\ Http.ok resp = true /\ Http.rules resp = Some rules)
  /\ (forall n rules, exists resp,
      net w n (CloudflareAPIClient.putRuleset (apiClient config) (redirectRuleId config) rules)
        = Http.Resolved resp
      /\ Http.ok resp = true).

(** The requests of a call that enables the rule at the first attempt. *)
Definition enableCall (config : ValidatedConfig) (rules : list JsObject) : list Http.Request :=
  [ CloudflareAPIClient.getRuleset (apiClient config) (redirectRuleId config);
    CloudflareAPIClient.putRuleset (apiClient config) (redirectRuleId config)
      (CloudflareAPIClient.updatedRules true rules) ].

(** What the history records of a transition. *)
Definition historySummary (state : MonitorStateData) : list (RuleEvent * Z * Z) :=
  map (fun e => (RedirectRuleHistoryEntry.event e,
                 RedirectRuleHistoryEntry.failureCount e,
                 RedirectRuleHistoryEntry.recoveryCount e))
    (redirectRuleHistory state).

(** Four cycles in a row, with the requests of each and the state after
    the second, third and fourth: the probes alone in cycles 1, 2 and 4,
    the probe and one enabling call in cycle 3. *)
Definition thresholdEdgeRun (config : ValidatedConfig) (w : World) : Prop :=
  let c1 := handleScheduled (Ok config) w in
  let c2 := handleScheduled (Ok config) c1 in
  let c3 := handleScheduled (Ok config) c2 in
  let c4 := handleScheduled (Ok config) c3 in
  (requestsOf (eventsSince w c1) = [probeRequest config]
   /\ requestsOf (eventsSince c1 c2) = [probeRequest config]
   /\ (exists rules,
         requestsOf (eventsSince c2 c3) = probeRequest config :: enableCall config rules)
   /\ requestsOf (eventsSince c3 c4) = [probeRequest config])
  /\ sleepsOf (eventsSince w c4) = []
  /\ (exists s2, storage c2 = Some s2
        /\ failureCount s2 = 2 /\ redirectRuleEnabled s2 = false
        /\ historySummary s2 = [])
  /\ (exists s3, storage c3 = Some s3
        /\ failureCount s3 = 0 /\ recoveryCount s3 = 0
        /\ redirectRuleEnabled s3 = true
        /\ historySummary s3 = [(enabled_event, 3, 0)])
  /\ (exists s4, storage c4 = Some s4
        /\ failureCount s4 = 1 /\ redirectRuleEnabled s4 = true
        /\ historySummary s4 = [(enabled_event, 3, 0)]).

(** The requests of a call that disables the rule at the first attempt. *)
Definition disableCall (config : ValidatedConfig) (rules : list JsObject) : list Http.Request :=
  [ CloudflareAPIClient.getRuleset (apiClient config) (redirectRuleId config);
    CloudflareAPIClient.putRuleset (apiClient config) (redirectRuleId config)
      (CloudflareAPIClient.updatedRules false rules) ].

(** A computation that talks to the Durable Object only: it performs no
    network or timer event and leaves the network as it is. *)
Definition silent {A} (m : M A) : Prop :=
  forall w r w', m w = (r, w') ->
    trace w' = trace w /\ net w' = net w /\ sent w' = sent w.

(** The stored state with other maintenance settings. *)
Definition withMaintenance (mode : bool) (reason : option string)
  (windows : list MaintenanceWindow.t) (state : MonitorStateData) : MonitorStateData :=
  set_scheduledMaintenanceWindows windows
    (set_maintenanceModeReason reason (set_maintenanceMode mode state)).

(** The specification's wording of [setRuleEnabled], for comparison with
    [CloudflareAPIClient.updatedRules]: the fetched collection with only the
    target rule's enabled flag overwritten. *)
Definition isTargetRule (ruleId : string) (rule : JsObject) : bool :=
  match getProp "id" rule with
  | Some (JString i) => String.eqb i ruleId
  | _ => false
  end.

Definition onlyTargetOverwritten (ruleId : string) (enabled : bool)
  (rules : list JsObject) : list JsObject :=
  map (fun rule => if isTargetRule ruleId rule
                   then setProp "enabled" (JBool enabled) rule else rule) rules.

(** ** Example worlds *)

Definition demoConfig (failureThreshold recoveryThreshold : Z) : ValidatedConfig :=
  mkConfig "https://example.com/health" failureThreshold recoveryThreshold 10
    "a" "acct" "zone" "cf-token" "debug" "api-token".

Definition demoRules : list JsObject :=
  [ [("id", JString "a"); ("enabled", JBool false)];
    [("id", JString "b"); ("enabled", JBool false); ("description", JString "other")] ].

Definition response (status : Z) (rules : option (list JsObject)) : Http.FetchResult :=
  Http.Resolved (Http.mkResponse status "" rules).

(** A network that answers the probe with [probe] and the [n]-th request,
    when it goes to the API, with [api n]. *)
Definition demoNet (probe : Http.FetchResult) (api : nat -> Http.FetchResult)
  : nat -> Http.Request -> Http.FetchResult :=
  fun n req =>
    if String.eqb (Http.url req) "https://example.com/health" then probe else api n.

Definition apiOk : nat -> Http.FetchResult := fun _ => response 200 (Some demoRules).

Definition demoWorld (state : option MonitorStateData)
  (net : nat -> Http.Request -> Http.FetchResult) : World :=
  mkWorld state (fun n => 1000 * Z.of_nat n) 0 net 0 [].

Definition demoClient : CloudflareAPIClient.t := apiClient (demoConfig 3 2).

(** The cumulative counters: checks, successes, failures, rule changes,
    API errors. *)
Definition totals (state : MonitorStateData) : Z * Z * Z * Z * Z :=
  (healthChecksTotal state, successesTotal state, failuresTotal state,
   redirectRuleChangesTotal state, apiErrorsTotal state).

(** The worker's world after [n] cycles. *)
Definition cycles (config : ValidatedConfig) (n : nat) (w : World) : World :=
  Nat.iter n (handleScheduled (Ok config)) w.

(** An API that refuses the token. *)
Definition apiDenied : nat -> Http.FetchResult := fun _ => response 401 None.

(** An API whose first two answers are server errors. *)
Definition apiFlaky : nat -> Http.FetchResult :=
  fun n => if (n <? 2)%nat then response 500 None else response 200 (Some demoRules).

(** A stored state under maintenance: the toggle is on and a window
    around every instant of [demoWorld]'s clock is scheduled. *)
Definition underMaintenance : MonitorStateData :=
  set_scheduledMaintenanceWindows
    [MaintenanceWindow.mk "w1" (Some 0) (Some 1000000) None]
    (set_maintenanceMode true (MonitorState.defaultState 0)).

(** A stored state with the API calls disabled after an authentication
    failure. *)
Definition latched : MonitorStateData :=
  set_apiCallsDisabled true (MonitorState.defaultState 0).

(** The site down and the rules API answering, nothing persisted yet. *)
Definition worldDown : World :=
  demoWorld None (demoNet (response 503 None) apiOk).

(** The rules API refusing the token. *)
Definition worldDenied : World :=
  demoWorld (Some (MonitorState.defaultState 0)) (demoNet (response 503 None) apiDenied).

(** The rules API failing twice before it answers. *)
Definition worldFlaky : World :=
  demoWorld None (demoNet (response 503 None) apiFlaky).

(** The site down during maintenance. *)
Definition worldMaintenance : World :=
  demoWorld (Some underMaintenance) (demoNet (response 503 None) apiOk).

(** The latch set, the rules API answering. *)
Definition worldLatchedDemo : World :=
  demoWorld (Some latched) (demoNet (response 503 None) apiOk).

(** The Durable Object after a recorded success and a simulated failover. *)
Definition worldServed : World :=
  snd (MonitorState.fetch
         (MonitorState.mkRequest Http.POST "/simulate-failover"
            (Some (MonitorState.ThresholdBody 3)))
         (snd (MonitorState.fetch
                 (MonitorState.mkRequest Http.POST "/increment-recovery" None)
                 worldDown))).


(** * Further vocabulary: the store's operations as state changes *)

(** The state a handler of the Durable Object starts from: the stored
    one, or the defaults when nothing is stored yet. *)
Definition current (w : World) : MonitorStateData :=
  match storage w with
  | Some state => state
  | None => MonitorState.defaultState (clock w (ticks w))
  end.

(** The state changes the handlers of [MonitorState.fetch] apply; the
    flag tells the change of POST /reset-counters from the others. *)
Inductive stateChange : bool -> (MonitorStateData -> MonitorStateData) -> Prop :=
| change_none : stateChange false (fun state => state)
| change_incrementFailure : forall now,
    stateChange false (MonitorState.incrementFailure now)
| change_incrementRecovery : forall now,
    stateChange false (MonitorState.incrementRecovery now)
| change_resetCounters : stateChange true MonitorState.resetCounters
| change_updateRedirectRuleState : forall enabled reason now,
    stateChange false (MonitorState.updateRedirectRuleState enabled reason now)
| change_setMaintenanceMode : forall enabled reason,
    stateChange false (MonitorState.setMaintenanceMode enabled reason)
| change_addMaintenanceWindow : forall window,
    stateChange false (MonitorState.addMaintenanceWindow window)
| change_deleteMaintenanceWindow : forall windowId,
    stateChange false (MonitorState.deleteMaintenanceWindow windowId)
| change_cleanMaintenanceWindows : forall now,
    stateChange false (MonitorState.cleanMaintenanceWindows now)
| change_incrementApiErrors : stateChange false MonitorState.incrementApiErrors
| change_updateCronExecution : forall now,
    stateChange false (MonitorState.updateCronExecution now)
| change_disableApiCalls : stateChange false MonitorState.disableApiCalls
| change_simulateFailover : forall threshold,
    stateChange false (MonitorState.simulateFailover threshold)
| change_simulateRecovery : forall threshold,
    stateChange false (MonitorState.simulateRecovery threshold).

(** The request is POST /reset-counters. *)
Definition isResetCounters (request : MonitorState.Request) : bool :=
  MonitorState.isMethod (MonitorState.method request) Http.POST
  && String.eqb (MonitorState.pathname request) "/reset-counters".

(** No cumulative counter of [s'] is below that of [s]. *)
Definition totalsGrow (s s' : MonitorStateData) : Prop :=
  healthChecksTotal s <= healthChecksTotal s'
  /\ successesTotal s <= successesTotal s'
  /\ failuresTotal s <= failuresTotal s'
  /\ redirectRuleChangesTotal s <= redirectRuleChangesTotal s'
  /\ apiErrorsTotal s <= apiErrorsTotal s'.

(** The checks are the successes and the failures. *)
Definition totalsConsistent (state : MonitorStateData) : Prop :=
  healthChecksTotal state = successesTotal state + failuresTotal state.

(** The history entry of a transition recorded at [now] on [state]. *)
Definition historyEntry (enabled : bool) (reason : string) (now : Z)
  (state : MonitorStateData) : RedirectRuleHistoryEntry.t :=
  RedirectRuleHistoryEntry.mk now (if enabled then enabled_event else disabled_event)
    reason (failureCount state) (recoveryCount state).

(** The characters of a window id (a UUID): letters, digits and dashes.
    Such an id is a path segment of its own. *)
Definition isIdChar (c : ascii) : bool :=
  let n := nat_of_ascii c in
  ((48 <=? n) && (n <=? 57) || (65 <=? n) && (n <=? 90)
   || (97 <=? n) && (n <=? 122) || (n =? 45))%nat.

Fixpoint isId (s : string) : bool :=
  match s with
  | EmptyString => true
  | String c rest => isIdChar c && isId rest
  end.

Definition windowIds (state : MonitorStateData) : list string :=
  map MaintenanceWindow.id (scheduledMaintenanceWindows state).

(** ** Streaks of probes *)

(** Normal operation: the API calls are not latched off, the maintenance
    toggle is off and no window is scheduled. *)
Definition idle (state : MonitorStateData) : Prop :=
  apiCallsDisabled state = false
  /\ maintenanceMode state = false
  /\ scheduledMaintenanceWindows state = [].

(** Every probe has the same outcome. *)
Definition allProbes (config : ValidatedConfig) (w : World) (healthy : bool) : Prop :=
  forall n, isHealthy (net w n (probeRequest config)) = healthy.

(** The counter a probe of that outcome increments, and its threshold. *)
Definition streak (healthy : bool) (state : MonitorStateData) : Z :=
  if healthy then recoveryCount state else failureCount state.

Definition streakThreshold (healthy : bool) (config : ValidatedConfig) : Z :=
  if healthy then recoveryCountThreshold config else failureCountThreshold config.

(** The requests of a call of the rule controller that succeeds at once. *)
Definition toggleCall (config : ValidatedConfig) (enabled : bool) (rules : list JsObject)
  : list Http.Request :=
  [ CloudflareAPIClient.getRuleset (apiClient config) (redirectRuleId config);
    CloudflareAPIClient.putRuleset (apiClient config) (redirectRuleId config)
      (CloudflareAPIClient.updatedRules enabled rules) ].

(** The rules API cannot be reached: every GET of the ruleset is
    rejected with an error other than the authentication failure. *)
Definition ruleControllerDown (config : ValidatedConfig) (w : World) : Prop :=
  forall n, exists e,
    net w n (CloudflareAPIClient.getRuleset (apiClient config) (redirectRuleId config))
      = Http.Rejected e
    /\ CloudflareAPIClient.isAuthenticationFailed e = false.

(** The requests of a cycle that probes and then fails three attempts. *)
Definition failedCycle (config : ValidatedConfig) : list Http.Request :=
  [ probeRequest config;
    CloudflareAPIClient.getRuleset (apiClient config) (redirectRuleId config);
    CloudflareAPIClient.getRuleset (apiClient config) (redirectRuleId config);
    CloudflareAPIClient.getRuleset (apiClient config) (redirectRuleId config) ].

Definition sumZ (l : list Z) : Z := fold_right Z.add 0 l.

(** ** The stub's methods *)

(** The methods of [StateManager] whose route the Durable Object
    serves: all of them but [resetAllMetrics]. *)
Inductive stubCall : M MonitorStateData -> Prop :=
| stub_getState : stubCall StateManager.getState
| stub_incrementFailure : stubCall StateManager.incrementFailure
| stub_incrementRecovery : stubCall StateManager.incrementRecovery
| stub_resetCounters : stubCall StateManager.resetCounters
| stub_updateRedirectRuleState : forall enabled reason,
    stubCall (StateManager.updateRedirectRuleState enabled reason)
| stub_setMaintenanceMode : forall enabled reason,
    stubCall (StateManager.setMaintenanceMode enabled reason)
| stub_addMaintenanceWindow : forall window,
    stubCall (StateManager.addMaintenanceWindow window)
| stub_deleteMaintenanceWindow : forall windowId,
    isId windowId = true ->
    stubCall (StateManager.deleteMaintenanceWindow windowId)
| stub_cleanMaintenanceWindows : stubCall StateManager.cleanMaintenanceWindows
| stub_incrementApiErrors : stubCall StateManager.incrementApiErrors
| stub_updateCronExecution : stubCall StateManager.updateCronExecution
| stub_disableApiCalls : stubCall StateManager.disableApiCalls
| stub_simulateFailover : forall threshold,
    stubCall (StateManager.simulateFailover threshold)
| stub_simulateRecovery : forall threshold,
    stubCall (StateManager.simulateRecovery threshold).

(** The fields that the calls of a cycle after the sweep leave alone. *)
Definition housekeeping (state : MonitorStateData)
  : option Z * list MaintenanceWindow.t * bool * Z :=
  (lastCronExecution state, scheduledMaintenanceWindows state, maintenanceMode state,
   workerStartTime state).

(** The rules API refuses the token: every GET of the ruleset is
    answered 401 or 403. *)
Definition ruleControllerDenied (config : ValidatedConfig) (w : World) : Prop :=
  forall n, exists response,
    net w n (CloudflareAPIClient.getRuleset (apiClient config) (redirectRuleId config))
      = Http.Resolved response
    /\ Http.ok response = false
    /\ (Http.status response =? 401) || (Http.status response =? 403) = true.

(** * validation.ts: validateEnvironment *)

Module Validation.

(** The bindings of the worker as they are at run time: a variable that
    is not set is [undefined], here [None]. *)
Record Env := mkEnv
  { MONITOR_URL : option string;
    FAILURE_COUNT_THRESHOLD : option string;
    RECOVERY_COUNT_THRESHOLD : option string;
    TIMEOUT_SECONDS : option string;
    REDIRECT_RULE_ID : option string;
    ACCOUNT_ID : option string;
    ZONE_ID : option string;
    CLOUDFLARE_API_TOKEN : option string;
    LOG_LEVEL : option string;
    API_TOKEN : option string }.

(** [!s]: [undefined] and the empty string are falsy. *)
Definition falsy (s : option string) : bool :=
  match s with
  | Some (String _ _) => false
  | _ => true
  end.

(** [s || d] *)
Definition orElse (s : option string) (d : string) : string :=
  match s with
  | Some (String c rest) => String c rest
  | _ => d
  end.

(** The value of a variable where the code uses it as a string; the
    function returns it only after [falsy] was excluded. *)
Definition text (s : option string) : string :=
  match s with
  | Some s => s
  | None => ""
  end.

(** [isNaN(n)], [n <= k], [n < k] and [n > k] on a number that may be
    NaN ([None]): every comparison with NaN is false. *)
Definition isNaN (n : option Z) : bool :=
  match n with None => true | Some _ => false end.
Definition numLe (n : option Z) (k : Z) : bool :=
  match n with Some n => n <=? k | None => false end.
Definition numLt (n : option Z) (k : Z) : bool :=
  match n with Some n => n <? k | None => false end.
Definition numGt (n : option Z) (k : Z) : bool :=
  match n with Some n => n >? k | None => false end.

(** The number where the code returns it; NaN is excluded before. *)
Definition number (n : option Z) : Z :=
  match n with Some n => n | None => 0 end.

(** [toLowerCase] on the ASCII letters.  Of the characters outside ASCII
    only the Kelvin sign maps to an ASCII letter (k), which occurs in no
    level name, so that the test on the level reads the same. *)
Definition toLowerAscii (c : ascii) : ascii :=
  let n := nat_of_ascii c in
  if ((65 <=? n) && (n <=? 90))%nat then ascii_of_nat (n + 32) else c.

Fixpoint toLowerCase (s : string) : string :=
  match s with
  | EmptyString => EmptyString
  | String c rest => String (toLowerAscii c) (toLowerCase rest)
  end.

Definition validLogLevels : list string := ["debug"; "info"; "warn"; "error"].

(** [validLogLevels.includes(logLevel)] *)
Definition includes (levels : list string) (level : string) : bool :=
  existsb (String.eqb level) levels.

Definition newline : string := String (ascii_of_nat 10) "".

Section Platform.
(** [parseInt(s, 10)], [None] for NaN, and [new URL(s).protocol], [None]
    when the constructor throws: the two built-ins the function calls. *)
Variable parseInt : string -> option Z.
Variable protocolOf : string -> option string.

(** [parseInt(env.X, 10)]: [undefined] reads as NaN. *)
Definition parse (s : option string) : option Z :=
  match s with
  | Some s => parseInt s
  | None => None
  end.

Definition required (name : string) (value : option string) : list string :=
  if falsy value then [name +++ " is required"] else [].

Definition positiveInteger (name : string) (value : option string) : list string :=
  let n := parse value in
  if falsy value || isNaN n || numLe n 0
  then [name +++ " must be a positive integer"] else [].

(** The [errors] array when the checks are done, in the order of the
    pushes. *)
Definition errors (env : Env) : list string :=
  (if falsy (MONITOR_URL env) then ["MONITOR_URL is required"]
   else match protocolOf (text (MONITOR_URL env)) with
        | Some protocol =>
            if negb (String.eqb protocol "https:")
            then ["MONITOR_URL must be an HTTPS URL"] else []
        | None => ["MONITOR_URL must be a valid URL"]
        end)
  ++ positiveInteger "FAILURE_COUNT_THRESHOLD" (FAILURE_COUNT_THRESHOLD env)
  ++ positiveInteger "RECOVERY_COUNT_THRESHOLD" (RECOVERY_COUNT_THRESHOLD env)
  ++ (let timeoutSeconds := parse (TIMEOUT_SECONDS env) in
      if falsy (TIMEOUT_SECONDS env) || isNaN timeoutSeconds
         || numLt timeoutSeconds 1 || numGt timeoutSeconds 30
      then ["TIMEOUT_SECONDS must be between 1 and 30"] else [])
  ++ required "REDIRECT_RULE_ID" (REDIRECT_RULE_ID env)
  ++ required "ACCOUNT_ID" (ACCOUNT_ID env)
  ++ required "ZONE_ID" (ZONE_ID env)
  ++ required "CLOUDFLARE_API_TOKEN" (CLOUDFLARE_API_TOKEN env)
  ++ required "API_TOKEN" (API_TOKEN env)
  ++ (if negb (includes validLogLevels (toLowerCase (orElse (LOG_LEVEL env) "debug")))
      then ["LOG_LEVEL must be one of: debug, info, warn, error"] else []).

Definition errorMessage (errors : list string) : string :=
  "Environment validation failed:" +++ newline
    +++ String.concat newline (map (fun e => "  - " +++ e) errors).

Definition validateEnvironment (env : Env) : Outcome ValidatedConfig :=
  let errors := errors env in
  if (0 <? List.length errors)%nat then Throw (mkError (errorMessage errors))
  else
    Ok {| monitorUrl := text (MONITOR_URL env);
          failureCountThreshold := number (parse (FAILURE_COUNT_THRESHOLD env));
          recoveryCountThreshold := number (parse (RECOVERY_COUNT_THRESHOLD env));
          timeoutSeconds := number (parse (TIMEOUT_SECONDS env));
          redirectRuleId := text (REDIRECT_RULE_ID env);
          accountId := text (ACCOUNT_ID env);
          zoneId := text (ZONE_ID env);
          cloudflareApiToken := text (CLOUDFLARE_API_TOKEN env);
          logLevel := toLowerCase (orElse (LOG_LEVEL env) "debug");
          apiToken := text (API_TOKEN env) |}.
End Platform.

End Validation.

(** ** An example platform and environment *)

Fixpoint digits (acc : Z) (s : string) : option Z :=
  match s with
  | EmptyString => Some acc
  | String c rest =>
      let n := nat_of_ascii c in
      if ((48 <=? n) && (n <=? 57))%nat
      then digits (10 * acc + Z.of_nat (n - 48)) rest
      else None
  end.

(** [parseInt] on the strings of decimal digits, NaN elsewhere. *)
Definition demoParseInt (s : string) : option Z :=
  match s with
  | EmptyString => None
  | _ => digits 0 s
  end.

Definition demoProtocolOf (s : string) : option string :=
  if String.prefix "https://" s then Some "https:"
  else if String.prefix "http://" s then Some "http:"
  else None.

Definition demoEnv : Validation.Env :=
  Validation.mkEnv (Some "https://example.com/health") (Some "3") (Some "2") (Some "10")
    (Some "a") (Some "acct") (Some "zone") (Some "cf-token") (Some "WARN")
    (Some "api-token").

(** The same without the API token and with a plain-HTTP target. *)
Definition demoEnvBroken : Validation.Env :=
  Validation.mkEnv (Some "http://example.com/health") (Some "3") (Some "2") (Some "10")
    (Some "a") (Some "acct") (Some "zone") (Some "cf-token") (Some "WARN") None.

(** * cloudflare-api.ts: getRedirectRule *)

(** The truth value of a property read off a rule object; a property
    that is absent reads as [undefined]. *)
Definition truthy (v : option Json) : bool :=
  match v with
  | None => false
  | Some JNull => false
  | Some (JBool b) => b
  | Some (JNumber n) => negb (n =? 0)
  | Some (JString s) => negb (String.eqb s "")
  | Some (JRaw _) => true
  end.

(** [rule.last_updated || new Date().toISOString()] *)
Inductive LastModified :=
| Reported (value : Json)
| FetchedAt (now : Z).

Module RedirectRuleInfo.
Record t := mk
  { id : option Json;
    enabled : bool;
    status : string;
    lastModified : LastModified }.
End RedirectRuleInfo.

(** [getRedirectRule]: the result is [null] ([None]) when the request is
    rejected, the response is not ok, its body does not parse or carries
    no rule; every error is caught. *)
Definition getRedirectRule (this : CloudflareAPIClient.t) (ruleId : string) (w : World)
  : option RedirectRuleInfo.t * World :=
  let (res, w1) := fetch (CloudflareAPIClient.getRuleset this ruleId) w in
  match res with
  | Http.Rejected _ => (None, w1)
  | Http.Resolved response =>
      if negb (Http.ok response) then (None, w1)
      else
        match Http.rules response with
        | None => (None, w1)
        | Some [] => (None, w1)
        | Some (rule :: _) =>
            let id := getProp "id" rule in
            let enabled :=
              match getProp "enabled" rule with
              | Some (JBool true) => true
              | _ => false
              end in
            let status := if truthy (getProp "enabled" rule) then "active" else "inactive" in
            match getProp "last_updated" rule with
            | Some value =>
                if truthy (Some value)
                then (Some (RedirectRuleInfo.mk id enabled status (Reported value)), w1)
                else let (now, w2) := newDate w1 in
                     (Some (RedirectRuleInfo.mk id enabled status (FetchedAt now)), w2)
            | None =>
                let (now, w2) := newDate w1 in
                (Some (RedirectRuleInfo.mk id enabled status (FetchedAt now)), w2)
            end
        end
  end.

(** * openapi-routes.ts: the middleware and the read-only routes *)

Module Api.

(** The paths the authentication middleware lets through. *)
Definition exempt (path : string) : bool :=
  String.eqb path "/health" || String.eqb path "/openapi.json"
  || String.eqb path "/ui" || String.eqb path "/".

(** [s.substring(n)] *)
Fixpoint substringFrom (n : nat) (s : string) : string :=
  match n, s with
  | O, _ => s
  | S n', String _ rest => substringFrom n' rest
  | S _, EmptyString => EmptyString
  end.

Inductive Verdict :=
| Next
| Unauthorized (status : Z) (error : string).

(** [api.use('*', ...)]: [authHeader] is [c.req.header('Authorization')]
    and [API_TOKEN] is [c.env.API_TOKEN], each [None] when undefined. *)
Definition authenticate (path : string) (authHeader : option string)
  (API_TOKEN : option string) : Verdict :=
  if exempt path then Next
  else
    match authHeader with
    | None => Unauthorized 401 "Unauthorized - Bearer token required"
    | Some header =>
        if String.eqb header "" || negb (String.prefix "Bearer " header)
        then Unauthorized 401 "Unauthorized - Bearer token required"
        else
          let token := substringFrom 7 header in
          match API_TOKEN with
          | Some expected =>
              if negb (String.eqb token expected)
              then Unauthorized 401 "Unauthorized - Invalid token"
              else Next
          | None => Unauthorized 401 "Unauthorized - Invalid token"
          end
    end.

Inductive HealthStatus := healthy | degraded | unhealthy.

Module HealthResponse.
Record t := mk
  { code : Z;
    status : HealthStatus;
    durableObjectsAvailable : bool;
    lastCronExecution : option Z;
    uptimeSeconds : Z;
    error : option string }.
End HealthResponse.

(** GET /health.  [Math.floor(ms / 1000)] is [Z.div]; the start time is
    a non-empty string, hence truthy. *)
Definition health (w : World) : HealthResponse.t * World :=
  match StateManager.getState w with
  | (Ok state, w1) =>
      let (now, w2) := newDate w1 in
      let uptimeSeconds := (now - workerStartTime state) / 1000 in
      let status :=
        match lastCronExecution state with
        | None => degraded
        | Some stamp =>
            let lastCronAge := (now - stamp) / 1000 in
            if negb (lastCronAge =? 0) && (lastCronAge >? 120) then unhealthy else healthy
        end in
      (HealthResponse.mk 200 status true (lastCronExecution state) uptimeSeconds None, w2)
  | (Throw e, w1) =>
      (HealthResponse.mk 503 unhealthy false None 0 (Some (message e)), w1)
  end.

(** GET /maintenance-windows: each window with its [isActive] flag. *)
Definition windowIsActive (now : Z) (window : MaintenanceWindow.t) : bool :=
  dateGe now (MaintenanceWindow.startTime window)
  && dateLe now (MaintenanceWindow.endTime window).

Inductive WindowsResponse :=
| Windows (windows : list (MaintenanceWindow.t * bool))
| WindowsError (status : Z) (error : string).

Definition maintenanceWindows (w : World) : WindowsResponse * World :=
  match StateManager.getState w with
  | (Ok state, w1) =>
      let (now, w2) := newDate w1 in
      (Windows (map (fun window => (window, windowIsActive now window))
                  (scheduledMaintenanceWindows state)), w2)
  | (Throw e, w1) => (WindowsError 500 (message e), w1)
  end.

End Api.

(** * rate-limiter.ts: class RateLimiter *)

Module RateLimiter.

Record RateLimitEntry := mkEntry
  { count : Z;
    resetTime : Z }.

(** The [requests] map, in insertion order, and the two limits. *)
Record t := mk
  { requests : list (string * RateLimitEntry);
    maxRequests : Z;
    windowMs : Z }.

(** [new RateLimiter(maxRequests, windowMinutes)] *)
Definition new (maxRequests windowMinutes : Z) : t :=
  mk [] maxRequests (windowMinutes * 60 * 1000).

(** [Map.prototype.get] *)
Fixpoint get (ip : string) (entries : list (string * RateLimitEntry))
  : option RateLimitEntry :=
  match entries with
  | [] => None
  | (ip', entry) :: rest => if String.eqb ip' ip then Some entry else get ip rest
  end.

(** [Map.prototype.set]: the entry of a key that is present is
    replaced where it is, a new key goes last. *)
Fixpoint set (ip : string) (entry : RateLimitEntry)
  (entries : list (string * RateLimitEntry)) : list (string * RateLimitEntry) :=
  match entries with
  | [] => [(ip, entry)]
  | (ip', entry') :: rest =>
      if String.eqb ip' ip then (ip', entry) :: rest
      else (ip', entry') :: set ip entry rest
  end.

(** [cleanup(now)]: the entries whose window is over are deleted. *)
Definition cleanup (now : Z) (entries : list (string * RateLimitEntry))
  : list (string * RateLimitEntry) :=
  filter (fun item => negb (now >? resetTime (snd item))) entries.

Record Result := mkResult
  { allowed : bool;
    retryAfter : option Z }.

(** [Math.ceil(ms / 1000)], exact on the integers below 2^53. *)
Definition ceilSeconds (ms : Z) : Z := - ((- ms) / 1000).

(** [check(ip)], with [now] the value of [Date.now()] and [sweep] the
    outcome of [Math.random() < 0.01].  The entry is read before the
    sweep; [entry.count++] updates the entry where it is in the map. *)
Definition check (this : t) (ip : string) (now : Z) (sweep : bool) : Result * t :=
  let entry := get ip (requests this) in
  let entries := if sweep then cleanup now (requests this) else requests this in
  let fresh :=
    (mkResult true None,
     mk (set ip (mkEntry 1 (now + windowMs this)) entries)
       (maxRequests this) (windowMs this)) in
  match entry with
  | None => fresh
  | Some entry =>
      if now >? resetTime entry then fresh
      else if count entry >=? maxRequests this then
        (mkResult false (Some (ceilSeconds (resetTime entry - now))),
         mk entries (maxRequests this) (windowMs this))
      else
        (mkResult true None,
         mk (set ip (mkEntry (count entry + 1) (resetTime entry)) entries)
           (maxRequests this) (windowMs this))
  end.

(** The answers to a series of requests of one address, each with its
    [now] and its [sweep]. *)
Fixpoint burst (this : t) (ip : string) (arrivals : list (Z * bool)) : list bool * t :=
  match arrivals with
  | [] => ([], this)
  | (now, sweep) :: rest =>
      let (result, this1) := check this ip now sweep in
      let (answers, this2) := burst this1 ip rest in
      (allowed result :: answers, this2)
  end.

End RateLimiter.

(** The limiters there can be: a new one, after any requests. *)
Inductive served : RateLimiter.t -> Prop :=
| served_new : forall maxRequests windowMinutes,
    served (RateLimiter.new maxRequests windowMinutes)
| served_check : forall this ip now sweep,
    served this -> served (snd (RateLimiter.check this ip now sweep)).

(** * Further example worlds *)

(** The Durable Object after one recorded transition, and after one
    failed check on top of it. *)
Definition worldRecorded : World :=
  snd (MonitorState.fetch
         (MonitorState.mkRequest Http.POST "/update-redirect-rule-state"
            (Some (MonitorState.RuleStateBody true "manual")))
         (demoWorld None (demoNet (response 200 None) apiOk))).

Definition stateRecorded : MonitorStateData := current worldRecorded.

Definition stateChecked : MonitorStateData :=
  current (snd (MonitorState.fetch
                  (MonitorState.mkRequest Http.POST "/increment-failure" None)
                  worldRecorded)).

Definition demoWindow : MaintenanceWindow.t :=
  MaintenanceWindow.mk "w-1" (Some 5000) (Some 9000) (Some "upgrade").

(** A state whose only window is over at 9000. *)
Definition stateExpired : MonitorStateData :=
  set_scheduledMaintenanceWindows [demoWindow] (MonitorState.defaultState 0).

(** The site down, the defaults stored, the rules API answering. *)
Definition worldStored : World :=
  demoWorld (Some (MonitorState.defaultState 0)) (demoNet (response 503 None) apiOk).

(** The site down, two failures counted, the rules API out of reach. *)
Definition worldUnreachable : World :=
  demoWorld (Some (set_failureCount 2 (MonitorState.defaultState 0)))
    (demoNet (response 503 None) (fun _ => Http.Rejected (mkError "connect failed"))).

(** The configuration [validateEnvironment] returns for [demoEnv]. *)
Definition demoValidated : ValidatedConfig :=
  mkConfig "https://example.com/health" 3 2 10 "a" "acct" "zone" "cf-token" "warn"
    "api-token".

(** The rules API answering with the collection an enabling update
    submitted. *)
Definition worldUpdated : World :=
  demoWorld None
    (demoNet (response 200 None)
       (fun _ => response 200 (Some (CloudflareAPIClient.updatedRules true demoRules)))).

(** A limiter of one request per minute after the request of an
    address at time 0. *)
Definition limiterFull : RateLimiter.t :=
  snd (RateLimiter.check (RateLimiter.new 1 1) "203.0.113.7" 0 false).

(** The site answering 204 while the rule is enabled. *)
Definition worldNoContent : World :=
  demoWorld (Some (set_redirectRuleEnabled true (MonitorState.defaultState 0)))
    (demoNet (response 204 None) apiOk).

(** Two windows stored, the first of them over at 500. *)
Definition worldExpired : World :=
  demoWorld
    (Some (set_scheduledMaintenanceWindows
             [MaintenanceWindow.mk "w-0" (Some 0) (Some 500) None; demoWindow]
             (MonitorState.defaultState 0)))
    (demoNet (response 200 None) apiOk).
(** * The Consistency Store *)

Section Store.

Lemma getState_storage w :
  storage (snd (MonitorState.getState w)) = Some (fst (MonitorState.getState w)).
Proof.
  unfold MonitorState.getState.
  destruct (storage w) eqn:E; cbn; auto.
Qed.

Lemma getState_exclusive w :
  (forall state, storage w = Some state -> countersExclusive state) ->
  countersExclusive (fst (MonitorState.getState w)).
Proof.
  intros H. unfold MonitorState.getState.
  destruct (storage w) eqn:E; cbn; auto.
  left; reflexivity.
Qed.

(** A handler built with [update] keeps the invariant when its state
    change does. *)
Lemma update_exclusive f w :
  (forall state, countersExclusive state -> countersExclusive (f state)) ->
  (forall state, storage w = Some state -> countersExclusive state) ->
  forall state, storage (snd (MonitorState.update f w)) = Some state ->
                countersExclusive state.
Proof.
  intros Hf Hw state. unfold MonitorState.update.
  pose proof (getState_exclusive w Hw) as Hg.
  destruct (MonitorState.getState w) as [s w1]; cbn in *.
  intros E; inversion E; subst; auto.
Qed.

Lemma updateAt_exclusive f w :
  (forall now state, countersExclusive state -> countersExclusive (f now state)) ->
  (forall state, storage w = Some state -> countersExclusive state) ->
  forall state, storage (snd (MonitorState.updateAt f w)) = Some state ->
                countersExclusive state.
Proof.
  intros Hf Hw state. unfold MonitorState.updateAt.
  pose proof (getState_exclusive w Hw) as Hg.
  destruct (MonitorState.getState w) as [s w1]; cbn in *.
  intros E; inversion E; subst; auto.
Qed.

Lemma updateRedirectRuleState_counters enabled reason now state :
  failureCount (MonitorState.updateRedirectRuleState enabled reason now state)
    = failureCount state
  /\ recoveryCount (MonitorState.updateRedirectRuleState enabled reason now state)
    = recoveryCount state.
Proof.
  unfold MonitorState.updateRedirectRuleState.
  match goal with |- context [if ?b then _ else _] => destruct b end; cbn; auto.
Qed.

(** One request keeps the invariant of the stored state. *)
Lemma fetch_exclusive request w :
  (forall state, storage w = Some state -> countersExclusive state) ->
  forall state, storage (snd (MonitorState.fetch request w)) = Some state ->
                countersExclusive state.
Proof.
  intros Hw. unfold MonitorState.fetch.
  repeat match goal with
         | |- context [if ?b then _ else _] => destruct b
         | |- context [match MonitorState.body request with _ => _ end] =>
             destruct (MonitorState.body request) as [[| | |]|]
         end;
    try (apply update_exclusive; [ | exact Hw ]);
    try (apply updateAt_exclusive; [ | exact Hw ]);
    try (cbn; exact Hw);
    unfold countersExclusive; try (intros; cbn; tauto).
  - intros state E.
    pose proof (getState_storage w) as Hs.
    pose proof (getState_exclusive w Hw) as Hx.
    destruct (MonitorState.getState w) as [s w1]; cbn in *.
    rewrite Hs in E. inversion E; subst. exact Hx.
  - intros now0 state0 H.
    destruct (updateRedirectRuleState_counters enabled reason now0 state0) as [-> ->].
    exact H.
Qed.

(** *** What the stub's calls do on a stored state *)

Ltac run_call H :=
  unfold StateManager.call; cbn;
  unfold MonitorState.update, MonitorState.updateAt, MonitorState.getState;
  rewrite H; reflexivity.

Lemma call_getState w state :
  storage w = Some state -> StateManager.getState w = (Ok state, w).
Proof. intros H. unfold StateManager.getState. run_call H. Qed.

Lemma call_resetCounters w state :
  storage w = Some state ->
  StateManager.resetCounters w
  = (Ok (MonitorState.resetCounters state), store (MonitorState.resetCounters state) w).
Proof. intros H. unfold StateManager.resetCounters. run_call H. Qed.

Lemma call_incrementApiErrors w state :
  storage w = Some state ->
  StateManager.incrementApiErrors w
  = (Ok (MonitorState.incrementApiErrors state), store (MonitorState.incrementApiErrors state) w).
Proof. intros H. unfold StateManager.incrementApiErrors. run_call H. Qed.

Lemma call_disableApiCalls w state :
  storage w = Some state ->
  StateManager.disableApiCalls w
  = (Ok (MonitorState.disableApiCalls state), store (MonitorState.disableApiCalls state) w).
Proof. intros H. unfold StateManager.disableApiCalls. run_call H. Qed.

Lemma call_simulateFailover threshold w state :
  storage w = Some state ->
  StateManager.simulateFailover threshold w
  = (Ok (MonitorState.simulateFailover threshold state), store (MonitorState.simulateFailover threshold state) w).
Proof. intros H. unfold StateManager.simulateFailover. run_call H. Qed.

Lemma call_simulateRecovery threshold w state :
  storage w = Some state ->
  StateManager.simulateRecovery threshold w
  = (Ok (MonitorState.simulateRecovery threshold state), store (MonitorState.simulateRecovery threshold state) w).
Proof. intros H. unfold StateManager.simulateRecovery. run_call H. Qed.

Lemma call_incrementFailure w state :
  storage w = Some state ->
  StateManager.incrementFailure w
  = (Ok (MonitorState.incrementFailure (clock w (ticks w)) state),
     store (MonitorState.incrementFailure (clock w (ticks w)) state) (tick w)).
Proof. intros H. unfold StateManager.incrementFailure. run_call H. Qed.

Lemma call_incrementRecovery w state :
  storage w = Some state ->
  StateManager.incrementRecovery w
  = (Ok (MonitorState.incrementRecovery (clock w (ticks w)) state),
     store (MonitorState.incrementRecovery (clock w (ticks w)) state) (tick w)).
Proof. intros H. unfold StateManager.incrementRecovery. run_call H. Qed.

Lemma call_cleanMaintenanceWindows w state :
  storage w = Some state ->
  StateManager.cleanMaintenanceWindows w
  = (Ok (MonitorState.cleanMaintenanceWindows (clock w (ticks w)) state),
     store (MonitorState.cleanMaintenanceWindows (clock w (ticks w)) state) (tick w)).
Proof. intros H. unfold StateManager.cleanMaintenanceWindows. run_call H. Qed.

Lemma call_updateCronExecution w state :
  storage w = Some state ->
  StateManager.updateCronExecution w
  = (Ok (MonitorState.updateCronExecution (clock w (ticks w)) state),
     store (MonitorState.updateCronExecution (clock w (ticks w)) state) (tick w)).
Proof. intros H. unfold StateManager.updateCronExecution. run_call H. Qed.

Lemma call_updateRedirectRuleState enabled reason w state :
  storage w = Some state ->
  StateManager.updateRedirectRuleState enabled reason w
  = (Ok (MonitorState.updateRedirectRuleState enabled reason (clock w (ticks w)) state),
     store (MonitorState.updateRedirectRuleState enabled reason (clock w (ticks w)) state) (tick w)).
Proof. intros H. unfold StateManager.updateRedirectRuleState. run_call H. Qed.

End Store.

(** C2. In every state the Durable Object can reach through its
    operations (increment-failure, increment-recovery, reset-counters,
    simulate-failover, simulate-recovery and all the others), the failure
    counter is zero or the recovery counter is zero. *)
Theorem counters_never_both_positive :
  forall w, reachable w ->
  forall state, storage w = Some state ->
    failureCount state = 0 \/ recoveryCount state = 0.
Proof.
  intros w H. induction H as [w E | w request H IH | w w' H IH E]; intros state Hs.
  - congruence.
  - exact (fetch_exclusive request w IH state Hs).
  - rewrite E in Hs. exact (IH state Hs).
Qed.

(** * The Rule Controller *)

Lemma eventsSince_app w w' events :
  trace w' = trace w ++ events -> eventsSince w w' = events.
Proof.
  intros E. unfold eventsSince. rewrite E.
  rewrite skipn_app, skipn_all, Nat.sub_diag. reflexivity.
Qed.

Lemma extends_events w w' events : extends w w' events -> eventsSince w w' = events.
Proof. intros H. apply eventsSince_app, H. Qed.

Lemma extends_refl w : extends w w [].
Proof.
  unfold extends; cbn. rewrite app_nil_r, Nat.add_0_r. tauto.
Qed.

Lemma requestsOf_app a b : requestsOf (a ++ b) = requestsOf a ++ requestsOf b.
Proof. apply flat_map_app. Qed.

Lemma sleepsOf_app a b : sleepsOf (a ++ b) = sleepsOf a ++ sleepsOf b.
Proof. apply flat_map_app. Qed.

Lemma extends_trans w1 w2 w3 a b :
  extends w1 w2 a -> extends w2 w3 b -> extends w1 w3 (a ++ b).
Proof.
  unfold extends.
  intros (S1 & C1 & T1 & N1 & Q1 & R1) (S2 & C2 & T2 & N2 & Q2 & R2).
  rewrite requestsOf_app, length_app.
  repeat split; try congruence.
  - lia.
  - rewrite R2, R1, app_assoc. reflexivity.
Qed.

Lemma extends_fetch req w :
  extends w (snd (fetch req w)) [EvFetch req (net w (sent w) req)].
Proof.
  unfold extends; cbn. repeat split; auto. lia.
Qed.

Lemma extends_sleep ms w : extends w (sleep ms w) [EvSleep ms].
Proof.
  unfold extends; cbn. repeat split; auto.
Qed.

Lemma error_eta (e : JsError) : e = mkError (message e).
Proof. destruct e; reflexivity. Qed.

Lemma isAuthenticationFailed_eq e :
  CloudflareAPIClient.isAuthenticationFailed e = true ->
  e = mkError "AUTHENTICATION_FAILED".
Proof.
  unfold CloudflareAPIClient.isAuthenticationFailed. intros H.
  apply String.eqb_eq in H. rewrite (error_eta e), H. reflexivity.
Qed.

Lemma ok_not_auth r :
  Http.ok r = true -> (Http.status r =? 401) || (Http.status r =? 403) = false.
Proof.
  unfold Http.ok. intros H. apply andb_true_iff in H. destruct H as [H1 H2].
  apply Z.leb_le in H1, H2.
  apply orb_false_iff; split; apply Z.eqb_neq; lia.
Qed.

Section Client.
Import CloudflareAPIClient.
Variable this : CloudflareAPIClient.t.
Variable ruleId : string.
Variable enabled : bool.

(** What one attempt does, by what the network answers. *)
Lemma tryUpdate_eq w :
  tryUpdate this ruleId enabled w =
  let get := getRuleset this ruleId in
  let res1 := net w (sent w) get in
  let w1 := snd (fetch get w) in
  match res1 with
  | Http.Rejected e => (Throw e, w1)
  | Http.Resolved r1 =>
      if Http.ok r1 then
        match Http.rules r1 with
        | None =>
            (Throw (mkError "Cannot read properties of undefined (reading 'rules')"), w1)
        | Some rs =>
            let put := putRuleset this ruleId (updatedRules enabled rs) in
            let res2 := net w (S (sent w)) put in
            let w2 := snd (fetch put w1) in
            match res2 with
            | Http.Rejected e => (Throw e, w2)
            | Http.Resolved r2 =>
                if Http.ok r2 then (Ok true, w2)
                else if (Http.status r2 =? 401) || (Http.status r2 =? 403)
                     then (Throw (mkError "AUTHENTICATION_FAILED"), w2)
                     else (Throw (mkError ("HTTP " +++ showZ (Http.status r2) +++ ": "
                                           +++ Http.statusText r2)), w2)
            end
        end
      else if (Http.status r1 =? 401) || (Http.status r1 =? 403)
           then (Throw (mkError "AUTHENTICATION_FAILED"), w1)
           else (Throw (mkError ("HTTP " +++ showZ (Http.status r1) +++ ": "
                                 +++ Http.statusText r1)), w1)
  end.
Proof.
  unfold tryUpdate, bind, awaitFetch, checkOk, readRules, ret, throw, fetch.
  cbn [snd fst sent net storage clock ticks trace].
  destruct (net w (sent w) (getRuleset this ruleId)) as [e1 | r1]; [reflexivity|].
  destruct (Http.ok r1); cbn [negb].
  - destruct (Http.rules r1) as [rs|]; [|reflexivity].
    cbn [snd fst sent net storage clock ticks trace].
    destruct (net w (S (sent w)) (putRuleset this ruleId (updatedRules enabled rs)))
      as [e2 | r2]; [reflexivity|].
    destruct (Http.ok r2); cbn [negb]; [reflexivity|].
    destruct ((Http.status r2 =? 401) || (Http.status r2 =? 403)); reflexivity.
  - destruct ((Http.status r1 =? 401) || (Http.status r1 =? 403)); reflexivity.
Qed.

Ltac attempt_cases w :=
  rewrite (tryUpdate_eq w); cbv zeta;
  destruct (net w (sent w) (getRuleset this ruleId)) as [e1 | r1] eqn:N1;
  [ | destruct (Http.ok r1) eqn:O1;
      [ destruct (Http.rules r1) as [rs |] eqn:R1;
        [ destruct (net w (S (sent w))
                      (putRuleset this ruleId (updatedRules enabled rs)))
            as [e2 | r2] eqn:N2;
          [ | destruct (Http.ok r2) eqn:O2;
              [ | destruct ((Http.status r2 =? 401) || (Http.status r2 =? 403)) eqn:A2 ] ]
        | ]
      | destruct ((Http.status r1 =? 401) || (Http.status r1 =? 403)) eqn:A1 ] ].

Ltac solve_extends :=
  unfold extends; cbn;
  repeat match goal with H : net _ _ _ = _ |- _ => rewrite H; clear H end;
  rewrite <- ?app_assoc; cbn; repeat split; try reflexivity; lia.

(** Rewrite with what is known of the statuses seen. *)
Ltac known_status :=
  cbn [existsb authResponse orb];
  repeat match goal with
         | H : (Http.status _ =? 401) || (Http.status _ =? 403) = _ |- _ =>
             rewrite H
         end.

(** The facts of [tryUpdate_spec] for an attempt whose events are [evs],
    the last of them the request [req] answered by [res], after [pre]. *)
Ltac attempt_facts evs pre req res :=
  exists evs;
  split; [solve_extends|]; split; [reflexivity|]; split; [reflexivity|];
  split; [exists pre, req, res; split; [reflexivity|known_status; reflexivity]|];
  split; [first [reflexivity | known_status; discriminate]|];
  split; [first [discriminate
                | intros b Hb; inversion Hb; split;
                  [reflexivity|known_status; reflexivity]]|].

(** An attempt that ends with the answer [res] to its GET. *)
Ltac get_only res :=
  attempt_facts [EvFetch (getRuleset this ruleId) res]
    (@nil Event) (getRuleset this ruleId) res;
  let H := fresh in
  intros ? ? [H|[]] ?; inversion H; subst; discriminate.

(** An attempt whose GET got [r1] with the rules [rs] and that ends with
    the answer [res] to its PUT. *)
Ltac get_put r1 rs res :=
  attempt_facts
    [EvFetch (getRuleset this ruleId) (Http.Resolved r1);
     EvFetch (putRuleset this ruleId (updatedRules enabled rs)) res]
    [EvFetch (getRuleset this ruleId) (Http.Resolved r1)]
    (putRuleset this ruleId (updatedRules enabled rs)) res;
  let H := fresh in
  intros ? ? [H|[H|[]]] ?; inversion H; subst; [discriminate|];
  exists r1, rs; repeat split; auto.

(** One attempt adds one GET and at most one PUT, whose body is the
    fetched collection mapped through [updatedRules]; a 401 or 403 can
    only be the last response it sees and makes it throw
    AUTHENTICATION_FAILED. *)
Lemma tryUpdate_spec w r w' :
  tryUpdate this ruleId enabled w = (r, w') ->
  exists events,
    extends w w' events
    /\ sleepsOf events = []
    /\ attemptsOf events = 1%nat
    /\ (exists pre req res,
          events = pre ++ [EvFetch req res] /\ existsb authResponse pre = false)
    /\ (existsb authResponse events = true ->
        r = Throw (mkError "AUTHENTICATION_FAILED"))
    /\ (forall b, r = Ok b -> b = true /\ existsb authResponse events = false)
    /\ (forall req res, In (EvFetch req res) events -> Http.method req = Http.PUT ->
        exists r1 rs,
          events = [EvFetch (getRuleset this ruleId) (Http.Resolved r1); EvFetch req res]
          /\ Http.ok r1 = true
          /\ Http.rules r1 = Some rs
          /\ req = putRuleset this ruleId (updatedRules enabled rs)).
Proof.
  attempt_cases w; intros E; injection E as <- <-;
    try pose proof (ok_not_auth r1 O1) as A1;
    try pose proof (ok_not_auth r2 O2) as A2.
  - (* the GET is rejected *)
    get_only (Http.Rejected e1).
  - (* the GET is ok and the PUT is rejected *)
    get_put r1 rs (Http.Rejected e2).
  - (* both are ok *)
    get_put r1 rs (Http.Resolved r2).
  - (* the PUT is refused with 401 or 403 *)
    get_put r1 rs (Http.Resolved r2).
  - (* the PUT is in error *)
    get_put r1 rs (Http.Resolved r2).
  - (* the GET is ok but carries no rules *)
    get_only (Http.Resolved r1).
  - (* the GET is refused with 401 or 403 *)
    get_only (Http.Resolved r1).
  - (* the GET is in error *)
    get_only (Http.Resolved r1).
Qed.

(** The loop, unrolled over its three attempts. *)
Lemma updateRedirectRule_eq w :
  updateRedirectRule this ruleId enabled w =
  match tryUpdate this ruleId enabled w with
  | (Ok result, w1) => (Ok result, w1)
  | (Throw e1, w1) =>
      if isAuthenticationFailed e1 then (Throw e1, w1)
      else
        match tryUpdate this ruleId enabled (sleep 1000 w1) with
        | (Ok result, w2) => (Ok result, w2)
        | (Throw e2, w2) =>
            if isAuthenticationFailed e2 then (Throw e2, w2)
            else
              match tryUpdate this ruleId enabled (sleep 2000 w2) with
              | (Ok result, w3) => (Ok result, w3)
              | (Throw e3, w3) =>
                  if isAuthenticationFailed e3 then (Throw e3, w3)
                  else (Ok false, w3)
              end
        end
  end.
Proof. reflexivity. Qed.

Lemma attemptsOf_app a b : attemptsOf (a ++ b) = (attemptsOf a + attemptsOf b)%nat.
Proof.
  unfold attemptsOf. rewrite requestsOf_app, filter_app, length_app. reflexivity.
Qed.

(** A transient error means the attempt saw no 401 or 403. *)
Lemma transient_no_auth w e w1 events :
  tryUpdate this ruleId enabled w = (Throw e, w1) ->
  isAuthenticationFailed e = false ->
  (existsb authResponse events = true -> Throw (A:=bool) e = Throw (mkError "AUTHENTICATION_FAILED")) ->
  existsb authResponse events = false.
Proof.
  intros _ T Au. destruct (existsb authResponse events); [|reflexivity].
  specialize (Au eq_refl). inversion Au; subst. discriminate.
Qed.

(** The loop over any attempt numbers: at most one attempt per number;
    a 401 or 403 ends the run at once, with AUTHENTICATION_FAILED thrown;
    and every PUT re-submits the collection the GET before it fetched,
    mapped through [updatedRules]. *)
Lemma retryLoop_spec remaining :
  forall w r w',
    retryLoop this ruleId enabled remaining w = (r, w') ->
    exists events,
      extends w w' events
      /\ (attemptsOf events <= List.length remaining)%nat
      /\ (existsb authResponse events = true ->
          r = Throw (mkError "AUTHENTICATION_FAILED")
          /\ exists pre req res,
               events = pre ++ [EvFetch req res]
               /\ authResponse (EvFetch req res) = true
               /\ existsb authResponse pre = false)
      /\ (forall req res, In (EvFetch req res) events -> Http.method req = Http.PUT ->
          exists pre post r1 rs,
            events = pre ++ [EvFetch (getRuleset this ruleId) (Http.Resolved r1);
                             EvFetch req res] ++ post
            /\ Http.ok r1 = true
            /\ Http.rules r1 = Some rs
            /\ req = putRuleset this ruleId (updatedRules enabled rs)).
Proof.
  induction remaining as [| attempt rest IH]; intros w r w' E.
  - inversion E; subst. exists []. split; [apply extends_refl|].
    split; [cbn; lia|]. split; [discriminate|]. intros req res [].
  - cbn [retryLoop] in E.
    destruct (tryUpdate this ruleId enabled w) as [r1 w1] eqn:T1.
    pose proof T1 as T1'.
    destruct (tryUpdate_spec _ _ _ T1)
      as (ev1 & X1 & S1 & A1 & (pre1 & q1 & s1 & L1 & NP1) & Au1 & Ok1 & P1).
    assert (Last1 : existsb authResponse ev1 = true ->
                    exists pre req res, ev1 = pre ++ [EvFetch req res]
                      /\ authResponse (EvFetch req res) = true
                      /\ existsb authResponse pre = false).
    { intros H. exists pre1, q1, s1. repeat split; auto.
      rewrite L1, existsb_app, NP1 in H. cbn [existsb orb] in H.
      rewrite orb_false_r in H. exact H. }
    assert (Put1 : forall req res, In (EvFetch req res) ev1 -> Http.method req = Http.PUT ->
              exists pre post r1 rs,
                ev1 = pre ++ [EvFetch (getRuleset this ruleId) (Http.Resolved r1);
                              EvFetch req res] ++ post
                /\ Http.ok r1 = true /\ Http.rules r1 = Some rs
                /\ req = putRuleset this ruleId (updatedRules enabled rs)).
    { intros req res I Mp. destruct (P1 req res I Mp) as (r0 & rs & Ev & O & R & Q).
      exists [], [], r0, rs. rewrite app_nil_r. auto. }
    destruct r1 as [result | error].
    + injection E as <- <-. exists ev1. split; [exact X1|].
      split; [rewrite A1; cbn; lia|]. split; [|exact Put1].
      intros H. destruct (Ok1 result eq_refl) as [_ N]. congruence.
    + destruct (isAuthenticationFailed error) eqn:T.
      * injection E as <- <-. exists ev1. split; [exact X1|].
        split; [rewrite A1; cbn; lia|]. split; [|exact Put1].
        intros H. split; [|exact (Last1 H)].
        rewrite (isAuthenticationFailed_eq _ T). reflexivity.
      * pose proof (transient_no_auth w error w1 ev1 T1' T Au1) as NA1.
        set (ev_s := if attempt <? 3 then [EvSleep (backoffMs attempt)] else []).
        assert (Xs : extends w1 (if attempt <? 3 then sleep (backoffMs attempt) w1 else w1) ev_s).
        { unfold ev_s. destruct (attempt <? 3); [apply extends_sleep|apply extends_refl]. }
        assert (NAs : existsb authResponse ev_s = false).
        { unfold ev_s. destruct (attempt <? 3); reflexivity. }
        assert (As : attemptsOf ev_s = 0%nat).
        { unfold ev_s. destruct (attempt <? 3); reflexivity. }
        destruct (IH _ _ _ E) as (ev2 & X2 & A2 & Au2 & P2).
        exists (ev1 ++ ev_s ++ ev2).
        split; [exact (extends_trans _ _ _ _ _ X1 (extends_trans _ _ _ _ _ Xs X2))|].
        split; [rewrite !attemptsOf_app, A1, As; cbn; lia|].
        split.
        -- rewrite !existsb_app, NA1, NAs. cbn [orb]. intros H.
           destruct (Au2 H) as (R & pre & req & res & L & Ar & NP).
           split; [exact R|].
           exists (ev1 ++ ev_s ++ pre), req, res.
           split; [rewrite L, <- !app_assoc; reflexivity|].
           split; [exact Ar|].
           rewrite !existsb_app, NA1, NAs, NP. reflexivity.
        -- intros req res I Mp.
           apply in_app_or in I. destruct I as [I|I].
           ++ destruct (Put1 req res I Mp) as (pre & post & r0 & rs & Ev & O & R & Q).
              exists pre, (post ++ ev_s ++ ev2), r0, rs.
              split; [rewrite Ev, <- !app_assoc; reflexivity|]. auto.
           ++ apply in_app_or in I. destruct I as [I|I].
              ** exfalso. unfold ev_s in I. destruct (attempt <? 3); cbn in I; [|exact I].
                 destruct I as [I|[]]. discriminate.
              ** destruct (P2 req res I Mp) as (pre & post & r0 & rs & Ev & O & R & Q).
                 exists (ev1 ++ ev_s ++ pre), post, r0, rs.
                 split; [rewrite Ev, <- !app_assoc; reflexivity|]. auto.
Qed.

Lemma tryUpdate_events w r w' :
  tryUpdate this ruleId enabled w = (r, w') ->
  exists events, extends w w' events /\ attemptEvents events.
Proof.
  intros T.
  destruct (tryUpdate_spec _ _ _ T) as (ev & X & S & A & (pre & q & s & L & _) & _).
  exists ev. split; [exact X|]. repeat split; auto. exists pre, q, s. exact L.
Qed.

(** The events of a run: one, two or three attempts, with a wait of
    1000 ms after the first and of 2000 ms after the second. *)
Lemma updateRedirectRule_events w r w' :
  updateRedirectRule this ruleId enabled w = (r, w') ->
  exists ev1, attemptEvents ev1 /\
    (extends w w' ev1
     \/ exists ev2, attemptEvents ev2 /\
          (extends w w' (ev1 ++ [EvSleep 1000] ++ ev2)
           \/ exists ev3, attemptEvents ev3 /\
                extends w w' (ev1 ++ [EvSleep 1000] ++ ev2 ++ [EvSleep 2000] ++ ev3))).
Proof.
  intros U. rewrite updateRedirectRule_eq in U.
  destruct (tryUpdate this ruleId enabled w) as [r1 w1] eqn:T1.
  destruct (tryUpdate_events _ _ _ T1) as (ev1 & X1 & E1).
  exists ev1. split; [exact E1|].
  destruct r1 as [b1|e1]; [injection U as <- <-; left; exact X1|].
  destruct (isAuthenticationFailed e1); [injection U as <- <-; left; exact X1|].
  destruct (tryUpdate this ruleId enabled (sleep 1000 w1)) as [r2 w2] eqn:T2.
  destruct (tryUpdate_events _ _ _ T2) as (ev2 & X2 & E2).
  pose proof (extends_trans _ _ _ _ _ X1
                (extends_trans _ _ _ _ _ (extends_sleep 1000 w1) X2)) as X12.
  right. exists ev2. split; [exact E2|].
  destruct r2 as [b2|e2]; [injection U as <- <-; left; exact X12|].
  destruct (isAuthenticationFailed e2); [injection U as <- <-; left; exact X12|].
  destruct (tryUpdate this ruleId enabled (sleep 2000 w2)) as [r3 w3] eqn:T3.
  destruct (tryUpdate_events _ _ _ T3) as (ev3 & X3 & E3).
  pose proof (extends_trans _ _ _ _ _ X12
                (extends_trans _ _ _ _ _ (extends_sleep 2000 w2) X3)) as X123.
  rewrite <- !app_assoc in X123.
  right. exists ev3. split; [exact E3|].
  destruct r3 as [b3|e3]; [injection U as <- <-; exact X123|].
  destruct (isAuthenticationFailed e3); injection U as <- <-; exact X123.
Qed.
End Client.

(** C6. [updateRedirectRule] makes at most three attempts; it waits 1000 ms
    after a transient failure of attempt 1 and 2000 ms after one of
    attempt 2, and never after the last attempt it makes; when the first
    two attempts fail with transient errors, three transient failures
    return [false] (nothing is thrown) and a success of the third returns
    [true], in both cases after exactly the two waits. *)
Theorem retry_policy :
  forall this ruleId enabled w r w',
    CloudflareAPIClient.updateRedirectRule this ruleId enabled w = (r, w') ->
    let events := eventsSince w w' in
    (1 <= attemptsOf events <= 3)%nat
    /\ sleepsOf events = firstn (attemptsOf events - 1) [1000; 2000]
    /\ (exists pre req res, events = pre ++ [EvFetch req res])
    /\ (forall e1 w1 e2 w2 r3 w3,
          CloudflareAPIClient.tryUpdate this ruleId enabled w = (Throw e1, w1) ->
          CloudflareAPIClient.isAuthenticationFailed e1 = false ->
          CloudflareAPIClient.tryUpdate this ruleId enabled (sleep 1000 w1) = (Throw e2, w2) ->
          CloudflareAPIClient.isAuthenticationFailed e2 = false ->
          CloudflareAPIClient.tryUpdate this ruleId enabled (sleep 2000 w2) = (r3, w3) ->
          w' = w3
          /\ attemptsOf events = 3%nat
          /\ sleepsOf events = [1000; 2000]
          /\ (forall e3, r3 = Throw e3 ->
                CloudflareAPIClient.isAuthenticationFailed e3 = false -> r = Ok false)
          /\ (r3 = Ok true -> r = Ok true)).
Proof.
  intros this ruleId enabled w r w' U events.
  assert (Shape :
    (1 <= attemptsOf events <= 3)%nat
    /\ sleepsOf events = firstn (attemptsOf events - 1) [1000; 2000]
    /\ (exists pre req res, events = pre ++ [EvFetch req res])).
  { destruct (updateRedirectRule_events _ _ _ _ _ _ U)
      as (ev1 & (S1 & A1 & (p1 & q1 & s1 & L1))
          & [X | (ev2 & (S2 & A2 & (p2 & q2 & s2 & L2))
                  & [X | (ev3 & (S3 & A3 & (p3 & q3 & s3 & L3)) & X)])]);
      unfold events; rewrite (extends_events _ _ _ X);
      rewrite ?attemptsOf_app, ?sleepsOf_app, ?S1, ?S2, ?S3, ?A1, ?A2, ?A3; cbn;
      (split; [lia|]); (split; [reflexivity|]).
    - exists p1, q1, s1. exact L1.
    - exists (ev1 ++ EvSleep 1000 :: p2), q2, s2.
      rewrite L2, <- app_assoc. reflexivity.
    - exists (ev1 ++ EvSleep 1000 :: ev2 ++ EvSleep 2000 :: p3), q3, s3.
      rewrite L3, <- !app_assoc. cbn. rewrite <- app_assoc. reflexivity. }
  destruct Shape as (B & S & L).
  split; [exact B|]. split; [exact S|]. split; [exact L|].
  intros e1 w1 e2 w2 r3 w3 T1 N1 T2 N2 T3.
  rewrite updateRedirectRule_eq, T1, N1, T2, N2, T3 in U.
  destruct (tryUpdate_events _ _ _ _ _ _ T1) as (ev1 & X1 & (S1 & A1 & _)).
  destruct (tryUpdate_events _ _ _ _ _ _ T2) as (ev2 & X2 & (S2 & A2 & _)).
  destruct (tryUpdate_events _ _ _ _ _ _ T3) as (ev3 & X3 & (S3 & A3 & _)).
  assert (W : w' = w3).
  { destruct r3 as [b|e3]; [|destruct (CloudflareAPIClient.isAuthenticationFailed e3)];
      injection U as _ <-; reflexivity. }
  pose proof (extends_trans _ _ _ _ _ X1
                (extends_trans _ _ _ _ _ (extends_sleep 1000 w1)
                   (extends_trans _ _ _ _ _ X2
                      (extends_trans _ _ _ _ _ (extends_sleep 2000 w2) X3)))) as X.
  split; [exact W|].
  unfold events. rewrite W, (extends_events _ _ _ X).
  rewrite !attemptsOf_app, !sleepsOf_app, S1, S2, S3, A1, A2, A3.
  split; [reflexivity|]. split; [reflexivity|]. split.
  - intros e3 -> N3. rewrite N3 in U. injection U as <- _. reflexivity.
  - intros ->. injection U as <- _. reflexivity.
Qed.

(** ** The re-submitted rule collection *)

Lemma getProp_setProp_same k v o : getProp k (setProp k v o) = Some v.
Proof.
  induction o as [| [k' v'] o IH]; cbn.
  - rewrite String.eqb_refl. reflexivity.
  - destruct (String.eqb k' k) eqn:E; cbn; rewrite E; auto.
Qed.

Lemma getProp_setProp_other k k' v o :
  k' <> k -> getProp k' (setProp k v o) = getProp k' o.
Proof.
  intros N. induction o as [| [k0 v0] o IH]; cbn.
  - apply String.eqb_neq in N. rewrite String.eqb_sym, N. reflexivity.
  - destruct (String.eqb k0 k) eqn:E; cbn.
    + apply String.eqb_eq in E; subst k0.
      apply String.eqb_neq in N. rewrite String.eqb_sym, N. reflexivity.
    + destruct (String.eqb k0 k'); auto.
Qed.

(** Every rule of the re-submitted collection has the requested flag and
    is otherwise the fetched rule. *)
Lemma updatedRules_nth enabled rules i rule :
  nth_error rules i = Some rule ->
  exists rule',
    nth_error (CloudflareAPIClient.updatedRules enabled rules) i = Some rule'
    /\ getProp "enabled" rule' = Some (JBool enabled)
    /\ forall k, k <> "enabled" -> getProp k rule' = getProp k rule.
Proof.
  intros H. unfold CloudflareAPIClient.updatedRules.
  exists (setProp "enabled" (JBool enabled) rule).
  split; [rewrite nth_error_map, H; reflexivity|].
  split; [apply getProp_setProp_same|].
  intros k N. apply getProp_setProp_other; exact N.
Qed.

(** C8, as stated, fails: with the two-rule collection [demoRules] and
    the call for rule "a", the collection put back has the flag of rule
    "b" overwritten too, so it is not the fetched collection with only the
    target's flag changed. *)
Lemma other_rules_overwritten :
  requestsOf (trace (snd (CloudflareAPIClient.updateRedirectRule demoClient "a" true worldDown)))
  = [ CloudflareAPIClient.getRuleset demoClient "a";
      CloudflareAPIClient.putRuleset demoClient "a"
        [ [("id", JString "a"); ("enabled", JBool true)];
          [("id", JString "b"); ("enabled", JBool true);
           ("description", JString "other")] ] ]
  /\ map Http.body
       (requestsOf
          (trace (snd (CloudflareAPIClient.updateRedirectRule demoClient "a" true worldDown))))
     <> [None; Some (onlyTargetOverwritten "a" true demoRules)].
Proof.
  split; [vm_compute; reflexivity|].
  vm_compute. intros H. discriminate H.
Qed.

(** C8, amended.  Every PUT of [updateRedirectRule] re-submits the
    collection fetched by the GET just before it with the enabled flag of
    every rule overwritten to the requested value; the collection keeps its
    length and order, and every other property of every rule is
    unchanged. *)
Theorem every_rule_flag_overwritten :
  forall this ruleId enabled w r w',
    CloudflareAPIClient.updateRedirectRule this ruleId enabled w = (r, w') ->
    forall req res,
      In (EvFetch req res) (eventsSince w w') -> Http.method req = Http.PUT ->
      exists pre post r1 rules,
        eventsSince w w'
          = pre ++ [EvFetch (CloudflareAPIClient.getRuleset this ruleId) (Http.Resolved r1);
                    EvFetch req res] ++ post
        /\ Http.rules r1 = Some rules
        /\ Http.body req = Some (CloudflareAPIClient.updatedRules enabled rules)
        /\ List.length (CloudflareAPIClient.updatedRules enabled rules) = List.length rules
        /\ forall i rule, nth_error rules i = Some rule ->
             exists rule',
               nth_error (CloudflareAPIClient.updatedRules enabled rules) i = Some rule'
               /\ getProp "enabled" rule' = Some (JBool enabled)
               /\ forall k, k <> "enabled" -> getProp k rule' = getProp k rule.
Proof.
  intros this ruleId enabled w r w' U req res I Mp.
  destruct (retryLoop_spec this ruleId enabled _ _ _ _ U) as (events & X & _ & _ & P).
  rewrite (extends_events _ _ _ X) in *.
  destruct (P req res I Mp) as (pre & post & r1 & rules & Ev & _ & R & Q).
  exists pre, post, r1, rules.
  split; [exact Ev|]. split; [exact R|].
  split; [rewrite Q; reflexivity|].
  split; [unfold CloudflareAPIClient.updatedRules; apply length_map|].
  intros i rule H. apply updatedRules_nth; exact H.
Qed.

Lemma every_rule_flag_overwritten_witness :
  exists pre post r1 rules,
    [ EvFetch (CloudflareAPIClient.getRuleset demoClient "a") (response 200 (Some demoRules));
      EvFetch (CloudflareAPIClient.putRuleset demoClient "a"
                 (CloudflareAPIClient.updatedRules true demoRules))
        (response 200 (Some demoRules)) ]
      = pre ++ [EvFetch (CloudflareAPIClient.getRuleset demoClient "a") (Http.Resolved r1);
                EvFetch (CloudflareAPIClient.putRuleset demoClient "a"
                           (CloudflareAPIClient.updatedRules true demoRules))
                  (response 200 (Some demoRules))] ++ post
    /\ Http.rules r1 = Some rules
    /\ Some (CloudflareAPIClient.updatedRules true demoRules)
       = Some (CloudflareAPIClient.updatedRules true rules)
    /\ List.length (CloudflareAPIClient.updatedRules true rules) = List.length rules
    /\ forall i rule, nth_error rules i = Some rule ->
         exists rule',
           nth_error (CloudflareAPIClient.updatedRules true rules) i = Some rule'
           /\ getProp "enabled" rule' = Some (JBool true)
           /\ forall k, k <> "enabled" -> getProp k rule' = getProp k rule.
Proof.
  apply (every_rule_flag_overwritten demoClient "a" true worldDown
           (Ok true)
           (snd (CloudflareAPIClient.updateRedirectRule demoClient "a" true worldDown))
           eq_refl
           (CloudflareAPIClient.putRuleset demoClient "a"
              (CloudflareAPIClient.updatedRules true demoRules))
           (response 200 (Some demoRules))).
  - right. left. reflexivity.
  - reflexivity.
Defined.

(** * The decision engine *)

Lemma updateRedirectRule_extends this ruleId enabled w r w' :
  CloudflareAPIClient.updateRedirectRule this ruleId enabled w = (r, w') ->
  extends w w' (eventsSince w w').
Proof.
  intros U.
  destruct (retryLoop_spec this ruleId enabled _ _ _ _ U) as (events & X & _).
  rewrite (extends_events _ _ _ X). exact X.
Qed.

(** The [try ... catch] around the rule controller, by the controller's
    outcome. *)
Lemma changeRedirectRule_eq config enabled reason w state r w1 :
  storage w = Some state ->
  CloudflareAPIClient.updateRedirectRule (apiClient config) (redirectRuleId config) enabled w
    = (r, w1) ->
  changeRedirectRule config enabled reason w =
  (Ok tt,
   match r with
   | Ok true =>
       store (MonitorState.resetCounters
                (MonitorState.updateRedirectRuleState enabled reason
                   (clock w1 (ticks w1)) state)) (tick w1)
   | Ok false => store (MonitorState.incrementApiErrors state) w1
   | Throw error =>
       if CloudflareAPIClient.isAuthenticationFailed error
       then store (MonitorState.disableApiCalls state) w1
       else store (MonitorState.incrementApiErrors state) w1
   end).
Proof.
  intros S U.
  pose proof (updateRedirectRule_extends _ _ _ _ _ _ U) as (S1 & _).
  rewrite S in S1.
  unfold changeRedirectRule, tryCatch, bind. rewrite U.
  destruct r as [[|]|error].
  - rewrite (call_updateRedirectRuleState enabled reason w1 state S1).
    rewrite (call_resetCounters (store _ (tick w1)) _ eq_refl). reflexivity.
  - rewrite (call_incrementApiErrors w1 state S1). reflexivity.
  - destruct (CloudflareAPIClient.isAuthenticationFailed error).
    + unfold bind. rewrite (call_disableApiCalls w1 state S1). reflexivity.
    + unfold bind. rewrite (call_incrementApiErrors w1 state S1). reflexivity.
Qed.

(** C5. When any attempt of [updateRedirectRule] sees a 401 or 403
    response, that response is the last event of the run (no further
    attempt, no wait) and the run throws AUTHENTICATION_FAILED instead of
    returning [false]; the caller's [catch] then sets [apiCallsDisabled] and
    leaves [apiErrorsTotal] as it was. *)
Theorem authentication_short_circuit :
  forall config enabled reason w state r w1,
    storage w = Some state ->
    CloudflareAPIClient.updateRedirectRule (apiClient config) (redirectRuleId config) enabled w
      = (r, w1) ->
    existsb authResponse (eventsSince w w1) = true ->
    r = Throw (mkError "AUTHENTICATION_FAILED")
    /\ (exists pre req resp,
          eventsSince w w1 = pre ++ [EvFetch req (Http.Resolved resp)]
          /\ (Http.status resp = 401 \/ Http.status resp = 403)
          /\ existsb authResponse pre = false)
    /\ changeRedirectRule config enabled reason w
       = (Ok tt, store (MonitorState.disableApiCalls state) w1)
    /\ apiCallsDisabled (MonitorState.disableApiCalls state) = true
    /\ apiErrorsTotal (MonitorState.disableApiCalls state) = apiErrorsTotal state.
Proof.
  intros config enabled reason w state r w1 S U A.
  destruct (retryLoop_spec _ _ _ _ _ _ _ U) as (events & X & _ & Au & _).
  rewrite (extends_events _ _ _ X) in *.
  destruct (Au A) as (R & pre & req & res & L & Ar & NP).
  split; [exact R|]. split.
  - destruct res as [e|resp]; [discriminate Ar|].
    exists pre, req, resp. split; [exact L|]. split; [|exact NP].
    cbn in Ar. apply orb_true_iff in Ar.
    destruct Ar as [H|H]; apply Z.eqb_eq in H; auto.
  - split; [|split; reflexivity].
    rewrite (changeRedirectRule_eq config enabled reason w state r w1 S U), R.
    reflexivity.
Qed.

Lemma tryCatch_swallow (m : M unit) w :
  snd (tryCatch m (fun _ => ret tt) w) = snd (m w).
Proof.
  unfold tryCatch. destruct (m w) as [[[]|e] w']; reflexivity.
Qed.

(** One cycle on a stored state, by what it observes. *)
Lemma cycle_eq config w state :
  storage w = Some state ->
  handleScheduled (Ok config) w =
  if apiCallsDisabled state then worldLatched w state
  else
    let read := stateRead w state in
    let counted := stateCounted config w state in
    let w3 := worldCounted config w state in
    if isHealthy (probeResult config w) then
      if (recoveryCount counted >=? recoveryCountThreshold config)
         && redirectRuleEnabled read
      then if maintenanceModeActive read (nowRead w) then w3
           else snd (changeRedirectRule config false (recoveryReason config) w3)
      else w3
    else
      if (failureCount counted >=? failureCountThreshold config)
         && negb (redirectRuleEnabled read)
      then if maintenanceModeActive read (nowRead w) then w3
           else snd (changeRedirectRule config true (failureReason config) w3)
      else w3.
Proof.
  intros Hs. unfold handleScheduled. rewrite tryCatch_swallow.
  unfold cycle, bind.
  rewrite (call_updateCronExecution w state Hs).
  rewrite (call_cleanMaintenanceWindows (store _ (tick w)) _ eq_refl).
  rewrite (call_getState (store _ (tick (store _ (tick w)))) _ eq_refl).
  change (apiCallsDisabled
            (MonitorState.cleanMaintenanceWindows
               (clock (store (MonitorState.updateCronExecution (clock w (ticks w)) state) (tick w))
                  (ticks (store (MonitorState.updateCronExecution (clock w (ticks w)) state) (tick w))))
               (MonitorState.updateCronExecution (clock w (ticks w)) state)))
    with (apiCallsDisabled state).
  destruct (apiCallsDisabled state); [reflexivity|].
  unfold lift, newDate, healthCheck, fetch.
  cbn [fst snd storage clock ticks net sent trace store tick set_storage newDate].
  unfold worldCounted, stateCounted, probeResult, isHealthy, nowRead, stateRead.
  cbv zeta.
  assert (Counted : forall healthy : bool,
    (if healthy then StateManager.incrementRecovery else StateManager.incrementFailure)
      (mkWorld
         (Some (MonitorState.cleanMaintenanceWindows (clock w (S (ticks w)))
                  (MonitorState.updateCronExecution (clock w (ticks w)) state)))
         (clock w) (S (S (S (ticks w)))) (net w) (S (sent w))
         (trace w ++ [EvFetch (probeRequest config) (net w (sent w) (probeRequest config))]))
    = (Ok ((if healthy then MonitorState.incrementRecovery else MonitorState.incrementFailure)
             (clock w (S (S (S (ticks w)))))
             (MonitorState.cleanMaintenanceWindows (clock w (S (ticks w)))
                (MonitorState.updateCronExecution (clock w (ticks w)) state))),
       mkWorld
         (Some ((if healthy then MonitorState.incrementRecovery else MonitorState.incrementFailure)
                  (clock w (S (S (S (ticks w)))))
                  (MonitorState.cleanMaintenanceWindows (clock w (S (ticks w)))
                     (MonitorState.updateCronExecution (clock w (ticks w)) state))))
         (clock w) (S (S (S (S (ticks w))))) (net w) (S (sent w))
         (trace w ++ [EvFetch (probeRequest config) (net w (sent w) (probeRequest config))]))).
  { intros [|]; cbv iota;
      [erewrite call_incrementRecovery by reflexivity
      |erewrite call_incrementFailure by reflexivity]; reflexivity. }
  revert Counted.
  destruct (net w (sent w) (probeRequest config)) as [e|resp]; intros Counted.
  - rewrite (Counted false).
    repeat match goal with |- context [if ?b then _ else _] => destruct b end;
      reflexivity.
  - destruct (Http.status resp =? 200).
    + rewrite (Counted true).
      repeat match goal with |- context [if ?b then _ else _] => destruct b end;
        reflexivity.
    + rewrite (Counted false).
      repeat match goal with |- context [if ?b then _ else _] => destruct b end;
        reflexivity.
Qed.

(** The state read by the cycle differs from the stored one only in the
    cron stamp and the swept windows. *)
Lemma stateRead_fields w state :
  failureCount (stateRead w state) = failureCount state
  /\ recoveryCount (stateRead w state) = recoveryCount state
  /\ redirectRuleEnabled (stateRead w state) = redirectRuleEnabled state
  /\ maintenanceMode (stateRead w state) = maintenanceMode state
  /\ apiCallsDisabled (stateRead w state) = apiCallsDisabled state
  /\ redirectRuleHistory (stateRead w state) = redirectRuleHistory state.
Proof. repeat split. Qed.

(** Counting the probe: one counter goes up by one, the other to zero, and
    nothing else that the decision depends on changes. *)
Lemma stateCounted_fields config w state :
  let counted := stateCounted config w state in
  (if isHealthy (probeResult config w)
   then recoveryCount counted = recoveryCount state + 1 /\ failureCount counted = 0
   else failureCount counted = failureCount state + 1 /\ recoveryCount counted = 0)
  /\ redirectRuleEnabled counted = redirectRuleEnabled state
  /\ maintenanceMode counted = maintenanceMode state
  /\ apiCallsDisabled counted = apiCallsDisabled state
  /\ redirectRuleHistory counted = redirectRuleHistory state
  /\ redirectRuleChangesTotal counted = redirectRuleChangesTotal state
  /\ apiErrorsTotal counted = apiErrorsTotal state
  /\ scheduledMaintenanceWindows counted = scheduledMaintenanceWindows (stateRead w state).
Proof.
  unfold stateCounted. destruct (isHealthy (probeResult config w)); cbn; repeat split.
Qed.

(** A cycle whose probe crosses no threshold, or finds the rule already
    in the target state, or runs under suppression, only counts the probe. *)
Lemma cycle_quiet config w state :
  storage w = Some state ->
  apiCallsDisabled state = false ->
  (if isHealthy (probeResult config w)
   then recoveryCount state + 1 < recoveryCountThreshold config
        \/ redirectRuleEnabled state = false
        \/ maintenanceModeActive (stateRead w state) (nowRead w) = true
   else failureCount state + 1 < failureCountThreshold config
        \/ redirectRuleEnabled state = true
        \/ maintenanceModeActive (stateRead w state) (nowRead w) = true) ->
  handleScheduled (Ok config) w = worldCounted config w state.
Proof.
  intros Hs Hd Hq. rewrite (cycle_eq config w state Hs), Hd. cbv zeta.
  pose proof (stateCounted_fields config w state) as (Hc & _).
  destruct (stateRead_fields w state) as (_ & _ & -> & _).
  destruct (isHealthy (probeResult config w)); destruct Hc as [Hc _]; rewrite Hc.
  - destruct Hq as [H | [H | H]].
    + replace (recoveryCount state + 1 >=? recoveryCountThreshold config) with false
        by (symmetry; rewrite Z.geb_leb; apply Z.leb_gt; exact H).
      reflexivity.
    + rewrite H, andb_false_r. reflexivity.
    + rewrite H. destruct (_ && _); reflexivity.
  - destruct Hq as [H | [H | H]].
    + replace (failureCount state + 1 >=? failureCountThreshold config) with false
        by (symmetry; rewrite Z.geb_leb; apply Z.leb_gt; exact H).
      reflexivity.
    + rewrite H, andb_false_r. reflexivity.
    + rewrite H. destruct (_ && _); reflexivity.
Qed.

(** A cycle whose probe brings a counter to its threshold or beyond, with
    the rule in the opposite state and no suppression, calls the rule
    controller. *)
Lemma cycle_cross config w state :
  storage w = Some state ->
  apiCallsDisabled state = false ->
  maintenanceModeActive (stateRead w state) (nowRead w) = false ->
  (if isHealthy (probeResult config w)
   then recoveryCount state + 1 >= recoveryCountThreshold config
        /\ redirectRuleEnabled state = true
   else failureCount state + 1 >= failureCountThreshold config
        /\ redirectRuleEnabled state = false) ->
  handleScheduled (Ok config) w =
  snd (changeRedirectRule config (negb (isHealthy (probeResult config w)))
         (if isHealthy (probeResult config w)
          then recoveryReason config else failureReason config)
         (worldCounted config w state)).
Proof.
  intros Hs Hd Hm Hq. rewrite (cycle_eq config w state Hs), Hd. cbv zeta. rewrite Hm.
  pose proof (stateCounted_fields config w state) as (Hc & _).
  destruct (stateRead_fields w state) as (_ & _ & -> & _).
  destruct (isHealthy (probeResult config w));
    destruct Hc as [Hc _]; rewrite Hc; destruct Hq as [Hq ->]; cbn [negb andb].
  - replace (recoveryCount state + 1 >=? recoveryCountThreshold config) with true
      by (symmetry; rewrite Z.geb_leb; apply Z.leb_le; lia).
    reflexivity.
  - replace (failureCount state + 1 >=? failureCountThreshold config) with true
      by (symmetry; rewrite Z.geb_leb; apply Z.leb_le; lia).
    reflexivity.
Qed.

(** A run of the rule controller whose first attempt succeeds. *)
Lemma updateRedirectRule_success this ruleId enabled w resp1 rules resp2 :
  net w (sent w) (CloudflareAPIClient.getRuleset this ruleId) = Http.Resolved resp1 ->
  Http.ok resp1 = true ->
  Http.rules resp1 = Some rules ->
  net w (S (sent w))
    (CloudflareAPIClient.putRuleset this ruleId (CloudflareAPIClient.updatedRules enabled rules))
    = Http.Resolved resp2 ->
  Http.ok resp2 = true ->
  CloudflareAPIClient.updateRedirectRule this ruleId enabled w =
  (Ok true,
   mkWorld (storage w) (clock w) (ticks w) (net w) (S (S (sent w)))
     (trace w ++
      [EvFetch (CloudflareAPIClient.getRuleset this ruleId) (Http.Resolved resp1);
       EvFetch (CloudflareAPIClient.putRuleset this ruleId
                  (CloudflareAPIClient.updatedRules enabled rules)) (Http.Resolved resp2)])).
Proof.
  intros N1 O1 R1 N2 O2.
  rewrite updateRedirectRule_eq, tryUpdate_eq. cbv zeta.
  unfold fetch. cbn [snd sent net trace storage clock ticks].
  rewrite N1, O1, R1, N2, O2, <- app_assoc. reflexivity.
Qed.

(** The fail-closed latch, end to end: in a cycle that calls the rule
    controller, a 401 or 403 answer leaves [apiCallsDisabled] set and
    [apiErrorsTotal] as it was. *)
Lemma cycle_auth_failure_latches config w state :
  storage w = Some state ->
  apiCallsDisabled state = false ->
  maintenanceModeActive (stateRead w state) (nowRead w) = false ->
  (if isHealthy (probeResult config w)
   then recoveryCount state + 1 >= recoveryCountThreshold config
        /\ redirectRuleEnabled state = true
   else failureCount state + 1 >= failureCountThreshold config
        /\ redirectRuleEnabled state = false) ->
  existsb authResponse
    (eventsSince (worldCounted config w state) (handleScheduled (Ok config) w)) = true ->
  exists state',
    storage (handleScheduled (Ok config) w) = Some state'
    /\ apiCallsDisabled state' = true
    /\ apiErrorsTotal state' = apiErrorsTotal state.
Proof.
  intros Hs Hd Hm Hq. rewrite (cycle_cross config w state Hs Hd Hm Hq).
  set (w3 := worldCounted config w state).
  set (enabled := negb (isHealthy (probeResult config w))).
  set (reason := if isHealthy (probeResult config w)
                 then recoveryReason config else failureReason config).
  destruct (CloudflareAPIClient.updateRedirectRule (apiClient config)
              (redirectRuleId config) enabled w3) as [r w1] eqn:U.
  rewrite (changeRedirectRule_eq config enabled reason w3
             (stateCounted config w state) r w1 eq_refl U).
  cbn [snd].
  destruct (retryLoop_spec _ _ _ _ _ _ _ U) as (events & X & _ & Au & _).
  assert (T : forall s, eventsSince w3 (store s w1) = events).
  { intros s. apply eventsSince_app. cbn [trace store set_storage]. apply X. }
  assert (T' : forall s, eventsSince w3 (store s (tick w1)) = events).
  { intros s. apply eventsSince_app. cbn [trace store set_storage tick newDate snd]. apply X. }
  intros A.
  assert (Ae : existsb authResponse events = true).
  { destruct r as [[|]|e]; [rewrite T' in A|rewrite T in A|]; try exact A.
    destruct (CloudflareAPIClient.isAuthenticationFailed e); rewrite T in A; exact A. }
  destruct (Au Ae) as (-> & _).
  exists (MonitorState.disableApiCalls (stateCounted config w state)).
  split; [reflexivity|]. split; [reflexivity|].
  pose proof (stateCounted_fields config w state) as (_ & _ & _ & _ & _ & _ & He & _).
  exact He.
Qed.

(** ** The threshold edge *)

(** The first access persists the defaults; the cycle then runs as on a
    stored default state. *)
Lemma handleScheduled_init config w :
  storage w = None ->
  handleScheduled (Ok config) w
  = handleScheduled (Ok config)
      (store (MonitorState.defaultState (clock w (ticks w))) (tick w)).
Proof.
  intros Hn. unfold handleScheduled. rewrite !tryCatch_swallow.
  unfold cycle. unfold bind at 1. symmetry. unfold bind at 1. symmetry.
  replace (StateManager.updateCronExecution w)
    with (StateManager.updateCronExecution
            (store (MonitorState.defaultState (clock w (ticks w))) (tick w))); [reflexivity|].
  unfold StateManager.updateCronExecution, StateManager.call. cbn.
  unfold MonitorState.updateAt, MonitorState.getState. rewrite Hn. reflexivity.
Qed.

Lemma stateCounted_unhealthy config w state :
  isHealthy (probeResult config w) = false ->
  stateCounted config w state
  = MonitorState.incrementFailure (clock w (S (S (S (ticks w))))) (stateRead w state).
Proof. intros H. unfold stateCounted. rewrite H. reflexivity. Qed.

Section ThresholdEdge.
Variable config : ValidatedConfig.
Variable w : World.
Variable t : Z.
Hypothesis threshold : failureCountThreshold config = 3.
Hypothesis stored : storage w = Some (MonitorState.defaultState t).
Hypothesis unhealthy : alwaysUnhealthy config w.
Hypothesis succeeds : ruleControllerSucceeds config w.

Let s0 := MonitorState.defaultState t.
Let s1 := stateCounted config w s0.
Let w1 := worldCounted config w s0.
Let s2 := stateCounted config w1 s1.
Let w2 := worldCounted config w1 s1.
Let s3 := stateCounted config w2 s2.
Let w3 := worldCounted config w2 s2.

Lemma counted1 :
  s1 = MonitorState.incrementFailure (clock w (S (S (S (ticks w))))) (stateRead w s0).
Proof. apply stateCounted_unhealthy, unhealthy. Qed.

Lemma counted2 :
  s2 = MonitorState.incrementFailure (clock w1 (S (S (S (ticks w1))))) (stateRead w1 s1).
Proof. apply stateCounted_unhealthy, unhealthy. Qed.

Lemma counted3 :
  s3 = MonitorState.incrementFailure (clock w2 (S (S (S (ticks w2))))) (stateRead w2 s2).
Proof. apply stateCounted_unhealthy, unhealthy. Qed.

Lemma first_cycle : handleScheduled (Ok config) w = w1.
Proof.
  apply cycle_quiet; [exact stored|reflexivity|].
  unfold probeResult. rewrite unhealthy. left. rewrite threshold. reflexivity.
Qed.

Lemma second_cycle : handleScheduled (Ok config) w1 = w2.
Proof.
  apply cycle_quiet; [reflexivity|rewrite counted1; reflexivity|].
  unfold probeResult. cbn [net w1 worldCounted]. rewrite unhealthy.
  left. rewrite threshold, counted1. reflexivity.
Qed.

(** The third cycle brings the failure counter to 3 and calls the rule
    controller, which succeeds at its first attempt. *)
Lemma third_cycle :
  exists resp1 rules resp2,
    let wa :=
      mkWorld (storage w3) (clock w3) (ticks w3) (net w3) (S (S (sent w3)))
        (trace w3 ++
         [EvFetch (CloudflareAPIClient.getRuleset (apiClient config) (redirectRuleId config))
            (Http.Resolved resp1);
          EvFetch (CloudflareAPIClient.putRuleset (apiClient config) (redirectRuleId config)
                     (CloudflareAPIClient.updatedRules true rules))
            (Http.Resolved resp2)]) in
    handleScheduled (Ok config) w2
    = store (MonitorState.resetCounters
               (MonitorState.updateRedirectRuleState true (failureReason config)
                  (clock wa (ticks wa)) s3)) (tick wa).
Proof.
  destruct succeeds as [Hget Hput].
  destruct (Hget (sent w3)) as (resp1 & rules & N1 & O1 & R1).
  destruct (Hput (S (sent w3)) (CloudflareAPIClient.updatedRules true rules))
    as (resp2 & N2 & O2).
  exists resp1, rules, resp2. cbv zeta.
  assert (Hh : isHealthy (probeResult config w2) = false) by apply unhealthy.
  rewrite (cycle_cross config w2 s2).
  - rewrite Hh. cbn [negb].
    erewrite changeRedirectRule_eq;
      [ | reflexivity
        | apply (updateRedirectRule_success _ _ _ w3 resp1 rules resp2); assumption ].
    reflexivity.
  - reflexivity.
  - rewrite counted2, counted1. reflexivity.
  - rewrite counted2, counted1. reflexivity.
  - rewrite Hh, threshold, counted2, counted1. split; [|reflexivity]. cbn. lia.
Qed.

Lemma threshold_edge_stored : thresholdEdgeRun config w.
Proof.
  unfold thresholdEdgeRun. cbv zeta.
  rewrite first_cycle, second_cycle.
  destruct third_cycle as (resp1 & rules & resp2 & C3). cbv zeta in C3.
  rewrite C3. clear C3.
  set (wa := mkWorld (storage w3) (clock w3) (ticks w3) (net w3) (S (S (sent w3)))
               (trace w3 ++
                [EvFetch (CloudflareAPIClient.getRuleset (apiClient config) (redirectRuleId config))
                   (Http.Resolved resp1);
                 EvFetch (CloudflareAPIClient.putRuleset (apiClient config) (redirectRuleId config)
                            (CloudflareAPIClient.updatedRules true rules))
                   (Http.Resolved resp2)])).
  set (s3' := MonitorState.resetCounters
                (MonitorState.updateRedirectRuleState true (failureReason config)
                   (clock wa (ticks wa)) s3)).
  set (c3 := store s3' (tick wa)).
  assert (E3 : s3' = MonitorState.resetCounters
                (MonitorState.updateRedirectRuleState true (failureReason config)
                   (clock wa (ticks wa))
                   (MonitorState.incrementFailure (clock w2 (S (S (S (ticks w2)))))
                      (stateRead w2
                         (MonitorState.incrementFailure (clock w1 (S (S (S (ticks w1)))))
                            (stateRead w1
                               (MonitorState.incrementFailure (clock w (S (S (S (ticks w)))))
                                  (stateRead w s0)))))))).
  { unfold s3'. rewrite counted3, counted2, counted1. reflexivity. }
  assert (C4 : handleScheduled (Ok config) c3 = worldCounted config c3 s3').
  { apply cycle_quiet; [reflexivity|rewrite E3; reflexivity|].
    unfold probeResult. cbn [net c3 store set_storage tick newDate snd wa w3 w2 w1 worldCounted].
    rewrite unhealthy. right. left. rewrite E3. reflexivity. }
  rewrite C4.
  split; [split; [|split; [|split]]|split; [|split; [|split]]].
  - rewrite (eventsSince_app w w1 [EvFetch (probeRequest config) (probeResult config w)]);
      reflexivity.
  - rewrite (eventsSince_app w1 w2 [EvFetch (probeRequest config) (probeResult config w1)]);
      reflexivity.
  - exists rules.
    rewrite (eventsSince_app w2 c3
               ([EvFetch (probeRequest config) (probeResult config w2)] ++
                [EvFetch (CloudflareAPIClient.getRuleset (apiClient config) (redirectRuleId config))
                   (Http.Resolved resp1);
                 EvFetch (CloudflareAPIClient.putRuleset (apiClient config) (redirectRuleId config)
                            (CloudflareAPIClient.updatedRules true rules))
                   (Http.Resolved resp2)])); [reflexivity|].
    cbn [trace c3 store set_storage tick newDate snd wa w3 worldCounted].
    rewrite <- app_assoc. reflexivity.
  - rewrite (eventsSince_app c3 (worldCounted config c3 s3')
               [EvFetch (probeRequest config) (probeResult config c3)]); reflexivity.
  - rewrite (eventsSince_app w (worldCounted config c3 s3')
               ([EvFetch (probeRequest config) (probeResult config w)] ++
                [EvFetch (probeRequest config) (probeResult config w1)] ++
                [EvFetch (probeRequest config) (probeResult config w2)] ++
                [EvFetch (CloudflareAPIClient.getRuleset (apiClient config) (redirectRuleId config))
                   (Http.Resolved resp1);
                 EvFetch (CloudflareAPIClient.putRuleset (apiClient config) (redirectRuleId config)
                            (CloudflareAPIClient.updatedRules true rules))
                   (Http.Resolved resp2)] ++
                [EvFetch (probeRequest config) (probeResult config c3)])); [reflexivity|].
    cbn [trace c3 store set_storage tick newDate snd wa w3 w2 w1 worldCounted].
    rewrite <- !app_assoc. reflexivity.
  - exists s2. split; [reflexivity|]. rewrite counted2, counted1. repeat split.
  - exists s3'. split; [reflexivity|]. rewrite E3. repeat split.
  - exists (stateCounted config c3 s3'). split; [reflexivity|].
    rewrite (stateCounted_unhealthy config c3 s3') by apply unhealthy.
    rewrite E3. repeat split.
Qed.
End ThresholdEdge.

(** C1. With failure threshold 3, from the fresh state and with the rule
    controller succeeding, unhealthy probes in a row cause exactly one
    enabling call, in the cycle of the third probe: cycles 1 and 2 send the
    probe alone, cycle 3 (whose probe brings the failure counter to 3, equal
    to the threshold, as the history entry records) sends the probe, the GET
    and the enabling PUT, and cycle 4, with the rule now enabled, sends the
    probe alone again. *)
Theorem threshold_edge :
  forall config w,
    failureCountThreshold config = 3 ->
    fresh w ->
    alwaysUnhealthy config w ->
    ruleControllerSucceeds config w ->
    let c1 := handleScheduled (Ok config) w in
    let c2 := handleScheduled (Ok config) c1 in
    let c3 := handleScheduled (Ok config) c2 in
    let c4 := handleScheduled (Ok config) c3 in
    (requestsOf (eventsSince w c1) = [probeRequest config]
     /\ requestsOf (eventsSince c1 c2) = [probeRequest config]
     /\ (exists rules,
           requestsOf (eventsSince c2 c3) = probeRequest config :: enableCall config rules)
     /\ requestsOf (eventsSince c3 c4) = [probeRequest config])
    /\ sleepsOf (eventsSince w c4) = []
    /\ (exists s2, storage c2 = Some s2
          /\ failureCount s2 = 2 /\ redirectRuleEnabled s2 = false
          /\ historySummary s2 = [])
    /\ (exists s3, storage c3 = Some s3
          /\ failureCount s3 = 0 /\ recoveryCount s3 = 0
          /\ redirectRuleEnabled s3 = true
          /\ historySummary s3 = [(enabled_event, 3, 0)])
    /\ (exists s4, storage c4 = Some s4
          /\ failureCount s4 = 1 /\ redirectRuleEnabled s4 = true
          /\ historySummary s4 = [(enabled_event, 3, 0)]).
Proof.
  intros config w Ht [Hn | [t Hs]] Hu Hr.
  - rewrite (handleScheduled_init config w Hn).
    exact (threshold_edge_stored config
             (store (MonitorState.defaultState (clock w (ticks w))) (tick w))
             (clock w (ticks w)) Ht eq_refl Hu Hr).
  - exact (threshold_edge_stored config w t Ht Hs Hu Hr).
Qed.

(** ** Maintenance suppression *)

(** The suppression flag is the maintenance toggle or membership of [now]
    in the closed interval of some scheduled window. *)
Lemma maintenanceModeActive_iff state now :
  maintenanceModeActive state now = true <->
  maintenanceMode state = true
  \/ exists win s e,
       In win (scheduledMaintenanceWindows state)
       /\ MaintenanceWindow.startTime win = Some s
       /\ MaintenanceWindow.endTime win = Some e
       /\ s <= now <= e.
Proof.
  unfold maintenanceModeActive, isInMaintenanceWindow.
  rewrite orb_true_iff, existsb_exists.
  split; (intros [H|H]; [left; exact H|right]).
  - destruct H as (win & I & H). apply andb_true_iff in H. destruct H as [H1 H2].
    unfold dateGe, dateLe in *.
    destruct (MaintenanceWindow.startTime win) as [s|] eqn:Es; [|discriminate].
    destruct (MaintenanceWindow.endTime win) as [e|] eqn:Ee; [|discriminate].
    exists win, s, e. rewrite Z.geb_leb in H1.
    apply Z.leb_le in H1, H2. repeat split; auto.
  - destruct H as (win & s & e & I & Es & Ee & H1 & H2).
    exists win. split; [exact I|].
    unfold dateGe, dateLe. rewrite Es, Ee, Z.geb_leb.
    apply andb_true_iff. split; apply Z.leb_le; assumption.
Qed.

(** Cycles in a row under the maintenance toggle: probes only, the rule
    and its history untouched, and the failure counter counting on. *)
Lemma maintenance_cycles config n :
  forall w state,
    storage w = Some state ->
    apiCallsDisabled state = false ->
    maintenanceMode state = true ->
    let wn := Nat.iter n (handleScheduled (Ok config)) w in
    exists sn events,
      storage wn = Some sn
      /\ apiCallsDisabled sn = false /\ maintenanceMode sn = true
      /\ redirectRuleEnabled sn = redirectRuleEnabled state
      /\ redirectRuleHistory sn = redirectRuleHistory state
      /\ net wn = net w /\ sent wn = (sent w + n)%nat
      /\ trace wn = trace w ++ events
      /\ requestsOf events = repeat (probeRequest config) n
      /\ sleepsOf events = []
      /\ (alwaysUnhealthy config w ->
          failureCount sn = failureCount state + Z.of_nat n).
Proof.
  induction n as [|n IH]; intros w state Hs Hd Hm wn.
  - exists state, []. unfold wn. cbn. rewrite app_nil_r, Nat.add_0_r.
    repeat split; auto. intros _. lia.
  - destruct (IH w state Hs Hd Hm) as (sn & events & Sn & Dn & Mn & En & Hn & Nn & Qn & Tn & Rn & Ln & Fn).
    set (wp := Nat.iter n (handleScheduled (Ok config)) w) in *.
    assert (C : wn = worldCounted config wp sn).
    { unfold wn. cbn [Nat.iter nat_rect]. fold wp.
      apply cycle_quiet; [exact Sn|exact Dn|].
      assert (A : maintenanceModeActive (stateRead wp sn) (nowRead wp) = true).
      { unfold maintenanceModeActive. cbn. rewrite Mn. reflexivity. }
      destruct (isHealthy (probeResult config wp)); right; right; exact A. }
    pose proof (stateCounted_fields config wp sn) as (Hc & He & Hmm & Hdd & Hh & _).
    exists (stateCounted config wp sn),
           (events ++ [EvFetch (probeRequest config) (probeResult config wp)]).
    rewrite C. cbn [storage net sent trace worldCounted].
    split; [reflexivity|]. split; [congruence|]. split; [congruence|].
    split; [congruence|]. split; [congruence|]. split; [exact Nn|].
    split; [lia|]. split; [rewrite Tn, app_assoc; reflexivity|].
    split; [rewrite requestsOf_app, Rn; cbn [repeat]; rewrite repeat_cons; reflexivity|].
    split; [rewrite sleepsOf_app, Ln; reflexivity|].
    intros Hu. specialize (Fn Hu).
    assert (U : isHealthy (probeResult config wp) = false).
    { unfold probeResult. rewrite Nn. apply Hu. }
    rewrite U in Hc. destruct Hc as [Hc _]. rewrite Hc, Fn. lia.
Qed.

(** C7. While suppression is active, a cycle still counts its probe - so a
    sequence of probes takes a counter to its threshold and beyond - but it
    sends nothing to the rule controller and leaves the rule state and the
    history as they were.  Suppression is the maintenance toggle or
    membership of [now] in the interval from [startTime] to [endTime] of
    some scheduled window of the state the cycle reads. *)
Theorem suppression_withholds_rule_change :
  forall config w state,
    storage w = Some state ->
    apiCallsDisabled state = false ->
    (maintenanceModeActive (stateRead w state) (nowRead w) = true ->
     let w' := handleScheduled (Ok config) w in
     eventsSince w w' = [EvFetch (probeRequest config) (probeResult config w)]
     /\ exists state',
          storage w' = Some state'
          /\ (if isHealthy (probeResult config w)
              then recoveryCount state' = recoveryCount state + 1 /\ failureCount state' = 0
              else failureCount state' = failureCount state + 1 /\ recoveryCount state' = 0)
          /\ redirectRuleEnabled state' = redirectRuleEnabled state
          /\ redirectRuleHistory state' = redirectRuleHistory state
          /\ redirectRuleChangesTotal state' = redirectRuleChangesTotal state)
    /\ (maintenanceMode state = true ->
        forall n,
          let wn := Nat.iter n (handleScheduled (Ok config)) w in
          requestsOf (eventsSince w wn) = repeat (probeRequest config) n
          /\ sleepsOf (eventsSince w wn) = []
          /\ exists sn,
               storage wn = Some sn
               /\ redirectRuleEnabled sn = redirectRuleEnabled state
               /\ redirectRuleHistory sn = redirectRuleHistory state
               /\ (alwaysUnhealthy config w ->
                   failureCount sn = failureCount state + Z.of_nat n))
    /\ (forall any now,
          maintenanceModeActive any now = true <->
          maintenanceMode any = true
          \/ exists win s e,
               In win (scheduledMaintenanceWindows any)
               /\ MaintenanceWindow.startTime win = Some s
               /\ MaintenanceWindow.endTime win = Some e
               /\ s <= now <= e).
Proof.
  intros config w state Hs Hd. split; [|split].
  - intros Ha w'.
    assert (C : w' = worldCounted config w state).
    { apply cycle_quiet; [exact Hs|exact Hd|].
      destruct (isHealthy (probeResult config w)); right; right; exact Ha. }
    rewrite C. split.
    + apply eventsSince_app. reflexivity.
    + exists (stateCounted config w state). split; [reflexivity|].
      pose proof (stateCounted_fields config w state) as (Hc & He & _ & _ & Hh & Ht & _).
      auto.
  - intros Hm n wn.
    destruct (maintenance_cycles config n w state Hs Hd Hm)
      as (sn & events & Sn & _ & _ & En & Hn & _ & _ & Tn & Rn & Ln & Fn).
    fold wn in Sn, Tn. rewrite (eventsSince_app w wn events Tn).
    split; [exact Rn|]. split; [exact Ln|].
    exists sn. auto.
  - intros any now. apply maintenanceModeActive_iff.
Qed.

(** * The simulate handlers *)

Lemma getState_silent w :
  let w' := snd (MonitorState.getState w) in
  trace w' = trace w /\ net w' = net w /\ sent w' = sent w.
Proof.
  unfold MonitorState.getState. destruct (storage w); cbn; auto.
Qed.

Lemma update_silent f w :
  let w' := snd (MonitorState.update f w) in
  trace w' = trace w /\ net w' = net w /\ sent w' = sent w.
Proof.
  unfold MonitorState.update.
  pose proof (getState_silent w) as H.
  destruct (MonitorState.getState w) as [s w1]. exact H.
Qed.

Lemma updateAt_silent f w :
  let w' := snd (MonitorState.updateAt f w) in
  trace w' = trace w /\ net w' = net w /\ sent w' = sent w.
Proof.
  unfold MonitorState.updateAt.
  pose proof (getState_silent w) as H.
  destruct (MonitorState.getState w) as [s w1]. exact H.
Qed.

(** The Durable Object performs no network or timer event. *)
Lemma fetch_silent request w :
  let w' := snd (MonitorState.fetch request w) in
  trace w' = trace w /\ net w' = net w /\ sent w' = sent w.
Proof.
  unfold MonitorState.fetch.
  repeat match goal with
         | |- context [if ?b then _ else _] => destruct b
         | |- context [match MonitorState.body request with _ => _ end] =>
             destruct (MonitorState.body request) as [[| | |]|]
         end;
    try apply update_silent; try apply updateAt_silent; try (cbn; auto; fail).
  pose proof (getState_silent w) as H.
  destruct (MonitorState.getState w) as [s w1]. exact H.
Qed.

Lemma call_silent request failure : silent (StateManager.call request failure).
Proof.
  intros w r w' E. unfold StateManager.call in E.
  pose proof (fetch_silent request w) as H.
  destruct (MonitorState.fetch request w) as [response w1]. cbn in H.
  destruct (negb (MonitorState.ok response)); [injection E as _ <-; exact H|].
  destruct (MonitorState.payload response); injection E as _ <-; exact H.
Qed.

Lemma ret_silent {A} (a : A) : silent (ret a).
Proof. intros w r w' E. injection E as _ <-. auto. Qed.

Lemma bind_silent {A B} (m : M A) (k : A -> M B) :
  silent m -> (forall a, silent (k a)) -> silent (bind m k).
Proof.
  intros Hm Hk w r w' E. unfold bind in E.
  destruct (m w) as [[a|e] w1] eqn:Em.
  - destruct (Hm _ _ _ Em) as (T1 & N1 & S1).
    destruct (Hk a _ _ _ E) as (T2 & N2 & S2).
    repeat split; congruence.
  - injection E as _ <-. exact (Hm _ _ _ Em).
Qed.

(** A simulated change of the stored counters always succeeds and leaves
    a stored state behind. *)
Lemma simulate_stored request failure threshold w :
  request = MonitorState.mkRequest Http.POST "/simulate-failover"
              (Some (MonitorState.ThresholdBody threshold))
  \/ request = MonitorState.mkRequest Http.POST "/simulate-recovery"
                 (Some (MonitorState.ThresholdBody threshold)) ->
  exists state w0,
    StateManager.call request failure w = (Ok state, w0)
    /\ storage w0 = Some state
    /\ trace w0 = trace w /\ net w0 = net w /\ sent w0 = sent w.
Proof.
  intros [-> | ->]; unfold StateManager.call; cbn;
    unfold MonitorState.update, MonitorState.getState;
    destruct (storage w); cbn; eexists; eexists; repeat split.
Qed.


(** Every attempt, and so every run of the rule controller, starts with
    the GET of the ruleset. *)
Lemma tryUpdate_first this ruleId enabled w r w' :
  CloudflareAPIClient.tryUpdate this ruleId enabled w = (r, w') ->
  exists more,
    trace w' = trace w ++
      EvFetch (CloudflareAPIClient.getRuleset this ruleId)
        (net w (sent w) (CloudflareAPIClient.getRuleset this ruleId)) :: more.
Proof.
  rewrite tryUpdate_eq. cbv zeta. unfold fetch.
  cbn [snd sent net trace storage clock ticks].
  destruct (net w (sent w) (CloudflareAPIClient.getRuleset this ruleId)) as [e1|r1].
  - intros E; injection E as _ <-. exists []. reflexivity.
  - destruct (Http.ok r1).
    + destruct (Http.rules r1) as [rs|].
      * destruct (net w (S (sent w)) _) as [e2|r2];
          [|destruct (Http.ok r2); [|destruct (_ || _)]];
          intros E; injection E as _ <-; cbn [trace]; rewrite <- app_assoc;
          eexists; reflexivity.
      * intros E; injection E as _ <-. exists []. reflexivity.
    + destruct (_ || _); intros E; injection E as _ <-; exists []; reflexivity.
Qed.

Lemma updateRedirectRule_first this ruleId enabled w r w' :
  CloudflareAPIClient.updateRedirectRule this ruleId enabled w = (r, w') ->
  exists more,
    trace w' = trace w ++
      EvFetch (CloudflareAPIClient.getRuleset this ruleId)
        (net w (sent w) (CloudflareAPIClient.getRuleset this ruleId)) :: more.
Proof.
  unfold CloudflareAPIClient.updateRedirectRule. cbn [CloudflareAPIClient.retryLoop].
  destruct (CloudflareAPIClient.tryUpdate this ruleId enabled w) as [r1 w1] eqn:T1.
  destruct (tryUpdate_first _ _ _ _ _ _ T1) as (more1 & F1).
  destruct r1 as [b|e]; [intros E; injection E as _ <-; exists more1; exact F1|].
  destruct (CloudflareAPIClient.isAuthenticationFailed e);
    [intros E; injection E as _ <-; exists more1; exact F1|].
  intros E.
  destruct (retryLoop_spec _ _ _ [2; 3] _ _ _ E) as (events & (_ & _ & _ & _ & _ & X) & _).
  exists (more1 ++ EvSleep (CloudflareAPIClient.backoffMs 1) :: events).
  rewrite X. cbn [trace sleep Z.ltb Z.compare]. rewrite F1, <- !app_assoc. reflexivity.
Qed.

(** The tails of the two handlers after the rule controller returned. *)
Lemma after_toggle_silent enabled reason (success : bool) (yes no : Routes.Reply) :
  silent (if success
          then bind (StateManager.updateRedirectRuleState enabled reason)
                 (fun _ => bind StateManager.resetCounters (fun _ => ret yes))
          else bind StateManager.incrementApiErrors (fun _ => ret no)).
Proof.
  destruct success; repeat (apply bind_silent; [apply call_silent|intros _]);
    apply ret_silent.
Qed.

Section Simulate.
Variable config : ValidatedConfig.
Variable w : World.

Let get := CloudflareAPIClient.getRuleset (apiClient config) (redirectRuleId config).

(** A handler that changes the stored counters through [simulate], then
    calls the rule controller with [enabled]: whatever the stored state
    is, the first thing it does on the network is the GET of the rule
    controller. *)
Lemma simulate_first simulate enabled reason yes no :
  (exists state w0,
     simulate w = (Ok state, w0)
     /\ storage w0 = Some state
     /\ trace w0 = trace w /\ net w0 = net w /\ sent w0 = sent w) ->
  let handler :=
    Routes.respond
      (bind (Routes.validateEnvironment (Ok config)) (fun config =>
       bind simulate (fun _ : MonitorStateData =>
       bind (CloudflareAPIClient.updateRedirectRule (apiClient config)
               (redirectRuleId config) enabled) (fun success : bool =>
       if success
       then bind (StateManager.updateRedirectRuleState enabled reason)
              (fun _ => bind StateManager.resetCounters (fun _ => ret yes))
       else bind StateManager.incrementApiErrors (fun _ => ret no))))) in
  exists more,
    eventsSince w (snd (handler w)) = EvFetch get (net w (sent w) get) :: more.
Proof.
  intros (state & w0 & Es & _ & T0 & N0 & S0) handler.
  unfold handler, Routes.respond, Routes.validateEnvironment.
  unfold bind at 1. unfold ret at 1. unfold bind at 1. rewrite Es.
  unfold bind at 1.
  destruct (CloudflareAPIClient.updateRedirectRule (apiClient config)
              (redirectRuleId config) enabled w0) as [r w1] eqn:U.
  destruct (updateRedirectRule_first _ _ _ _ _ _ U) as (more & F).
  rewrite T0, N0, S0 in F. fold get in F.
  exists more. apply eventsSince_app.
  destruct r as [success|e]; [|exact F].
  pose proof (after_toggle_silent enabled reason success yes no) as Q.
  match goal with
  | |- context [?m w1] => destruct (m w1) as [r2 w2] eqn:E2; apply Q in E2
  end.
  destruct E2 as (T2 & _). destruct r2; cbn [snd]; rewrite T2; exact F.
Qed.

(** With the rules API answering, the handler sends the GET and the PUT
    with the requested flag, whatever the stored state is, and records
    the transition. *)
Lemma simulate_success simulate enabled reason yes no :
  (exists state w0,
     simulate w = (Ok state, w0)
     /\ storage w0 = Some state
     /\ trace w0 = trace w /\ net w0 = net w /\ sent w0 = sent w) ->
  ruleControllerSucceeds config w ->
  let handler :=
    Routes.respond
      (bind (Routes.validateEnvironment (Ok config)) (fun config =>
       bind simulate (fun _ : MonitorStateData =>
       bind (CloudflareAPIClient.updateRedirectRule (apiClient config)
               (redirectRuleId config) enabled) (fun success : bool =>
       if success
       then bind (StateManager.updateRedirectRuleState enabled reason)
              (fun _ => bind StateManager.resetCounters (fun _ => ret yes))
       else bind StateManager.incrementApiErrors (fun _ => ret no))))) in
  exists rules state',
    requestsOf (eventsSince w (snd (handler w)))
      = [get; CloudflareAPIClient.putRuleset (apiClient config) (redirectRuleId config)
                (CloudflareAPIClient.updatedRules enabled rules)]
    /\ fst (handler w) = yes
    /\ storage (snd (handler w)) = Some state'
    /\ redirectRuleEnabled state' = enabled.
Proof.
  intros (state & w0 & Es & S0 & T0 & N0 & Q0) [Hget Hput] handler.
  destruct (Hget (sent w)) as (resp1 & rules & N1 & O1 & R1).
  destruct (Hput (S (sent w)) (CloudflareAPIClient.updatedRules enabled rules))
    as (resp2 & N2 & O2).
  rewrite <- N0, <- Q0 in N1, N2.
  pose proof (updateRedirectRule_success _ _ enabled w0 resp1 rules resp2 N1 O1 R1 N2 O2) as U.
  assert (E : handler w =
              (yes,
               store (MonitorState.resetCounters
                        (MonitorState.updateRedirectRuleState enabled reason
                           (clock w0 (ticks w0)) state))
                 (tick (mkWorld (storage w0) (clock w0) (ticks w0) (net w0) (S (S (sent w0)))
                          (trace w0 ++
                           [EvFetch get (Http.Resolved resp1);
                            EvFetch (CloudflareAPIClient.putRuleset (apiClient config)
                                       (redirectRuleId config)
                                       (CloudflareAPIClient.updatedRules enabled rules))
                              (Http.Resolved resp2)]))))).
  { unfold handler, Routes.respond, Routes.validateEnvironment.
    unfold bind at 1. unfold ret at 1. unfold bind at 1. rewrite Es.
    unfold bind at 1. rewrite U. unfold bind at 1.
    erewrite call_updateRedirectRuleState by exact S0.
    unfold bind at 1.
    erewrite call_resetCounters by reflexivity.
    reflexivity. }
  rewrite E. cbn [fst snd].
  exists rules. eexists.
  split; [|split; [reflexivity|split; [reflexivity|]]].
  - rewrite (eventsSince_app w _
               [EvFetch get (Http.Resolved resp1);
                EvFetch (CloudflareAPIClient.putRuleset (apiClient config)
                           (redirectRuleId config)
                           (CloudflareAPIClient.updatedRules enabled rules))
                  (Http.Resolved resp2)]); [reflexivity|].
    cbn [trace store set_storage tick newDate snd].
    rewrite T0. reflexivity.
  - unfold MonitorState.updateRedirectRuleState.
    match goal with |- context [if ?b then _ else _] => destruct b end; reflexivity.
Qed.
End Simulate.

(** The rule controller does not read the stored state. *)
Lemma tryUpdate_storage this ruleId enabled s w :
  CloudflareAPIClient.tryUpdate this ruleId enabled (set_storage s w)
  = (fst (CloudflareAPIClient.tryUpdate this ruleId enabled w),
     set_storage s (snd (CloudflareAPIClient.tryUpdate this ruleId enabled w))).
Proof.
  rewrite !tryUpdate_eq. cbv zeta. unfold fetch.
  cbn [snd sent net trace storage clock ticks set_storage].
  destruct (net w (sent w) (CloudflareAPIClient.getRuleset this ruleId)) as [e1|r1];
    [reflexivity|].
  destruct (Http.ok r1).
  - destruct (Http.rules r1) as [rs|]; [|reflexivity].
    destruct (net w (S (sent w)) _) as [e2|r2]; [reflexivity|].
    destruct (Http.ok r2); [reflexivity|]. destruct (_ || _); reflexivity.
  - destruct (_ || _); reflexivity.
Qed.

Lemma retryLoop_storage this ruleId enabled s remaining :
  forall w,
    CloudflareAPIClient.retryLoop this ruleId enabled remaining (set_storage s w)
    = (fst (CloudflareAPIClient.retryLoop this ruleId enabled remaining w),
       set_storage s (snd (CloudflareAPIClient.retryLoop this ruleId enabled remaining w))).
Proof.
  induction remaining as [|attempt rest IH]; intros w; [reflexivity|].
  cbn [CloudflareAPIClient.retryLoop]. rewrite tryUpdate_storage.
  destruct (CloudflareAPIClient.tryUpdate this ruleId enabled w) as [[b|e] w1];
    cbn [fst snd]; [reflexivity|].
  destruct (CloudflareAPIClient.isAuthenticationFailed e); [reflexivity|].
  destruct (attempt <? 3); [|apply IH].
  change (sleep (CloudflareAPIClient.backoffMs attempt) (set_storage s w1))
    with (set_storage s (sleep (CloudflareAPIClient.backoffMs attempt) w1)).
  apply IH.
Qed.

Section SimulateIndependent.
Variable config : ValidatedConfig.
Variable enabled : bool.
Variable reason : string.
Variables yes no : Routes.Reply.

Let tail (success : bool) : M Routes.Reply :=
  if success
  then bind (StateManager.updateRedirectRuleState enabled reason)
         (fun _ => bind StateManager.resetCounters (fun _ => ret yes))
  else bind StateManager.incrementApiErrors (fun _ => ret no).

(** On a stored state, the reply of the handler's tail and its events
    depend on the rule controller's outcome only. *)
Lemma tail_reply success w state :
  storage w = Some state ->
  exists w', tail success w = (Ok (if success then yes else no), w')
             /\ trace w' = trace w.
Proof.
  intros Hs. unfold tail. destruct success; unfold bind.
  - rewrite (call_updateRedirectRuleState enabled reason w state Hs).
    erewrite call_resetCounters by reflexivity.
    eexists. split; reflexivity.
  - rewrite (call_incrementApiErrors w state Hs).
    eexists. split; reflexivity.
Qed.

(** A handler that stores [change state] and then calls the rule
    controller: its reply and its events are those of the controller's run,
    whatever the stored state is. *)
Lemma simulate_run (change : MonitorStateData -> MonitorStateData) simulate w state :
  storage w = Some state ->
  simulate w = (Ok (change state), store (change state) w) ->
  let handler :=
    Routes.respond
      (bind (Routes.validateEnvironment (Ok config)) (fun config =>
       bind simulate (fun _ : MonitorStateData =>
       bind (CloudflareAPIClient.updateRedirectRule (apiClient config)
               (redirectRuleId config) enabled) tail))) in
  let run := CloudflareAPIClient.updateRedirectRule (apiClient config)
               (redirectRuleId config) enabled w in
  fst (handler w)
  = match fst run with
    | Ok success => if success then yes else no
    | Throw error => Routes.mkReply 500 (Routes.ErrorResponse (message error))
    end
  /\ trace (snd (handler w)) = trace (snd run).
Proof.
  intros Hs Es handler run.
  assert (U : CloudflareAPIClient.updateRedirectRule (apiClient config)
                (redirectRuleId config) enabled (store (change state) w)
              = (fst run, set_storage (Some (change state)) (snd run))).
  { unfold run, store, CloudflareAPIClient.updateRedirectRule.
    apply retryLoop_storage. }
  assert (E : exists w', handler w
                = (match fst run with
                   | Ok success => if success then yes else no
                   | Throw error => Routes.mkReply 500 (Routes.ErrorResponse (message error))
                   end, w')
                /\ trace w' = trace (snd run)).
  { unfold handler, Routes.respond, Routes.validateEnvironment.
    unfold bind at 1. unfold ret at 1. unfold bind at 1. rewrite Es.
    unfold bind at 1. rewrite U.
    destruct (fst run) as [success|e].
    - destruct (tail_reply success (set_storage (Some (change state)) (snd run))
                  (change state) eq_refl) as (w' & -> & T).
      exists w'. split; [reflexivity|exact T].
    - eexists. split; reflexivity. }
  destruct E as (w' & -> & T). split; [reflexivity|exact T].
Qed.
End SimulateIndependent.

(** The reply and the events of the simulate handlers do not depend on the
    maintenance settings of the stored state. *)
Lemma simulate_maintenance_independent config w state mode reason windows :
  storage w = Some state ->
  let w2 := store (withMaintenance mode reason windows state) w in
  (fst (Routes.simulateFailover (Ok config) w2) = fst (Routes.simulateFailover (Ok config) w)
   /\ trace (snd (Routes.simulateFailover (Ok config) w2))
      = trace (snd (Routes.simulateFailover (Ok config) w)))
  /\ (fst (Routes.simulateRecovery (Ok config) w2) = fst (Routes.simulateRecovery (Ok config) w)
      /\ trace (snd (Routes.simulateRecovery (Ok config) w2))
         = trace (snd (Routes.simulateRecovery (Ok config) w))).
Proof.
  intros Hs w2.
  assert (Hs2 : storage w2 = Some (withMaintenance mode reason windows state)) by reflexivity.
  split.
  - destruct (simulate_run config true
                "Simulated failover - manually triggered via API"
                (Routes.mkReply 200 (Routes.SimulateResponse true (Some 0) None
                                       "Redirect rule enabled successfully"))
                (Routes.mkReply 500 (Routes.SimulateResponse false None None
                                       "Failed to enable redirect rule via Cloudflare API"))
                (MonitorState.simulateFailover (failureCountThreshold config))
                (StateManager.simulateFailover (failureCountThreshold config))
                w state Hs (call_simulateFailover _ w state Hs)) as [R1 T1].
    destruct (simulate_run config true
                "Simulated failover - manually triggered via API"
                (Routes.mkReply 200 (Routes.SimulateResponse true (Some 0) None
                                       "Redirect rule enabled successfully"))
                (Routes.mkReply 500 (Routes.SimulateResponse false None None
                                       "Failed to enable redirect rule via Cloudflare API"))
                (MonitorState.simulateFailover (failureCountThreshold config))
                (StateManager.simulateFailover (failureCountThreshold config))
                w2 _ Hs2 (call_simulateFailover _ w2 _ Hs2)) as [R2 T2].
    cbv zeta in R1, T1, R2, T2.
    unfold w2, store, CloudflareAPIClient.updateRedirectRule in R2, T2.
    rewrite retryLoop_storage in R2, T2. cbn [fst snd trace set_storage] in R2, T2.
    split.
    + exact (eq_trans R2 (eq_sym R1)).
    + exact (eq_trans T2 (eq_sym T1)).
  - destruct (simulate_run config false
                "Simulated recovery - manually triggered via API"
                (Routes.mkReply 200 (Routes.SimulateResponse true None (Some 0)
                                       "Redirect rule disabled successfully"))
                (Routes.mkReply 500 (Routes.SimulateResponse false None None
                                       "Failed to disable redirect rule via Cloudflare API"))
                (MonitorState.simulateRecovery (recoveryCountThreshold config))
                (StateManager.simulateRecovery (recoveryCountThreshold config))
                w state Hs (call_simulateRecovery _ w state Hs)) as [R1 T1].
    destruct (simulate_run config false
                "Simulated recovery - manually triggered via API"
                (Routes.mkReply 200 (Routes.SimulateResponse true None (Some 0)
                                       "Redirect rule disabled successfully"))
                (Routes.mkReply 500 (Routes.SimulateResponse false None None
                                       "Failed to disable redirect rule via Cloudflare API"))
                (MonitorState.simulateRecovery (recoveryCountThreshold config))
                (StateManager.simulateRecovery (recoveryCountThreshold config))
                w2 _ Hs2 (call_simulateRecovery _ w2 _ Hs2)) as [R2 T2].
    cbv zeta in R1, T1, R2, T2.
    unfold w2, store, CloudflareAPIClient.updateRedirectRule in R2, T2.
    rewrite retryLoop_storage in R2, T2. cbn [fst snd trace set_storage] in R2, T2.
    split.
    + exact (eq_trans R2 (eq_sym R1)).
    + exact (eq_trans T2 (eq_sym T1)).
Qed.

(** C10. The simulate-failover and simulate-recovery handlers consult
    neither [maintenanceMode] nor the scheduled windows: for every
    configuration that validates and every world - so also under active
    suppression - the first thing each does on the network is the GET of the
    rule controller; when the rules API answers, the PUT with the requested
    flag follows and the transition is recorded; and replacing the
    maintenance settings of the stored state changes neither the reply nor
    the events of a handler. *)
Theorem simulate_ignores_maintenance :
  forall config w,
    let get := CloudflareAPIClient.getRuleset (apiClient config) (redirectRuleId config) in
    (exists more,
       eventsSince w (snd (Routes.simulateFailover (Ok config) w))
         = EvFetch get (net w (sent w) get) :: more)
    /\ (exists more,
          eventsSince w (snd (Routes.simulateRecovery (Ok config) w))
            = EvFetch get (net w (sent w) get) :: more)
    /\ (ruleControllerSucceeds config w ->
        (exists rules state',
           requestsOf (eventsSince w (snd (Routes.simulateFailover (Ok config) w)))
             = enableCall config rules
           /\ Routes.status (fst (Routes.simulateFailover (Ok config) w)) = 200
           /\ storage (snd (Routes.simulateFailover (Ok config) w)) = Some state'
           /\ redirectRuleEnabled state' = true)
        /\ (exists rules state',
              requestsOf (eventsSince w (snd (Routes.simulateRecovery (Ok config) w)))
                = disableCall config rules
              /\ Routes.status (fst (Routes.simulateRecovery (Ok config) w)) = 200
              /\ storage (snd (Routes.simulateRecovery (Ok config) w)) = Some state'
              /\ redirectRuleEnabled state' = false))
    /\ (forall state mode reason windows,
          storage w = Some state ->
          let w2 := store (withMaintenance mode reason windows state) w in
          (fst (Routes.simulateFailover (Ok config) w2)
             = fst (Routes.simulateFailover (Ok config) w)
           /\ trace (snd (Routes.simulateFailover (Ok config) w2))
              = trace (snd (Routes.simulateFailover (Ok config) w)))
          /\ (fst (Routes.simulateRecovery (Ok config) w2)
                = fst (Routes.simulateRecovery (Ok config) w)
              /\ trace (snd (Routes.simulateRecovery (Ok config) w2))
                 = trace (snd (Routes.simulateRecovery (Ok config) w)))).
Proof.
  intros config w get.
  assert (F : exists state w0,
             StateManager.simulateFailover (failureCountThreshold config) w = (Ok state, w0)
             /\ storage w0 = Some state
             /\ trace w0 = trace w /\ net w0 = net w /\ sent w0 = sent w).
  { apply simulate_stored with (threshold := failureCountThreshold config). left. reflexivity. }
  assert (R : exists state w0,
             StateManager.simulateRecovery (recoveryCountThreshold config) w = (Ok state, w0)
             /\ storage w0 = Some state
             /\ trace w0 = trace w /\ net w0 = net w /\ sent w0 = sent w).
  { apply simulate_stored with (threshold := recoveryCountThreshold config). right. reflexivity. }
  split; [|split; [|split]].
  - exact (simulate_first config w _ true _ _ _ F).
  - exact (simulate_first config w _ false _ _ _ R).
  - intros Hr. split.
    + destruct (simulate_success config w
                  (StateManager.simulateFailover (failureCountThreshold config)) true
                  "Simulated failover - manually triggered via API"
                  (Routes.mkReply 200 (Routes.SimulateResponse true (Some 0) None
                                         "Redirect rule enabled successfully"))
                  (Routes.mkReply 500 (Routes.SimulateResponse false None None
                                         "Failed to enable redirect rule via Cloudflare API"))
                  F Hr) as (rules & state' & Q & Y & S & E).
      exists rules, state'. split; [exact Q|]. split; [|split; [exact S|exact E]].
      exact (f_equal Routes.status Y).
    + destruct (simulate_success config w
                  (StateManager.simulateRecovery (recoveryCountThreshold config)) false
                  "Simulated recovery - manually triggered via API"
                  (Routes.mkReply 200 (Routes.SimulateResponse true None (Some 0)
                                         "Redirect rule disabled successfully"))
                  (Routes.mkReply 500 (Routes.SimulateResponse false None None
                                         "Failed to disable redirect rule via Cloudflare API"))
                  R Hr) as (rules & state' & Q & Y & S & E).
      exists rules, state'. split; [exact Q|]. split; [|split; [exact S|exact E]].
      exact (f_equal Routes.status Y).
  - intros state mode reason windows Hs.
    exact (simulate_maintenance_independent config w state mode reason windows Hs).
Qed.

(** * Where the code departs from its documentation *)

(** Once latched, the cycle stops after stamping the cron time and
    sweeping the windows: no probe, no counter change. *)
Lemma latched_cycle_aborts config w state :
  storage w = Some state ->
  apiCallsDisabled state = true ->
  handleScheduled (Ok config) w = worldLatched w state.
Proof.
  intros Hs Hd. rewrite (cycle_eq config w state Hs), Hd. reflexivity.
Qed.

(** C4, at the failing input.  With [apiCallsDisabled] latched, a request
    to POST /simulate-failover still sends the GET and the PUT of the rule
    controller and records the rule as enabled; the latch stays set. *)
Theorem simulate_failover_ignores_latch :
  option_map apiCallsDisabled (storage worldLatchedDemo) = Some true
  /\ requestsOf (trace (snd (Routes.simulateFailover (Ok (demoConfig 3 2)) worldLatchedDemo)))
     = enableCall (demoConfig 3 2) demoRules
  /\ Routes.status (fst (Routes.simulateFailover (Ok (demoConfig 3 2)) worldLatchedDemo)) = 200
  /\ option_map (fun s => (redirectRuleEnabled s, apiCallsDisabled s))
       (storage (snd (Routes.simulateFailover (Ok (demoConfig 3 2)) worldLatchedDemo)))
     = Some (true, true).
Proof. vm_compute. repeat split. Qed.

(** C3, at the failing input.  With failure threshold 3 and three
    unhealthy probes from the fresh state, the totals stand at 2 checks and
    2 failures after the second cycle; the third cycle enables the rule and
    then calls reset-counters, which zeroes every cumulative total, the
    rule-change total of the transition just recorded included. *)
Theorem toggle_wipes_cumulative_totals :
  option_map totals (storage (cycles (demoConfig 3 2) 2 worldDown)) = Some (2, 0, 2, 0, 0)
  /\ option_map redirectRuleEnabled (storage (cycles (demoConfig 3 2) 3 worldDown)) = Some true
  /\ option_map historySummary (storage (cycles (demoConfig 3 2) 3 worldDown))
     = Some [(enabled_event, 3, 0)]
  /\ option_map totals (storage (cycles (demoConfig 3 2) 3 worldDown)) = Some (0, 0, 0, 0, 0)
  /\ forall state, totals (MonitorState.resetCounters state) = (0, 0, 0, 0, 0).
Proof. vm_compute. repeat split. Qed.

(** C9, at the failing input.  The Durable Object has no handler for
    POST /reset-all-metrics: it answers 404 and leaves the state alone, so
    [StateManager.resetAllMetrics] throws; the full reset is what
    POST /reset-counters does. *)
Theorem reset_all_metrics_not_found :
  forall w body,
    MonitorState.fetch (MonitorState.mkRequest Http.POST "/reset-all-metrics" body) w
    = (MonitorState.mkResponse 404 (MonitorState.Text "Not Found"), w)
    /\ StateManager.resetAllMetrics w
       = (Throw (mkError "Failed to reset all metrics"), w).
Proof. intros w body. split; reflexivity. Qed.

(** No request to the Durable Object clears the latch. *)
Lemma latch_never_cleared request w state :
  storage w = Some state ->
  apiCallsDisabled state = true ->
  exists state',
    storage (snd (MonitorState.fetch request w)) = Some state'
    /\ apiCallsDisabled state' = true.
Proof.
  intros Hs Hd. unfold MonitorState.fetch.
  repeat match goal with
         | |- context [if ?b then _ else _] => destruct b
         | |- context [match MonitorState.body request with _ => _ end] =>
             destruct (MonitorState.body request) as [[| | |]|]
         end;
    unfold MonitorState.update, MonitorState.updateAt, MonitorState.badBody,
      MonitorState.getState;
    rewrite ?Hs; cbn [fst snd storage MonitorState.setState set_storage newDate];
    eexists; (split; [try reflexivity; eassumption|]);
    try exact Hd; try reflexivity.
  unfold MonitorState.updateRedirectRuleState.
  match goal with |- context [if ?b then _ else _] => destruct b end; exact Hd.
Qed.

(** * The theorems at concrete inputs *)

Lemma demo_rule_controller_succeeds state :
  ruleControllerSucceeds (demoConfig 3 2)
    (demoWorld state (demoNet (response 503 None) apiOk)).
Proof.
  split.
  - intros n. exists (Http.mkResponse 200 "" (Some demoRules)), demoRules.
    repeat split.
  - intros n rules. exists (Http.mkResponse 200 "" (Some demoRules)).
    split; reflexivity.
Defined.

Lemma threshold_edge_witness : thresholdEdgeRun (demoConfig 3 2) worldDown.
Proof.
  apply (threshold_edge (demoConfig 3 2) worldDown).
  - reflexivity.
  - left. reflexivity.
  - intros n. reflexivity.
  - apply demo_rule_controller_succeeds.
Defined.

Lemma counters_never_both_positive_witness :
  option_map (fun s => (failureCount s, recoveryCount s)) (storage worldServed) = Some (3, 0)
  /\ match storage worldServed with
     | Some state => failureCount state = 0 \/ recoveryCount state = 0
     | None => False
     end.
Proof.
  split; [reflexivity|].
  assert (R : reachable worldServed).
  { unfold worldServed. apply reach_fetch. apply reach_fetch. apply reach_init. reflexivity. }
  pose proof (counters_never_both_positive worldServed R) as H.
  destruct (storage worldServed) as [state|] eqn:E.
  - exact (H state eq_refl).
  - vm_compute in E. discriminate E.
Defined.

Lemma authentication_short_circuit_witness :
  fst (CloudflareAPIClient.updateRedirectRule demoClient "a" true worldDenied)
    = Throw (mkError "AUTHENTICATION_FAILED")
  /\ option_map (fun s => (apiCallsDisabled s, apiErrorsTotal s))
       (storage (snd (changeRedirectRule (demoConfig 3 2) true "r" worldDenied)))
     = Some (true, 0).
Proof.
  destruct (authentication_short_circuit (demoConfig 3 2) true "r" worldDenied
              (MonitorState.defaultState 0)
              (fst (CloudflareAPIClient.updateRedirectRule demoClient "a" true worldDenied))
              (snd (CloudflareAPIClient.updateRedirectRule demoClient "a" true worldDenied))
              eq_refl eq_refl eq_refl) as (R & _ & C & _).
  split; [exact R|]. rewrite C. reflexivity.
Defined.

Lemma retry_policy_witness :
  fst (CloudflareAPIClient.updateRedirectRule demoClient "a" true worldFlaky) = Ok true
  /\ attemptsOf
       (trace (snd (CloudflareAPIClient.updateRedirectRule demoClient "a" true worldFlaky)))
     = 3%nat
  /\ sleepsOf
       (trace (snd (CloudflareAPIClient.updateRedirectRule demoClient "a" true worldFlaky)))
     = [1000; 2000].
Proof.
  destruct (retry_policy demoClient "a" true worldFlaky
              (fst (CloudflareAPIClient.updateRedirectRule demoClient "a" true worldFlaky))
              (snd (CloudflareAPIClient.updateRedirectRule demoClient "a" true worldFlaky))
              eq_refl) as (_ & _ & _ & H).
  destruct (H (mkError "HTTP 500: ")
              (snd (CloudflareAPIClient.tryUpdate demoClient "a" true worldFlaky))
              (mkError "HTTP 500: ")
              (snd (CloudflareAPIClient.tryUpdate demoClient "a" true
                      (sleep 1000
                         (snd (CloudflareAPIClient.tryUpdate demoClient "a" true worldFlaky)))))
              (Ok true)
              (snd (CloudflareAPIClient.tryUpdate demoClient "a" true
                      (sleep 2000
                         (snd (CloudflareAPIClient.tryUpdate demoClient "a" true
                                 (sleep 1000
                                    (snd (CloudflareAPIClient.tryUpdate demoClient "a" true
                                            worldFlaky))))))))
              eq_refl eq_refl eq_refl eq_refl eq_refl) as (_ & A & S & _ & T).
  split; [exact (T eq_refl)|]. split; [exact A|exact S].
Defined.

Lemma suppression_withholds_rule_change_witness :
  requestsOf (eventsSince worldMaintenance (cycles (demoConfig 3 2) 5 worldMaintenance))
    = repeat (probeRequest (demoConfig 3 2)) 5
  /\ exists s5,
       storage (cycles (demoConfig 3 2) 5 worldMaintenance) = Some s5
       /\ redirectRuleEnabled s5 = false
       /\ redirectRuleHistory s5 = []
       /\ failureCount s5 = 5.
Proof.
  destruct (suppression_withholds_rule_change (demoConfig 3 2) worldMaintenance
              underMaintenance eq_refl eq_refl)
    as (_ & H & _).
  destruct (H eq_refl 5%nat) as (R & _ & s5 & S & E & Hh & F).
  split; [exact R|]. exists s5.
  split; [exact S|]. split; [exact E|]. split; [exact Hh|].
  apply F. intros n. reflexivity.
Defined.

Lemma simulate_ignores_maintenance_witness :
  maintenanceModeActive underMaintenance 0 = true
  /\ exists rules state',
       requestsOf (eventsSince worldMaintenance
                     (snd (Routes.simulateFailover (Ok (demoConfig 3 2)) worldMaintenance)))
         = enableCall (demoConfig 3 2) rules
       /\ Routes.status (fst (Routes.simulateFailover (Ok (demoConfig 3 2)) worldMaintenance))
          = 200
       /\ storage (snd (Routes.simulateFailover (Ok (demoConfig 3 2)) worldMaintenance))
          = Some state'
       /\ redirectRuleEnabled state' = true.
Proof.
  split; [reflexivity|].
  destruct (simulate_ignores_maintenance (demoConfig 3 2) worldMaintenance) as (_ & _ & H & _).
  exact (proj1 (H (demo_rule_controller_succeeds (Some underMaintenance)))).
Defined.

(** * More on the Consistency Store *)

(** What one request does to the storage: nothing, or one of the state
    changes applied to the current state and persisted; the response is ok
    exactly in the second case and then carries the persisted state. *)
Lemma fetch_change request w :
  let response := fst (MonitorState.fetch request w) in
  let w' := snd (MonitorState.fetch request w) in
  (MonitorState.ok response = false /\ w' = w)
  \/ exists resets f,
       stateChange resets f
       /\ (resets = true -> isResetCounters request = true)
       /\ storage w' = Some (f (current w))
       /\ response = MonitorState.json (f (current w)).
Proof.
  unfold MonitorState.fetch, isResetCounters, current.
  destruct (MonitorState.isMethod (MonitorState.method request) Http.GET
            && String.eqb (MonitorState.pathname request) "/state").
  { right. exists false, (fun state => state). split; [constructor|].
    split; [discriminate|].
    unfold MonitorState.getState. destruct (storage w) eqn:E; cbn [fst snd];
      [rewrite E|]; split; reflexivity. }
  repeat match goal with
         | |- context [if ?b then _ else _] => destruct b
         | |- context [match MonitorState.body request with _ => _ end] =>
             destruct (MonitorState.body request) as [[| | |]|]
         end;
    try (match goal with
         | |- context [MonitorState.badBody] => idtac
         | |- context [MonitorState.mkResponse 404] => idtac
         end; left; split; reflexivity).
  all: right;
    unfold MonitorState.update, MonitorState.updateAt, MonitorState.getState;
    destruct (storage w);
    cbn [fst snd storage clock ticks newDate MonitorState.setState set_storage].
  all: eexists; eexists; split; [|split; [|split; reflexivity]].
  all: try lazymatch goal with
           | |- stateChange _ MonitorState.resetCounters => exact change_resetCounters
           | |- stateChange _ _ => econstructor
           end.
  all: first [discriminate | intros _; reflexivity].
Qed.


(** A property of the defaults that every state change keeps holds of
    every state the Durable Object can reach. *)
Lemma reachable_invariant (P : MonitorStateData -> Prop) :
  (forall t, P (MonitorState.defaultState t)) ->
  (forall resets f state, stateChange resets f -> P state -> P (f state)) ->
  forall w, reachable w -> forall state, storage w = Some state -> P state.
Proof.
  intros Hd Hc w R.
  induction R as [w E | w request R IH | w w' R IH E]; intros state Hs.
  - congruence.
  - destruct (fetch_change request w) as [[_ E] | (resets & f & C & _ & S & _)].
    + rewrite E in Hs. exact (IH state Hs).
    + rewrite S in Hs. injection Hs as <-.
      apply (Hc resets f); [exact C|].
      unfold current. destruct (storage w) as [s|]; [exact (IH s eq_refl)|apply Hd].
  - rewrite E in Hs. exact (IH state Hs).
Qed.

Lemma updateRedirectRuleState_history enabled reason now state :
  redirectRuleHistory (MonitorState.updateRedirectRuleState enabled reason now state)
  = firstn 50 (historyEntry enabled reason now state :: redirectRuleHistory state).
Proof.
  unfold MonitorState.updateRedirectRuleState.
  cbn [redirectRuleHistory set_redirectRuleHistory set_redirectRuleChangesTotal
       set_redirectRuleEnabled failureCount recoveryCount].
  match goal with |- context [if ?b then _ else _] => destruct b eqn:B end.
  - reflexivity.
  - cbn [redirectRuleHistory set_redirectRuleHistory].
    symmetry. apply firstn_all2.
    rewrite Z.gtb_ltb in B. apply Z.ltb_ge in B.
    change 50%nat with (Z.to_nat 50). lia.
Qed.

(** X1. The history never holds more than 50 entries: recording a
    transition puts the new entry first and keeps the 49 newest of the
    others. *)
Theorem history_capped :
  forall w, reachable w ->
  forall state, storage w = Some state ->
    (List.length (redirectRuleHistory state) <= 50)%nat
    /\ forall enabled reason now,
         redirectRuleHistory (MonitorState.updateRedirectRuleState enabled reason now state)
         = historyEntry enabled reason now state
             :: firstn 49 (redirectRuleHistory state).
Proof.
  intros w R state Hs.
  assert (L : (List.length (redirectRuleHistory state) <= 50)%nat).
  { revert w R state Hs.
    apply (reachable_invariant
             (fun state => (List.length (redirectRuleHistory state) <= 50)%nat)).
    - intros t. cbn. lia.
    - intros resets f state C H.
      destruct C; try exact H.
      rewrite updateRedirectRuleState_history. apply firstn_le_length. }
  split; [exact L|].
  intros enabled reason now. apply updateRedirectRuleState_history.
Qed.

(** X3. In every reachable state the total of checks is the total of
    successes plus the total of failures. *)
Theorem checks_are_successes_and_failures :
  forall w, reachable w ->
  forall state, storage w = Some state ->
    healthChecksTotal state = successesTotal state + failuresTotal state.
Proof.
  apply (reachable_invariant totalsConsistent).
  - intros t. reflexivity.
  - intros resets f state C H. unfold totalsConsistent in *.
    destruct C; try exact H; cbn; try lia.
    unfold MonitorState.updateRedirectRuleState.
    match goal with |- context [if ?b then _ else _] => destruct b end; exact H.
Qed.

(** X4. Apart from POST /reset-counters, no request makes a cumulative
    counter smaller. *)
Theorem totals_only_reset_by_reset_counters :
  forall request w state state',
    isResetCounters request = false ->
    storage w = Some state ->
    storage (snd (MonitorState.fetch request w)) = Some state' ->
    totalsGrow state state'.
Proof.
  intros request w state state' N Hs Hs'.
  assert (Refl : totalsGrow state state) by (unfold totalsGrow; lia).
  destruct (fetch_change request w) as [[_ E] | (resets & f & C & Rs & S & _)].
  - rewrite E, Hs in Hs'. injection Hs' as <-. exact Refl.
  - rewrite S in Hs'. injection Hs' as <-.
    unfold current. rewrite Hs.
    destruct C; try exact Refl; try (unfold totalsGrow; cbn; lia).
    + specialize (Rs eq_refl). congruence.
    + unfold totalsGrow, MonitorState.updateRedirectRuleState.
      match goal with |- context [if ?b then _ else _] => destruct b end; cbn; lia.
Qed.

(** X5. No request changes the worker start time once it is stored, and
    none clears the latch on the API calls. *)
Theorem start_time_and_latch_kept :
  forall request w state,
    storage w = Some state ->
    exists state',
      storage (snd (MonitorState.fetch request w)) = Some state'
      /\ workerStartTime state' = workerStartTime state
      /\ (apiCallsDisabled state = true -> apiCallsDisabled state' = true).
Proof.
  intros request w state Hs.
  destruct (fetch_change request w) as [[_ E] | (resets & f & C & _ & S & _)].
  - exists state. rewrite E. auto.
  - exists (f (current w)). split; [exact S|].
    unfold current. rewrite Hs.
    destruct C; try (split; [reflexivity|auto]; fail).
    unfold MonitorState.updateRedirectRuleState.
    match goal with |- context [if ?b then _ else _] => destruct b end; split; auto.
Qed.

(** ** Maintenance windows *)

Lemma lastSegment_id s : forall acc,
  isId s = true -> MonitorState.lastSegment acc s = acc +++ s.
Proof.
  induction s as [|c rest IH]; intros acc H; cbn.
  - clear H. induction acc as [|a acc IHa]; cbn; [reflexivity|f_equal; exact IHa].
  - cbn in H. apply andb_true_iff in H. destruct H as [Hc Hr].
    assert (N : Ascii.eqb c "/" = false).
    { apply Ascii.eqb_neq. intros ->. vm_compute in Hc. discriminate. }
    rewrite N, (IH _ Hr).
    clear. induction acc as [|a acc IHa]; cbn; [reflexivity|f_equal; exact IHa].
Qed.

Lemma prefix_append p s : String.prefix p (p +++ s) = true.
Proof.
  induction p as [|a p IH]; cbn; [destruct s; reflexivity|].
  destruct (ascii_dec a a); [exact IH|contradiction].
Qed.

Lemma delete_path_segment windowId :
  MonitorState.lastSegment "" ("/delete-maintenance-window/" +++ windowId)
  = MonitorState.lastSegment "" windowId.
Proof. reflexivity. Qed.

(** The stub's call for an id deletes the windows of that id. *)
Lemma call_deleteMaintenanceWindow windowId w state :
  isId windowId = true ->
  storage w = Some state ->
  StateManager.deleteMaintenanceWindow windowId w
  = (Ok (MonitorState.deleteMaintenanceWindow windowId state),
     store (MonitorState.deleteMaintenanceWindow windowId state) w).
Proof.
  intros Hi Hs.
  unfold StateManager.deleteMaintenanceWindow, StateManager.call, MonitorState.fetch.
  cbn [MonitorState.method MonitorState.pathname MonitorState.isMethod andb].
  rewrite prefix_append, delete_path_segment, (lastSegment_id windowId "" Hi).
  cbn [String.append].
  unfold MonitorState.update, MonitorState.getState. rewrite Hs. reflexivity.
Qed.

Lemma call_addMaintenanceWindow window w state :
  storage w = Some state ->
  StateManager.addMaintenanceWindow window w
  = (Ok (MonitorState.addMaintenanceWindow window state),
     store (MonitorState.addMaintenanceWindow window state) w).
Proof.
  intros Hs. unfold StateManager.addMaintenanceWindow, StateManager.call. cbn.
  unfold MonitorState.update, MonitorState.getState. rewrite Hs. reflexivity.
Qed.


Lemma filter_other_ids windowId (windows : list MaintenanceWindow.t) :
  ~ In windowId (map MaintenanceWindow.id windows) ->
  filter (fun w => negb (String.eqb (MaintenanceWindow.id w) windowId)) windows = windows.
Proof.
  induction windows as [|x rest IH]; intros N; cbn; [reflexivity|].
  cbn in N. destruct (String.eqb (MaintenanceWindow.id x) windowId) eqn:E.
  - apply String.eqb_eq in E. tauto.
  - cbn. f_equal. apply IH. tauto.
Qed.

(** X6. Scheduling a window and cancelling it by its id gives back the
    windows there were, in their order, when no other window has that id;
    in general a cancellation removes the windows of that id and no
    other. *)
Theorem window_add_then_delete :
  forall window w state,
    isId (MaintenanceWindow.id window) = true ->
    storage w = Some state ->
    let w1 := snd (StateManager.addMaintenanceWindow window w) in
    let w2 := snd (StateManager.deleteMaintenanceWindow (MaintenanceWindow.id window) w1) in
    option_map scheduledMaintenanceWindows (storage w1)
      = Some (scheduledMaintenanceWindows state ++ [window])
    /\ option_map scheduledMaintenanceWindows (storage w2)
       = Some (filter (fun x => negb (String.eqb (MaintenanceWindow.id x)
                                        (MaintenanceWindow.id window)))
                 (scheduledMaintenanceWindows state))
    /\ (~ In (MaintenanceWindow.id window) (windowIds state) ->
        option_map scheduledMaintenanceWindows (storage w2)
        = Some (scheduledMaintenanceWindows state)).
Proof.
  intros window w state Hi Hs w1 w2.
  assert (E1 : w1 = store (MonitorState.addMaintenanceWindow window state) w).
  { unfold w1. rewrite (call_addMaintenanceWindow window w state Hs). reflexivity. }
  assert (E2 : option_map scheduledMaintenanceWindows (storage w2)
               = Some (filter (fun x => negb (String.eqb (MaintenanceWindow.id x)
                                                (MaintenanceWindow.id window)))
                         (scheduledMaintenanceWindows state))).
  { unfold w2. rewrite E1.
    rewrite (call_deleteMaintenanceWindow (MaintenanceWindow.id window)
               (store (MonitorState.addMaintenanceWindow window state) w)
               (MonitorState.addMaintenanceWindow window state) Hi eq_refl).
    cbn. rewrite filter_app. cbn. rewrite String.eqb_refl. cbn.
    rewrite app_nil_r. reflexivity. }
  split; [rewrite E1; reflexivity|]. split; [exact E2|].
  intros N. rewrite E2. f_equal. apply filter_other_ids. exact N.
Qed.

Lemma existsb_filter {A} (f g : A -> bool) l :
  existsb f (filter g l) = existsb (fun x => g x && f x) l.
Proof.
  induction l as [|x l IH]; cbn; [reflexivity|].
  destruct (g x); cbn; rewrite IH; reflexivity.
Qed.

Lemma existsb_pointwise {A} (f g : A -> bool) l :
  (forall x, f x = g x) -> existsb f l = existsb g l.
Proof.
  intros H. induction l as [|x l IH]; cbn; [reflexivity|].
  rewrite H, IH. reflexivity.
Qed.

(** X7. Sweeping the expired windows at an instant never adds
    suppression, and it changes the suppression at no later instant: a
    window that is swept at [t] is active at no [now] after [t]. *)
Theorem sweep_keeps_later_suppression :
  forall state t now,
    (maintenanceModeActive (MonitorState.cleanMaintenanceWindows t state) now = true ->
     maintenanceModeActive state now = true)
    /\ (t < now ->
        maintenanceModeActive (MonitorState.cleanMaintenanceWindows t state) now
        = maintenanceModeActive state now).
Proof.
  intros state t now.
  unfold maintenanceModeActive, isInMaintenanceWindow, MonitorState.cleanMaintenanceWindows.
  cbn [maintenanceMode scheduledMaintenanceWindows set_scheduledMaintenanceWindows].
  rewrite existsb_filter. split.
  - intros H. apply orb_true_iff in H. apply orb_true_iff.
    destruct H as [H|H]; [left; exact H|right].
    apply existsb_exists in H. destruct H as (x & I & H).
    apply existsb_exists. exists x. split; [exact I|].
    apply andb_true_iff in H. tauto.
  - intros L. f_equal. apply existsb_pointwise. intros x.
    unfold dateAfter, dateGe, dateLe.
    destruct (MaintenanceWindow.endTime x) as [e|]; [|rewrite andb_false_r; reflexivity].
    destruct (now <=? e) eqn:B; [|rewrite !andb_false_r; reflexivity].
    apply Z.leb_le in B.
    replace (e >? t) with true; [reflexivity|].
    symmetry. rewrite Z.gtb_ltb. apply Z.ltb_lt. lia.
Qed.

Lemma fetch_delete windowId w :
  isId windowId = true ->
  MonitorState.fetch
    (MonitorState.mkRequest Http.DELETE ("/delete-maintenance-window/" +++ windowId) None) w
  = MonitorState.update (MonitorState.deleteMaintenanceWindow windowId) w.
Proof.
  intros Hi. unfold MonitorState.fetch.
  cbn [MonitorState.method MonitorState.pathname MonitorState.isMethod andb].
  rewrite prefix_append, delete_path_segment, (lastSegment_id windowId "" Hi).
  reflexivity.
Qed.

(** X20. Every method of the stub other than [resetAllMetrics] reaches
    a route of the Durable Object: whatever is stored, the call does not
    throw, it returns the state that is stored when it is done, and it
    performs no network or timer event. *)
Theorem stub_calls_reach_their_routes :
  forall m, stubCall m ->
  forall w, exists state,
    m w = (Ok state, snd (m w))
    /\ storage (snd (m w)) = Some state
    /\ trace (snd (m w)) = trace w
    /\ sent (snd (m w)) = sent w
    /\ net (snd (m w)) = net w.
Proof.
  intros m H w.
  destruct H as [ | | | | enabled reason | enabled reason | window | windowId Hi
                | | | | | threshold | threshold ];
    unfold StateManager.getState, StateManager.incrementFailure,
      StateManager.incrementRecovery, StateManager.resetCounters,
      StateManager.updateRedirectRuleState, StateManager.setMaintenanceMode,
      StateManager.addMaintenanceWindow, StateManager.deleteMaintenanceWindow,
      StateManager.cleanMaintenanceWindows, StateManager.incrementApiErrors,
      StateManager.updateCronExecution, StateManager.disableApiCalls,
      StateManager.simulateFailover, StateManager.simulateRecovery, StateManager.call;
    try rewrite (fetch_delete windowId w Hi);
    cbn -[MonitorState.update MonitorState.updateAt MonitorState.getState];
    unfold MonitorState.update, MonitorState.updateAt, MonitorState.getState;
    destruct (storage w) eqn:E; cbn; eexists; repeat split; exact E.
Qed.

(** * More on the decision engine *)

Lemma idle_not_suppressed w state :
  idle state -> maintenanceModeActive (stateRead w state) (nowRead w) = false.
Proof.
  intros (_ & Hm & Hw). unfold maintenanceModeActive, isInMaintenanceWindow.
  cbn. rewrite Hm, Hw. reflexivity.
Qed.

Lemma stateCounted_idle config w state : idle state -> idle (stateCounted config w state).
Proof.
  intros (Hd & Hm & Hw).
  pose proof (stateCounted_fields config w state) as (_ & _ & M & D & _ & _ & _ & W).
  unfold idle. rewrite M, D, W. cbn. rewrite Hw. auto.
Qed.

Lemma stateCounted_streak config w state healthy :
  isHealthy (probeResult config w) = healthy ->
  streak healthy (stateCounted config w state) = streak healthy state + 1
  /\ streak (negb healthy) (stateCounted config w state) = 0.
Proof.
  intros H. pose proof (stateCounted_fields config w state) as (C & _).
  rewrite H in C. unfold streak. destruct healthy; cbn [negb]; tauto.
Qed.

Section Streak.
Variable config : ValidatedConfig.
Variable healthy : bool.

(** Below the threshold, a streak of probes only counts. *)
Lemma quiet_streak n :
  forall w state,
    storage w = Some state ->
    idle state ->
    redirectRuleEnabled state = healthy ->
    allProbes config w healthy ->
    streak healthy state + Z.of_nat n < streakThreshold healthy config ->
    exists sn events,
      storage (cycles config n w) = Some sn
      /\ idle sn
      /\ redirectRuleEnabled sn = healthy
      /\ streak healthy sn = streak healthy state + Z.of_nat n
      /\ redirectRuleHistory sn = redirectRuleHistory state
      /\ net (cycles config n w) = net w
      /\ trace (cycles config n w) = trace w ++ events
      /\ requestsOf events = repeat (probeRequest config) n
      /\ sleepsOf events = [].
Proof.
  induction n as [|n IH]; intros w state Hs Hi He Hp Hb.
  - exists state, []. cbn. rewrite app_nil_r, Z.add_0_r. repeat split; auto; apply Hi.
  - destruct (IH w state Hs Hi He Hp ltac:(lia))
      as (sn & events & Sn & In_ & En & Kn & Hn & Nn & Tn & Rn & Ln).
    set (wp := cycles config n w) in *.
    assert (U : isHealthy (probeResult config wp) = healthy).
    { unfold probeResult. rewrite Nn. apply Hp. }
    assert (C : cycles config (S n) w = worldCounted config wp sn).
    { unfold cycles. cbn [Nat.iter nat_rect]. fold (cycles config n w). fold wp.
      apply cycle_quiet; [exact Sn|apply In_|].
      rewrite U. unfold streak, streakThreshold in *.
      destruct healthy; left; lia. }
    pose proof (stateCounted_fields config wp sn) as (_ & E & _ & _ & H & _).
    destruct (stateCounted_streak config wp sn healthy U) as [K _].
    exists (stateCounted config wp sn),
           (events ++ [EvFetch (probeRequest config) (probeResult config wp)]).
    rewrite C. cbn [storage net trace worldCounted].
    split; [reflexivity|]. split; [apply stateCounted_idle; exact In_|].
    split; [congruence|]. split; [rewrite K, Kn; lia|].
    split; [congruence|]. split; [exact Nn|].
    split; [rewrite Tn, app_assoc; reflexivity|].
    split; [rewrite requestsOf_app, Rn; cbn [repeat]; rewrite repeat_cons; reflexivity|].
    rewrite sleepsOf_app, Ln. reflexivity.
Qed.
End Streak.

Lemma updateRedirectRuleState_enabled enabled reason now state :
  redirectRuleEnabled (MonitorState.updateRedirectRuleState enabled reason now state)
  = enabled.
Proof.
  unfold MonitorState.updateRedirectRuleState.
  match goal with |- context [if ?b then _ else _] => destruct b end; reflexivity.
Qed.

(** A cycle whose probe brings the streak to the threshold, with the
    rule in the opposite state, no suppression and the rules API
    answering, toggles the rule with one GET and one PUT. *)
Lemma cycle_toggle config healthy w state :
  storage w = Some state ->
  apiCallsDisabled state = false ->
  maintenanceModeActive (stateRead w state) (nowRead w) = false ->
  isHealthy (probeResult config w) = healthy ->
  streak healthy state + 1 >= streakThreshold healthy config ->
  redirectRuleEnabled state = healthy ->
  ruleControllerSucceeds config w ->
  exists rules events now s',
    storage (handleScheduled (Ok config) w) = Some s'
    /\ net (handleScheduled (Ok config) w) = net w
    /\ trace (handleScheduled (Ok config) w) = trace w ++ events
    /\ requestsOf events = probeRequest config :: toggleCall config (negb healthy) rules
    /\ sleepsOf events = []
    /\ s' = MonitorState.resetCounters
              (MonitorState.updateRedirectRuleState (negb healthy)
                 (if healthy then recoveryReason config else failureReason config)
                 now (stateCounted config w state)).
Proof.
  intros Hs Hd Hm Hh Hq He [Hget Hput].
  set (w3 := worldCounted config w state).
  destruct (Hget (sent w3)) as (resp1 & rules & N1 & O1 & R1).
  destruct (Hput (S (sent w3)) (CloudflareAPIClient.updatedRules (negb healthy) rules))
    as (resp2 & N2 & O2).
  rewrite (cycle_cross config w state Hs Hd Hm)
    by (rewrite Hh; unfold streak, streakThreshold in Hq; destruct healthy; split; auto; lia).
  rewrite Hh. fold w3.
  erewrite changeRedirectRule_eq;
    [ | reflexivity
      | apply (updateRedirectRule_success _ _ _ w3 resp1 rules resp2); assumption ].
  cbn [snd].
  exists rules. eexists. eexists. eexists.
  split; [reflexivity|]. split; [reflexivity|].
  split; [cbn [trace store set_storage tick newDate snd w3 worldCounted];
          rewrite <- app_assoc; reflexivity|].
  split; [reflexivity|]. split; reflexivity.
Qed.

(** X8. Hysteresis, for any threshold and in both directions: with the
    rule in the state that matches the probes so far, a streak of equal
    probes that reaches the threshold at the (n+1)-th probe sends the
    probes alone during the first n cycles, keeps the rule and the
    history as they are, and in cycle n+1 toggles the rule with one GET
    and one PUT, zeroes both counters and records the transition with the
    threshold as the streak's counter. *)
Theorem streak_toggles_at_threshold :
  forall config healthy n w state,
    storage w = Some state ->
    idle state ->
    redirectRuleEnabled state = healthy ->
    streak healthy state + Z.of_nat (S n) = streakThreshold healthy config ->
    allProbes config w healthy ->
    ruleControllerSucceeds config w ->
    requestsOf (eventsSince w (cycles config n w)) = repeat (probeRequest config) n
    /\ sleepsOf (eventsSince w (cycles config (S n) w)) = []
    /\ (exists sn, storage (cycles config n w) = Some sn
          /\ redirectRuleEnabled sn = healthy
          /\ streak healthy sn = streakThreshold healthy config - 1
          /\ redirectRuleHistory sn = redirectRuleHistory state)
    /\ (exists rules,
          requestsOf (eventsSince (cycles config n w) (cycles config (S n) w))
          = probeRequest config :: toggleCall config (negb healthy) rules)
    /\ exists s', storage (cycles config (S n) w) = Some s'
         /\ redirectRuleEnabled s' = negb healthy
         /\ failureCount s' = 0 /\ recoveryCount s' = 0
         /\ hd_error (historySummary s')
            = Some (if healthy
                    then (disabled_event, 0, streakThreshold healthy config)
                    else (enabled_event, streakThreshold healthy config, 0)).
Proof.
  intros config healthy n w state Hs Hi He Ht Hp Hc.
  assert (Hb : streak healthy state + Z.of_nat n < streakThreshold healthy config)
    by (clear - Ht; lia).
  destruct (quiet_streak config healthy n w state Hs Hi He Hp Hb)
    as (sn & events & Sn & In_ & En & Kn & Hn & Nn & Tn & Rn & Ln).
  set (wn := cycles config n w) in *.
  assert (Hq : streak healthy sn + 1 >= streakThreshold healthy config) by lia.
  assert (U : isHealthy (probeResult config wn) = healthy).
  { unfold probeResult. rewrite Nn. apply Hp. }
  assert (Cn : ruleControllerSucceeds config wn).
  { unfold ruleControllerSucceeds. rewrite Nn. exact Hc. }
  destruct (cycle_toggle config healthy wn sn Sn (proj1 In_)
              (idle_not_suppressed wn sn In_) U Hq En Cn)
    as (rules & evs & now & s' & S' & N' & T' & R' & L' & E').
  change (cycles config (S n) w) with (handleScheduled (Ok config) wn).
  split; [rewrite (eventsSince_app w wn events Tn); exact Rn|].
  split.
  { rewrite (eventsSince_app w (handleScheduled (Ok config) wn) (events ++ evs)).
    - rewrite sleepsOf_app, Ln, L'. reflexivity.
    - rewrite T', Tn, app_assoc. reflexivity. }
  split; [exists sn; repeat split; auto; lia|].
  split; [exists rules; rewrite (eventsSince_app _ _ evs T'); exact R'|].
  exists s'. split; [exact S'|].
  destruct (stateCounted_streak config wn sn healthy U) as [K1 K0].
  rewrite E'. cbn [redirectRuleEnabled failureCount recoveryCount MonitorState.resetCounters
                   set_failureCount set_recoveryCount set_healthChecksTotal set_successesTotal
                   set_failuresTotal set_redirectRuleChangesTotal set_apiErrorsTotal].
  split; [apply updateRedirectRuleState_enabled|].
  split; [reflexivity|]. split; [reflexivity|].
  unfold historySummary.
  replace (redirectRuleHistory (MonitorState.resetCounters
             (MonitorState.updateRedirectRuleState (negb healthy)
                (if healthy then recoveryReason config else failureReason config)
                now (stateCounted config wn sn))))
    with (redirectRuleHistory
            (MonitorState.updateRedirectRuleState (negb healthy)
               (if healthy then recoveryReason config else failureReason config)
               now (stateCounted config wn sn))) by reflexivity.
  rewrite updateRedirectRuleState_history. cbn [firstn map hd_error historyEntry].
  unfold streak, streakThreshold in *.
  destruct healthy; cbn [negb] in *; cbn; rewrite K1, K0; repeat f_equal; lia.
Qed.

(** A run of the rule controller while the rules API cannot be reached:
    three GETs, the two waits between them, and [false]. *)
Lemma updateRedirectRule_down config enabled w :
  ruleControllerDown config w ->
  exists events,
    CloudflareAPIClient.updateRedirectRule (apiClient config) (redirectRuleId config)
      enabled w
    = (Ok false,
       mkWorld (storage w) (clock w) (ticks w) (net w) (S (S (S (sent w))))
         (trace w ++ events))
    /\ requestsOf events
       = [ CloudflareAPIClient.getRuleset (apiClient config) (redirectRuleId config);
           CloudflareAPIClient.getRuleset (apiClient config) (redirectRuleId config);
           CloudflareAPIClient.getRuleset (apiClient config) (redirectRuleId config) ]
    /\ sleepsOf events = [1000; 2000].
Proof.
  intros H.
  destruct (H (sent w)) as (e1 & N1 & A1).
  destruct (H (S (sent w))) as (e2 & N2 & A2).
  destruct (H (S (S (sent w)))) as (e3 & N3 & A3).
  set (get := CloudflareAPIClient.getRuleset (apiClient config) (redirectRuleId config)) in *.
  exists [EvFetch get (Http.Rejected e1); EvSleep 1000;
          EvFetch get (Http.Rejected e2); EvSleep 2000;
          EvFetch get (Http.Rejected e3)].
  split; [|split; reflexivity].
  rewrite updateRedirectRule_eq.
  rewrite tryUpdate_eq. cbv zeta. unfold fetch, sleep. fold get.
  cbn [fst snd storage clock ticks net sent trace]. rewrite N1, A1.
  rewrite tryUpdate_eq. cbv zeta. unfold fetch, sleep. fold get.
  cbn [fst snd storage clock ticks net sent trace]. rewrite N2, A2.
  rewrite tryUpdate_eq. cbv zeta. unfold fetch, sleep. fold get.
  cbn [fst snd storage clock ticks net sent trace]. rewrite N3, A3.
  rewrite <- !app_assoc. reflexivity.
Qed.

Lemma cycle_failed_toggle config healthy w state :
  storage w = Some state ->
  apiCallsDisabled state = false ->
  maintenanceModeActive (stateRead w state) (nowRead w) = false ->
  isHealthy (probeResult config w) = healthy ->
  streak healthy state + 1 >= streakThreshold healthy config ->
  redirectRuleEnabled state = healthy ->
  ruleControllerDown config w ->
  exists events,
    storage (handleScheduled (Ok config) w)
      = Some (MonitorState.incrementApiErrors (stateCounted config w state))
    /\ net (handleScheduled (Ok config) w) = net w
    /\ trace (handleScheduled (Ok config) w) = trace w ++ events
    /\ requestsOf events = failedCycle config
    /\ sleepsOf events = [1000; 2000].
Proof.
  intros Hs Hd Hm Hh Hq He Hdown.
  set (w3 := worldCounted config w state).
  destruct (updateRedirectRule_down config (negb healthy) w3 Hdown) as (events & U & R & L).
  rewrite (cycle_cross config w state Hs Hd Hm)
    by (rewrite Hh; unfold streak, streakThreshold in Hq; destruct healthy; split; auto; lia).
  rewrite Hh. fold w3.
  rewrite (changeRedirectRule_eq config (negb healthy) _ w3
             (stateCounted config w state) _ _ eq_refl U).
  exists (EvFetch (probeRequest config) (probeResult config w) :: events).
  cbn [snd storage net trace store set_storage w3 worldCounted].
  split; [reflexivity|]. split; [reflexivity|].
  split; [rewrite <- app_assoc; reflexivity|].
  split; [cbn [requestsOf flat_map app]; fold (requestsOf events); rewrite R; reflexivity|].
  cbn [sleepsOf flat_map app]. fold (sleepsOf events). exact L.
Qed.

(** X9. While the rules API cannot be reached, every cycle whose probe
    is at or past the threshold probes, makes three attempts with waits
    of 1000 and 2000 ms and counts one API error; the rule's recorded
    state and the history stay as they are, the streak keeps growing and
    the API calls are not latched off, so that the next cycle tries
    again. *)
Theorem unreachable_api_is_retried_every_cycle :
  forall config healthy n w state,
    storage w = Some state ->
    idle state ->
    redirectRuleEnabled state = healthy ->
    streak healthy state + 1 >= streakThreshold healthy config ->
    allProbes config w healthy ->
    ruleControllerDown config w ->
    exists sn,
      storage (cycles config n w) = Some sn
      /\ requestsOf (eventsSince w (cycles config n w))
         = List.concat (repeat (failedCycle config) n)
      /\ sleepsOf (eventsSince w (cycles config n w))
         = List.concat (repeat [1000; 2000] n)
      /\ apiErrorsTotal sn = apiErrorsTotal state + Z.of_nat n
      /\ streak healthy sn = streak healthy state + Z.of_nat n
      /\ redirectRuleEnabled sn = healthy
      /\ redirectRuleHistory sn = redirectRuleHistory state
      /\ apiCallsDisabled sn = false.
Proof.
  intros config healthy n w state Hs Hi He Hq Hp Hdown.
  assert (G : exists sn events,
             storage (cycles config n w) = Some sn
             /\ idle sn
             /\ net (cycles config n w) = net w
             /\ trace (cycles config n w) = trace w ++ events
             /\ requestsOf events = List.concat (repeat (failedCycle config) n)
             /\ sleepsOf events = List.concat (repeat [1000; 2000] n)
             /\ apiErrorsTotal sn = apiErrorsTotal state + Z.of_nat n
             /\ streak healthy sn = streak healthy state + Z.of_nat n
             /\ redirectRuleEnabled sn = healthy
             /\ redirectRuleHistory sn = redirectRuleHistory state).
  { induction n as [|n IH].
    - exists state, []. cbn. rewrite app_nil_r, !Z.add_0_r. repeat split; auto; apply Hi.
    - destruct IH as (sn & events & Sn & In_ & Nn & Tn & Rn & Ln & An & Kn & En & Hn).
      change (cycles config (S n) w) with (handleScheduled (Ok config) (cycles config n w)).
      set (wn := cycles config n w) in *.
      assert (U : isHealthy (probeResult config wn) = healthy).
      { unfold probeResult. rewrite Nn. apply Hp. }
      assert (Dn : ruleControllerDown config wn).
      { unfold ruleControllerDown. rewrite Nn. exact Hdown. }
      assert (Qn : streak healthy sn + 1 >= streakThreshold healthy config) by lia.
      destruct (cycle_failed_toggle config healthy wn sn Sn (proj1 In_)
                  (idle_not_suppressed wn sn In_) U Qn En Dn)
        as (evs & S' & N' & T' & R' & L').
      pose proof (stateCounted_fields config wn sn) as (_ & E & _ & _ & H & _ & A & _).
      destruct (stateCounted_streak config wn sn healthy U) as [K _].
      pose proof (stateCounted_idle config wn sn In_) as (I1 & I2 & I3).
      exists (MonitorState.incrementApiErrors (stateCounted config wn sn)), (events ++ evs).
      split; [exact S'|].
      split; [repeat split; assumption|].
      split; [congruence|].
      split; [rewrite T', Tn, app_assoc; reflexivity|].
      split; [rewrite requestsOf_app, Rn, R'; cbn [repeat];
              rewrite repeat_cons, concat_app; reflexivity|].
      split; [rewrite sleepsOf_app, Ln, L'; cbn [repeat];
              rewrite (repeat_cons n), concat_app; reflexivity|].
      split; [cbn [apiErrorsTotal MonitorState.incrementApiErrors set_apiErrorsTotal];
              rewrite A, An; lia|].
      split; [change (streak healthy (MonitorState.incrementApiErrors
                                        (stateCounted config wn sn)))
                with (streak healthy (stateCounted config wn sn));
              rewrite K, Kn; lia|].
      split; [change (redirectRuleEnabled (stateCounted config wn sn) = healthy);
              congruence|].
      change (redirectRuleHistory (stateCounted config wn sn) = redirectRuleHistory state).
      congruence. }
  destruct G as (sn & events & Sn & In_ & Nn & Tn & Rn & Ln & An & Kn & En & Hn).
  exists sn. rewrite (eventsSince_app w _ events Tn).
  repeat split; auto. apply In_.
Qed.

(** ** The work of one cycle *)

Lemma tryUpdate_sent this ruleId enabled w r w' :
  CloudflareAPIClient.tryUpdate this ruleId enabled w = (r, w') ->
  (sent w' <= 2 + sent w)%nat.
Proof.
  rewrite tryUpdate_eq. cbv zeta. unfold fetch.
  cbn [fst snd storage clock ticks net sent trace].
  repeat match goal with
         | |- context [match ?x with _ => _ end] => destruct x
         end;
    intros E; injection E as <- <-; cbn [sent]; lia.
Qed.

Lemma tryUpdate_bounded this ruleId enabled w r w' :
  CloudflareAPIClient.tryUpdate this ruleId enabled w = (r, w') ->
  exists events,
    extends w w' events
    /\ sleepsOf events = []
    /\ (List.length (requestsOf events) <= 2)%nat.
Proof.
  intros T. pose proof (tryUpdate_sent _ _ _ _ _ _ T) as B.
  destruct (tryUpdate_spec _ _ _ _ _ _ T) as (events & X & L & _).
  exists events. split; [exact X|]. split; [exact L|].
  destruct X as (_ & _ & _ & _ & Hsent & _). lia.
Qed.

(** A run of the rule controller sends at most six requests and waits
    at most 3000 ms in all. *)
Lemma updateRedirectRule_bounded this ruleId enabled w r w' :
  CloudflareAPIClient.updateRedirectRule this ruleId enabled w = (r, w') ->
  exists events,
    extends w w' events
    /\ (List.length (requestsOf events) <= 6)%nat
    /\ 0 <= sumZ (sleepsOf events) <= 3000.
Proof.
  intros U. rewrite updateRedirectRule_eq in U.
  destruct (CloudflareAPIClient.tryUpdate this ruleId enabled w) as [r1 w1] eqn:T1.
  destruct (tryUpdate_bounded _ _ _ _ _ _ T1) as (ev1 & X1 & L1 & B1).
  assert (done1 : exists events, extends w w1 events
            /\ (List.length (requestsOf events) <= 6)%nat
            /\ 0 <= sumZ (sleepsOf events) <= 3000).
  { exists ev1. split; [exact X1|]. rewrite L1. cbn. lia. }
  destruct r1 as [b1|e1]; [injection U as <- <-; exact done1|].
  destruct (CloudflareAPIClient.isAuthenticationFailed e1);
    [injection U as <- <-; exact done1|].
  clear done1.
  destruct (CloudflareAPIClient.tryUpdate this ruleId enabled (sleep 1000 w1))
    as [r2 w2] eqn:T2.
  destruct (tryUpdate_bounded _ _ _ _ _ _ T2) as (ev2 & X2 & L2 & B2).
  pose proof (extends_trans _ _ _ _ _ X1
                (extends_trans _ _ _ _ _ (extends_sleep 1000 w1) X2)) as X12.
  assert (done2 : exists events, extends w w2 events
            /\ (List.length (requestsOf events) <= 6)%nat
            /\ 0 <= sumZ (sleepsOf events) <= 3000).
  { exists (ev1 ++ [EvSleep 1000] ++ ev2). split; [exact X12|].
    rewrite !requestsOf_app, !sleepsOf_app, !length_app, L1, L2. cbn. lia. }
  destruct r2 as [b2|e2]; [injection U as <- <-; exact done2|].
  destruct (CloudflareAPIClient.isAuthenticationFailed e2);
    [injection U as <- <-; exact done2|].
  clear done2.
  destruct (CloudflareAPIClient.tryUpdate this ruleId enabled (sleep 2000 w2))
    as [r3 w3] eqn:T3.
  destruct (tryUpdate_bounded _ _ _ _ _ _ T3) as (ev3 & X3 & L3 & B3).
  pose proof (extends_trans _ _ _ _ _ X12
                (extends_trans _ _ _ _ _ (extends_sleep 2000 w2) X3)) as X123.
  assert (done3 : exists events, extends w w3 events
            /\ (List.length (requestsOf events) <= 6)%nat
            /\ 0 <= sumZ (sleepsOf events) <= 3000).
  { eexists. split; [exact X123|].
    rewrite !requestsOf_app, !sleepsOf_app, !length_app, L1, L2, L3. cbn. lia. }
  destruct r3 as [b3|e3]; [injection U as <- <-; exact done3|].
  destruct (CloudflareAPIClient.isAuthenticationFailed e3);
    injection U as <- <-; exact done3.
Qed.

(** What the decision engine's call of the rule controller adds to the
    trace. *)
Lemma changeRedirectRule_work config enabled reason w state :
  storage w = Some state ->
  exists events,
    trace (snd (changeRedirectRule config enabled reason w)) = trace w ++ events
    /\ (List.length (requestsOf events) <= 6)%nat
    /\ 0 <= sumZ (sleepsOf events) <= 3000
    /\ (forall req res, In (EvFetch req res) events -> Http.method req = Http.PUT ->
        exists rules,
          req = CloudflareAPIClient.putRuleset (apiClient config) (redirectRuleId config)
                  (CloudflareAPIClient.updatedRules enabled rules)).
Proof.
  intros Hs.
  destruct (CloudflareAPIClient.updateRedirectRule (apiClient config)
              (redirectRuleId config) enabled w) as [r w1] eqn:U.
  rewrite (changeRedirectRule_eq config enabled reason w state r w1 Hs U).
  destruct (updateRedirectRule_bounded _ _ _ _ _ _ U) as (events & X & B & L).
  destruct (retryLoop_spec _ _ _ _ _ _ _ U) as (events' & X' & _ & _ & P).
  rewrite <- (extends_events _ _ _ X), (extends_events _ _ _ X') in *.
  exists events'.
  split.
  { destruct X' as (_ & _ & _ & _ & _ & T).
    destruct r as [[|]|e]; [| |destruct (CloudflareAPIClient.isAuthenticationFailed e)];
      cbn [snd trace store set_storage tick newDate]; exact T. }
  split; [exact B|]. split; [exact L|].
  intros req res I Mp.
  destruct (P req res I Mp) as (_ & _ & _ & rs & _ & _ & _ & Q).
  exists rs. exact Q.
Qed.

(** X10. Whatever the network answers, one cycle sends at most seven
    requests (the probe and at most three attempts of a GET and a PUT)
    and waits at most 3000 ms; every PUT it sends sets the rule to the
    opposite of the probe's outcome, enabled when the site is unhealthy
    and disabled when it is healthy; and a cycle that finds the API calls
    latched off performs no request at all. *)
Theorem cycle_work_is_bounded :
  forall config w state,
    storage w = Some state ->
    let events := eventsSince w (handleScheduled (Ok config) w) in
    (List.length (requestsOf events) <= 7)%nat
    /\ 0 <= sumZ (sleepsOf events) <= 3000
    /\ (forall req res, In (EvFetch req res) events -> Http.method req = Http.PUT ->
        exists rules,
          req = CloudflareAPIClient.putRuleset (apiClient config) (redirectRuleId config)
                  (CloudflareAPIClient.updatedRules
                     (negb (isHealthy (probeResult config w))) rules))
    /\ (apiCallsDisabled state = true -> events = []).
Proof.
  intros config w state Hs events.
  assert (Latched : events = [] ->
    (List.length (requestsOf events) <= 7)%nat
    /\ 0 <= sumZ (sleepsOf events) <= 3000
    /\ (forall req res, In (EvFetch req res) events -> Http.method req = Http.PUT ->
        exists rules,
          req = CloudflareAPIClient.putRuleset (apiClient config) (redirectRuleId config)
                  (CloudflareAPIClient.updatedRules
                     (negb (isHealthy (probeResult config w))) rules))).
  { intros ->. cbn. split; [lia|]. split; [lia|]. intros req res []. }
  assert (Probe : events = [EvFetch (probeRequest config) (probeResult config w)] ->
    (List.length (requestsOf events) <= 7)%nat
    /\ 0 <= sumZ (sleepsOf events) <= 3000
    /\ (forall req res, In (EvFetch req res) events -> Http.method req = Http.PUT ->
        exists rules,
          req = CloudflareAPIClient.putRuleset (apiClient config) (redirectRuleId config)
                  (CloudflareAPIClient.updatedRules
                     (negb (isHealthy (probeResult config w))) rules))).
  { intros ->. cbn. split; [lia|]. split; [lia|].
    intros req res [E|[]] Mp. injection E as <- _. discriminate Mp. }
  assert (Change : forall reason,
    handleScheduled (Ok config) w
    = snd (changeRedirectRule config (negb (isHealthy (probeResult config w))) reason
             (worldCounted config w state)) ->
    (List.length (requestsOf events) <= 7)%nat
    /\ 0 <= sumZ (sleepsOf events) <= 3000
    /\ (forall req res, In (EvFetch req res) events -> Http.method req = Http.PUT ->
        exists rules,
          req = CloudflareAPIClient.putRuleset (apiClient config) (redirectRuleId config)
                  (CloudflareAPIClient.updatedRules
                     (negb (isHealthy (probeResult config w))) rules))).
  { intros reason E.
    destruct (changeRedirectRule_work config (negb (isHealthy (probeResult config w)))
                reason (worldCounted config w state) (stateCounted config w state) eq_refl)
      as (evs & T & B & L & P).
    assert (Ev : events = EvFetch (probeRequest config) (probeResult config w) :: evs).
    { unfold events. rewrite E. apply eventsSince_app. rewrite T.
      cbn [trace worldCounted]. rewrite <- app_assoc. reflexivity. }
    rewrite Ev. cbn [requestsOf sleepsOf flat_map app List.length].
    fold (requestsOf evs). fold (sleepsOf evs).
    split; [lia|]. split; [exact L|].
    intros req res [I|I] Mp; [injection I as <- _; discriminate Mp|].
    exact (P req res I Mp). }
  pose proof (cycle_eq config w state Hs) as C. cbv zeta in C.
  destruct (apiCallsDisabled state) eqn:D.
  - assert (E : events = []).
    { unfold events. rewrite C. apply eventsSince_app.
      cbn [trace worldLatched]. rewrite app_nil_r. reflexivity. }
    destruct (Latched E) as (A1 & A2 & A3). auto.
  - assert (Quiet : handleScheduled (Ok config) w = worldCounted config w state ->
              events = [EvFetch (probeRequest config) (probeResult config w)]).
    { intros E. unfold events. rewrite E. apply eventsSince_app. reflexivity. }
    assert (G : (List.length (requestsOf events) <= 7)%nat
                /\ 0 <= sumZ (sleepsOf events) <= 3000
                /\ (forall req res, In (EvFetch req res) events ->
                    Http.method req = Http.PUT ->
                    exists rules,
                      req = CloudflareAPIClient.putRuleset (apiClient config)
                              (redirectRuleId config)
                              (CloudflareAPIClient.updatedRules
                                 (negb (isHealthy (probeResult config w))) rules))).
    { destruct (isHealthy (probeResult config w)) eqn:H;
        repeat match type of C with
               | context [if ?b then _ else _] => destruct b
               end;
        first [ apply Probe, Quiet, C | apply (Change _ C) ]. }
    destruct G as (A1 & A2 & A3). split; [exact A1|]. split; [exact A2|].
    split; [exact A3|]. discriminate.
Qed.

(** X11. Once the API calls are latched off, the worker is blind for
    good: however many cycles run, none sends a probe or any other
    request, and the counters, the cumulative totals, the rule's recorded
    state and the history stay frozen. *)
Theorem latched_worker_stays_silent :
  forall config n w state,
    storage w = Some state ->
    apiCallsDisabled state = true ->
    exists sn,
      storage (cycles config n w) = Some sn
      /\ trace (cycles config n w) = trace w
      /\ sent (cycles config n w) = sent w
      /\ apiCallsDisabled sn = true
      /\ failureCount sn = failureCount state
      /\ recoveryCount sn = recoveryCount state
      /\ totals sn = totals state
      /\ redirectRuleEnabled sn = redirectRuleEnabled state
      /\ redirectRuleHistory sn = redirectRuleHistory state.
Proof.
  intros config n w state Hs Hd.
  induction n as [|n IH].
  - exists state. repeat split; auto.
  - destruct IH as (sn & Sn & Tn & Nn & Dn & Fn & Rn & Cn & En & Hn).
    change (cycles config (S n) w) with (handleScheduled (Ok config) (cycles config n w)).
    rewrite (latched_cycle_aborts config _ sn Sn Dn).
    exists (stateRead (cycles config n w) sn).
    cbn [storage trace sent worldLatched].
    split; [reflexivity|]. split; [exact Tn|]. split; [exact Nn|].
    split; [exact Dn|]. split; [exact Fn|]. split; [exact Rn|].
    split; [exact Cn|]. split; [exact En|]. exact Hn.
Qed.

(** ** What every cycle does *)

Lemma housekeeping_updateRedirectRuleState enabled reason now state :
  housekeeping (MonitorState.updateRedirectRuleState enabled reason now state)
  = housekeeping state.
Proof.
  unfold MonitorState.updateRedirectRuleState.
  match goal with |- context [if ?b then _ else _] => destruct b end; reflexivity.
Qed.

Lemma housekeeping_changeRedirectRule config enabled reason w state :
  storage w = Some state ->
  exists s',
    storage (snd (changeRedirectRule config enabled reason w)) = Some s'
    /\ housekeeping s' = housekeeping state.
Proof.
  intros Hs.
  destruct (CloudflareAPIClient.updateRedirectRule (apiClient config)
              (redirectRuleId config) enabled w) as [r w1] eqn:U.
  rewrite (changeRedirectRule_eq config enabled reason w state r w1 Hs U).
  destruct r as [[|]|e]; [| |destruct (CloudflareAPIClient.isAuthenticationFailed e)];
    cbn [snd storage store set_storage]; eexists; (split; [reflexivity|]);
    try reflexivity.
  change (housekeeping (MonitorState.updateRedirectRuleState enabled reason
                          (clock w1 (ticks w1)) state) = housekeeping state).
  apply housekeeping_updateRedirectRuleState.
Qed.

(** X23. Every cycle on a stored state, also one that finds the API
    calls latched off or runs under maintenance, first stamps the cron
    time with its first clock reading and then drops the windows whose
    end is not after its second clock reading; it keeps the other
    windows in their order, the maintenance toggle and the worker start
    time. *)
Theorem every_cycle_stamps_and_sweeps :
  forall config w state,
    storage w = Some state ->
    exists s',
      storage (handleScheduled (Ok config) w) = Some s'
      /\ lastCronExecution s' = Some (clock w (ticks w))
      /\ scheduledMaintenanceWindows s'
         = filter (fun window => dateAfter (MaintenanceWindow.endTime window)
                                   (clock w (S (ticks w))))
             (scheduledMaintenanceWindows state)
      /\ maintenanceMode s' = maintenanceMode state
      /\ workerStartTime s' = workerStartTime state.
Proof.
  intros config w state Hs.
  assert (G : exists s', storage (handleScheduled (Ok config) w) = Some s'
                         /\ housekeeping s' = housekeeping (stateRead w state)).
  { assert (Counted : housekeeping (stateCounted config w state)
                      = housekeeping (stateRead w state)).
    { unfold stateCounted. destruct (isHealthy (probeResult config w)); reflexivity. }
    rewrite (cycle_eq config w state Hs). cbv zeta.
    repeat match goal with
           | |- context [if ?b then _ else _] => destruct b
           end;
      first
        [ eexists; split; [reflexivity|]; first [reflexivity|exact Counted]
        | match goal with
          | |- context [changeRedirectRule config ?e ?r] =>
              destruct (housekeeping_changeRedirectRule config e r
                          (worldCounted config w state) (stateCounted config w state)
                          eq_refl) as (s' & S' & H');
              exists s'; split; [exact S'|]; rewrite H'; exact Counted
          end ]. }
  destruct G as (s' & S' & H'). exists s'. split; [exact S'|].
  unfold housekeeping in H'. injection H' as -> -> -> ->.
  repeat split.
Qed.

(** X24. Only status 200 counts as healthy: a probe that is rejected or
    answered with any other status, 204 or another 2xx included, counts
    as a failure.  With the rule already enabled such a cycle sends the
    probe and nothing else, adds one to the failure counter and to the
    total of failures, and zeroes the recovery counter. *)
Theorem only_status_200_is_healthy :
  forall config w state,
    storage w = Some state ->
    apiCallsDisabled state = false ->
    redirectRuleEnabled state = true ->
    (forall response, probeResult config w = Http.Resolved response ->
                      Http.status response <> 200) ->
    exists s',
      storage (handleScheduled (Ok config) w) = Some s'
      /\ failureCount s' = failureCount state + 1
      /\ recoveryCount s' = 0
      /\ failuresTotal s' = failuresTotal state + 1
      /\ successesTotal s' = successesTotal state
      /\ healthChecksTotal s' = healthChecksTotal state + 1
      /\ requestsOf (eventsSince w (handleScheduled (Ok config) w)) = [probeRequest config].
Proof.
  intros config w state Hs Hd He Hp.
  assert (U : isHealthy (probeResult config w) = false).
  { unfold isHealthy. destruct (probeResult config w) as [e|response] eqn:P; [reflexivity|].
    apply Z.eqb_neq. apply Hp. reflexivity. }
  rewrite (cycle_quiet config w state Hs Hd) by (rewrite U; right; left; exact He).
  exists (stateCounted config w state). split; [reflexivity|].
  rewrite (stateCounted_unhealthy config w state U).
  split; [reflexivity|]. split; [reflexivity|]. split; [reflexivity|].
  split; [reflexivity|]. split; [reflexivity|].
  rewrite (eventsSince_app w _ [EvFetch (probeRequest config) (probeResult config w)]);
    reflexivity.
Qed.

(** X25. Fail closed, end to end: when the rules API answers 401 or
    403, the cycle that crosses the threshold makes one attempt of one
    GET, with no retry and no wait, sets the latch and counts no API
    error; from then on no cycle sends any request, however many run. *)
Theorem authentication_failure_silences_worker :
  forall config healthy n w state,
    storage w = Some state ->
    apiCallsDisabled state = false ->
    maintenanceModeActive (stateRead w state) (nowRead w) = false ->
    isHealthy (probeResult config w) = healthy ->
    streak healthy state + 1 >= streakThreshold healthy config ->
    redirectRuleEnabled state = healthy ->
    ruleControllerDenied config w ->
    let w1 := handleScheduled (Ok config) w in
    requestsOf (eventsSince w w1)
    = [probeRequest config;
       CloudflareAPIClient.getRuleset (apiClient config) (redirectRuleId config)]
    /\ sleepsOf (eventsSince w w1) = []
    /\ (exists s1, storage w1 = Some s1
          /\ apiCallsDisabled s1 = true
          /\ apiErrorsTotal s1 = apiErrorsTotal state
          /\ redirectRuleEnabled s1 = redirectRuleEnabled state)
    /\ trace (cycles config n w1) = trace w1.
Proof.
  intros config healthy n w state Hs Hd Hm Hh Hq He Hdenied w1.
  set (w3 := worldCounted config w state).
  set (get := CloudflareAPIClient.getRuleset (apiClient config) (redirectRuleId config)).
  destruct (Hdenied (S (sent w))) as (response & N & O & A). fold get in N.
  assert (U : CloudflareAPIClient.updateRedirectRule (apiClient config)
                (redirectRuleId config) (negb healthy) w3
              = (Throw (mkError "AUTHENTICATION_FAILED"),
                 mkWorld (storage w3) (clock w3) (ticks w3) (net w3) (S (sent w3))
                   (trace w3 ++ [EvFetch get (Http.Resolved response)]))).
  { assert (N' : net w3 (sent w3) get = Http.Resolved response) by exact N.
    rewrite updateRedirectRule_eq, tryUpdate_eq. cbv zeta. unfold fetch. fold get.
    cbn [fst snd]. rewrite N', O, A. reflexivity. }
  assert (E : w1 = store (MonitorState.disableApiCalls (stateCounted config w state))
                     (mkWorld (storage w3) (clock w3) (ticks w3) (net w3) (S (sent w3))
                        (trace w3 ++ [EvFetch get (Http.Resolved response)]))).
  { unfold w1.
    rewrite (cycle_cross config w state Hs Hd Hm)
      by (rewrite Hh; unfold streak, streakThreshold in Hq; destruct healthy;
          split; auto; lia).
    rewrite Hh. fold w3.
    rewrite (changeRedirectRule_eq config (negb healthy) _ w3
               (stateCounted config w state) _ _ eq_refl U).
    reflexivity. }
  assert (T : eventsSince w w1
              = [EvFetch (probeRequest config) (probeResult config w);
                 EvFetch get (Http.Resolved response)]).
  { apply eventsSince_app. rewrite E.
    cbn [trace store set_storage w3 worldCounted]. rewrite <- app_assoc. reflexivity. }
  rewrite T.
  split; [reflexivity|]. split; [reflexivity|].
  split.
  { exists (MonitorState.disableApiCalls (stateCounted config w state)).
    rewrite E. split; [reflexivity|]. split; [reflexivity|].
    pose proof (stateCounted_fields config w state) as (_ & R & _ & _ & _ & _ & X & _).
    split; [exact X|exact R]. }
  assert (G : exists sn, storage (cycles config n w1) = Some sn
                         /\ apiCallsDisabled sn = true
                         /\ trace (cycles config n w1) = trace w1).
  { induction n as [|n IH].
    - exists (MonitorState.disableApiCalls (stateCounted config w state)).
      rewrite E. repeat split.
    - destruct IH as (sn & Sn & Dn & Tn).
      change (cycles config (S n) w1)
        with (handleScheduled (Ok config) (cycles config n w1)).
      rewrite (latched_cycle_aborts config _ sn Sn Dn).
      exists (stateRead (cycles config n w1) sn).
      split; [reflexivity|]. split; [exact Dn|exact Tn]. }
  destruct G as (sn & _ & _ & Tn). exact Tn.
Qed.

(** * The environment check *)

Section ValidationFacts.
Import Validation.
Variable parseInt : string -> option Z.
Variable protocolOf : string -> option string.

Lemma falsy_text value : falsy value = false -> text value <> "" /\ value = Some (text value).
Proof. destruct value as [[|c rest]|]; cbn; intros H; try discriminate. split; congruence. Qed.

Lemma required_nil name value : required name value = [] -> falsy value = false.
Proof. unfold required. destruct (falsy value); [discriminate|reflexivity]. Qed.

Lemma positiveInteger_nil name value :
  positiveInteger parseInt name value = [] ->
  exists n, parse parseInt value = Some n /\ 0 < n.
Proof.
  unfold positiveInteger. cbv zeta.
  destruct (falsy value); [discriminate|].
  destruct (parse parseInt value) as [n|]; [|discriminate]. cbn.
  destruct (n <=? 0) eqn:L; [discriminate|].
  intros _. exists n. split; [reflexivity|]. apply Z.leb_gt in L. exact L.
Qed.

Lemma validateEnvironment_ok env config :
  validateEnvironment parseInt protocolOf env = Ok config ->
  errors parseInt protocolOf env = []
  /\ config = {| monitorUrl := text (MONITOR_URL env);
                 failureCountThreshold := number (parse parseInt (FAILURE_COUNT_THRESHOLD env));
                 recoveryCountThreshold := number (parse parseInt (RECOVERY_COUNT_THRESHOLD env));
                 timeoutSeconds := number (parse parseInt (TIMEOUT_SECONDS env));
                 redirectRuleId := text (REDIRECT_RULE_ID env);
                 accountId := text (ACCOUNT_ID env);
                 zoneId := text (ZONE_ID env);
                 cloudflareApiToken := text (CLOUDFLARE_API_TOKEN env);
                 logLevel := toLowerCase (orElse (LOG_LEVEL env) "debug");
                 apiToken := text (API_TOKEN env) |}.
Proof.
  unfold validateEnvironment. cbv zeta.
  destruct (errors parseInt protocolOf env) as [|e rest]; cbn; [|discriminate].
  intros E. injection E as <-. split; reflexivity.
Qed.

(** X12. A configuration that [validateEnvironment] returns has
    positive thresholds, a timeout between 1 and 30 seconds, an HTTPS
    target, non-empty identifiers and tokens taken from the environment
    as they are, and one of the four log levels, in lower case. *)
Theorem validated_config_is_sound :
  forall env config,
    validateEnvironment parseInt protocolOf env = Ok config ->
    0 < failureCountThreshold config
    /\ 0 < recoveryCountThreshold config
    /\ 1 <= timeoutSeconds config <= 30
    /\ protocolOf (monitorUrl config) = Some "https:"
    /\ (MONITOR_URL env = Some (monitorUrl config)
        /\ REDIRECT_RULE_ID env = Some (redirectRuleId config)
        /\ ACCOUNT_ID env = Some (accountId config)
        /\ ZONE_ID env = Some (zoneId config)
        /\ CLOUDFLARE_API_TOKEN env = Some (cloudflareApiToken config)
        /\ API_TOKEN env = Some (apiToken config))
    /\ (redirectRuleId config <> "" /\ accountId config <> "" /\ zoneId config <> ""
        /\ cloudflareApiToken config <> "" /\ apiToken config <> "")
    /\ In (logLevel config) ["debug"; "info"; "warn"; "error"].
Proof.
  intros env config V.
  destruct (validateEnvironment_ok env config V) as [E ->]. clear V.
  cbn [monitorUrl failureCountThreshold recoveryCountThreshold timeoutSeconds
       redirectRuleId accountId zoneId cloudflareApiToken logLevel apiToken].
  unfold errors in E.
  apply app_eq_nil in E; destruct E as [M E].
  apply app_eq_nil in E; destruct E as [F E].
  apply app_eq_nil in E; destruct E as [R E].
  apply app_eq_nil in E; destruct E as [T E].
  apply app_eq_nil in E; destruct E as [E1 E].
  apply app_eq_nil in E; destruct E as [E2 E].
  apply app_eq_nil in E; destruct E as [E3 E].
  apply app_eq_nil in E; destruct E as [E4 E].
  apply app_eq_nil in E; destruct E as [E5 L].
  destruct (positiveInteger_nil _ _ F) as (f & -> & Hf).
  destruct (positiveInteger_nil _ _ R) as (r & -> & Hr).
  apply required_nil, falsy_text in E1, E2, E3, E4, E5.
  cbn [number].
  split; [exact Hf|]. split; [exact Hr|].
  split.
  { cbv zeta in T.
    destruct (falsy (TIMEOUT_SECONDS env)); [discriminate|].
    destruct (parse parseInt (TIMEOUT_SECONDS env)) as [t|]; [|discriminate].
    cbn in T |- *.
    destruct (t <? 1) eqn:L1; [discriminate|].
    destruct (t >? 30) eqn:L2; [discriminate|].
    apply Z.ltb_ge in L1. rewrite Z.gtb_ltb in L2. apply Z.ltb_ge in L2. lia. }
  assert (U : falsy (MONITOR_URL env) = false
              /\ protocolOf (text (MONITOR_URL env)) = Some "https:").
  { destruct (falsy (MONITOR_URL env)); [discriminate|]. split; [reflexivity|].
    destruct (protocolOf (text (MONITOR_URL env))) as [p|]; [|discriminate].
    destruct (String.eqb p "https:") eqn:P; [|discriminate].
    apply String.eqb_eq in P. congruence. }
  destruct U as [U1 U2]. apply falsy_text in U1.
  split; [exact U2|].
  split; [repeat split; first [apply U1|apply E1|apply E2|apply E3|apply E4|apply E5]|].
  split; [repeat split; first [apply E1|apply E2|apply E3|apply E4|apply E5]|].
  destruct (includes validLogLevels (toLowerCase (orElse (LOG_LEVEL env) "debug"))) eqn:I;
    [|discriminate].
  unfold includes in I. apply existsb_exists in I. destruct I as (level & In_ & Eq).
  apply String.eqb_eq in Eq. rewrite Eq. exact In_.
Qed.

End ValidationFacts.

(** * The API in front of the store *)

Lemma prefix_substringFrom p s :
  String.prefix p s = true -> s = p +++ Api.substringFrom (String.length p) s.
Proof.
  revert s. induction p as [|a p IH]; intros s H; [reflexivity|].
  destruct s as [|b s]; [discriminate|]. cbn in H |- *.
  destruct (ascii_dec a b) as [->|]; [|discriminate].
  f_equal. apply IH. exact H.
Qed.

Lemma substringFrom_append p s : Api.substringFrom (String.length p) (p +++ s) = s.
Proof. induction p as [|a p IH]; [destruct s; reflexivity|exact IH]. Qed.

(** X14. The middleware lets a request through exactly when its path is
    one of the four open ones or its Authorization header is the word
    Bearer, one space and the configured API token; every other request
    is answered 401.  With no token configured nothing but the open paths
    passes. *)
Theorem bearer_token_gate :
  forall path authHeader API_TOKEN,
    (Api.authenticate path authHeader API_TOKEN = Api.Next
     <-> Api.exempt path = true
         \/ exists token, API_TOKEN = Some token
                          /\ authHeader = Some ("Bearer " +++ token))
    /\ (Api.authenticate path authHeader API_TOKEN <> Api.Next ->
        exists error, Api.authenticate path authHeader API_TOKEN
                      = Api.Unauthorized 401 error).
Proof.
  intros path authHeader API_TOKEN. unfold Api.authenticate.
  destruct (Api.exempt path); [split; [tauto|congruence]|].
  destruct authHeader as [header|];
    [|split; [split; [discriminate|intros [H|(t & _ & H)]; discriminate]|eauto]].
  destruct (String.eqb header "") eqn:E0.
  { apply String.eqb_eq in E0. subst header. cbn [orb].
    split; [split; [discriminate|intros [H|(t & _ & H)]; discriminate]|eauto]. }
  cbn [orb].
  destruct (String.prefix "Bearer " header) eqn:P; cbn [negb].
  - apply prefix_substringFrom in P. cbv zeta.
    change (String.length "Bearer ") with 7%nat in P.
    destruct API_TOKEN as [expected|].
    + destruct (String.eqb (Api.substringFrom 7 header) expected) eqn:T; cbn [negb].
      * apply String.eqb_eq in T. split; [|congruence].
        split; [|reflexivity]. intros _. right. exists expected.
        split; [reflexivity|]. rewrite <- T. f_equal. exact P.
      * apply String.eqb_neq in T. split; [|eauto].
        split; [discriminate|]. intros [H|(t & Et & Eh)]; [discriminate|].
        injection Et as <-. injection Eh as ->.
        exfalso. apply T.
        exact (substringFrom_append "Bearer " expected).
    + split; [|eauto]. split; [discriminate|].
      intros [H|(t & Et & _)]; discriminate.
  - split; [|eauto]. split; [discriminate|].
    intros [H|(t & _ & Eh)]; [discriminate|]. injection Eh as ->.
    pose proof (prefix_append "Bearer " t) as Q.
    cbn [String.append] in Q. congruence.
Qed.

(** GET /health on a stored state. *)
Lemma health_stored w state :
  storage w = Some state ->
  Api.health w
  = (Api.HealthResponse.mk 200
       match lastCronExecution state with
       | None => Api.degraded
       | Some stamp =>
           if negb ((clock w (ticks w) - stamp) / 1000 =? 0)
              && ((clock w (ticks w) - stamp) / 1000 >? 120)
           then Api.unhealthy else Api.healthy
       end
       true (lastCronExecution state)
       ((clock w (ticks w) - workerStartTime state) / 1000) None,
     tick w).
Proof.
  intros Hs. unfold Api.health. rewrite (call_getState w state Hs). reflexivity.
Qed.

(** X15. With a state stored, GET /health answers 200 and stores
    nothing; it reports degraded exactly when no cron cycle has run yet,
    unhealthy exactly when the last cycle started 121 seconds ago or
    earlier, and healthy otherwise; the uptime is the whole number of
    seconds since the worker start time. *)
Theorem health_follows_cron_age :
  forall w state,
    storage w = Some state ->
    let reply := fst (Api.health w) in
    let now := clock w (ticks w) in
    Api.HealthResponse.code reply = 200
    /\ Api.HealthResponse.durableObjectsAvailable reply = true
    /\ Api.HealthResponse.lastCronExecution reply = lastCronExecution state
    /\ (Api.HealthResponse.status reply = Api.degraded
        <-> lastCronExecution state = None)
    /\ (forall stamp, lastCronExecution state = Some stamp ->
        (Api.HealthResponse.status reply = Api.unhealthy <-> 121000 <= now - stamp)
        /\ (Api.HealthResponse.status reply = Api.healthy <-> now - stamp < 121000))
    /\ 1000 * Api.HealthResponse.uptimeSeconds reply
       <= now - workerStartTime state
       < 1000 * Api.HealthResponse.uptimeSeconds reply + 1000
    /\ snd (Api.health w) = tick w.
Proof.
  intros w state Hs reply now. unfold reply.
  rewrite (health_stored w state Hs).
  cbn [fst snd Api.HealthResponse.code Api.HealthResponse.durableObjectsAvailable
       Api.HealthResponse.lastCronExecution Api.HealthResponse.status
       Api.HealthResponse.uptimeSeconds].
  fold now.
  split; [reflexivity|]. split; [reflexivity|]. split; [reflexivity|].
  split.
  { destruct (lastCronExecution state) as [stamp|]; [|tauto].
    split; [|discriminate].
    destruct (negb ((now - stamp) / 1000 =? 0) && ((now - stamp) / 1000 >? 120));
      discriminate. }
  split.
  { intros stamp ->.
    pose proof (Z.div_mod (now - stamp) 1000 ltac:(lia)) as D.
    pose proof (Z.mod_pos_bound (now - stamp) 1000 ltac:(lia)) as B.
    destruct ((now - stamp) / 1000 =? 0) eqn:Z0; cbn [negb andb].
    - apply Z.eqb_eq in Z0. split; split; intros H; try discriminate; try reflexivity; lia.
    - destruct ((now - stamp) / 1000 >? 120) eqn:G; rewrite Z.gtb_ltb in G.
      + apply Z.ltb_lt in G. split; split; intros H; try discriminate; try reflexivity; lia.
      + apply Z.ltb_ge in G. split; split; intros H; try discriminate; try reflexivity; lia. }
  split; [|reflexivity].
  pose proof (Z.div_mod (now - workerStartTime state) 1000 ltac:(lia)) as D.
  pose proof (Z.mod_pos_bound (now - workerStartTime state) 1000 ltac:(lia)) as B.
  lia.
Qed.

(** X16. The health endpoint does not show the latch: after a cycle
    that found the API calls latched off, and so sent no probe, GET
    /health still reports healthy for the next 121 seconds. *)
Theorem latched_worker_reports_healthy :
  forall config w state,
    storage w = Some state ->
    apiCallsDisabled state = true ->
    clock w (S (S (ticks w))) - clock w (ticks w) < 121000 ->
    let w' := handleScheduled (Ok config) w in
    trace w' = trace w
    /\ Api.HealthResponse.code (fst (Api.health w')) = 200
    /\ Api.HealthResponse.status (fst (Api.health w')) = Api.healthy.
Proof.
  intros config w state Hs Hd Hc w'. unfold w'.
  rewrite (latched_cycle_aborts config w state Hs Hd).
  split; [reflexivity|].
  rewrite (health_stored (worldLatched w state) (stateRead w state) eq_refl).
  cbn [fst Api.HealthResponse.code Api.HealthResponse.status].
  split; [reflexivity|].
  change (lastCronExecution (stateRead w state)) with (Some (clock w (ticks w))).
  cbn [clock ticks worldLatched].
  set (age := (clock w (S (S (ticks w))) - clock w (ticks w)) / 1000).
  assert (A : age <= 120).
  { unfold age.
    pose proof (Z.div_mod (clock w (S (S (ticks w))) - clock w (ticks w)) 1000
                  ltac:(lia)) as D.
    pose proof (Z.mod_pos_bound (clock w (S (S (ticks w))) - clock w (ticks w)) 1000
                  ltac:(lia)) as B.
    lia. }
  replace (age >? 120) with false
    by (symmetry; rewrite Z.gtb_ltb; apply Z.ltb_ge; exact A).
  rewrite andb_false_r. reflexivity.
Qed.

(** X17. GET /maintenance-windows lists the stored windows in their
    order and changes nothing.  A window is flagged active exactly when
    both its times are valid dates with the start not after now and the
    end not before now, so that a window whose end precedes its start is
    never active; and some window is flagged active exactly when a cron
    cycle at the same instant would find itself in a maintenance
    window. *)
Theorem listed_windows_match_suppression :
  forall w state,
    storage w = Some state ->
    let now := clock w (ticks w) in
    exists listed,
      Api.maintenanceWindows w = (Api.Windows listed, tick w)
      /\ map fst listed = scheduledMaintenanceWindows state
      /\ (forall window active, In (window, active) listed ->
          (active = true <->
           exists s e, MaintenanceWindow.startTime window = Some s
                       /\ MaintenanceWindow.endTime window = Some e
                       /\ s <= now <= e))
      /\ existsb snd listed = isInMaintenanceWindow state now.
Proof.
  intros w state Hs now. unfold Api.maintenanceWindows.
  rewrite (call_getState w state Hs). cbn [newDate]. fold now.
  eexists. split; [reflexivity|].
  split; [rewrite map_map; cbn [fst]; apply map_id|].
  split.
  - intros window active I. apply in_map_iff in I.
    destruct I as (x & E & _). injection E as E1 E2. subst x active.
    unfold Api.windowIsActive, dateGe, dateLe.
    destruct (MaintenanceWindow.startTime window) as [s|];
      destruct (MaintenanceWindow.endTime window) as [e|];
      cbn [andb].
    + rewrite andb_true_iff, Z.geb_leb, !Z.leb_le.
      split; [intros [A B]; exists s, e; auto|].
      intros (s' & e' & Es & Ee & A & B). injection Es as <-. injection Ee as <-. auto.
    + rewrite andb_false_r. split; [discriminate|].
      intros (s' & e' & _ & Ee & _). discriminate.
    + split; [discriminate|]. intros (s' & e' & Es & _). discriminate.
    + split; [discriminate|]. intros (s' & e' & Es & _). discriminate.
  - unfold isInMaintenanceWindow.
    induction (scheduledMaintenanceWindows state) as [|x l IH]; [reflexivity|].
    cbn [map existsb snd]. rewrite IH. reflexivity.
Qed.

(** ** Reading the rule back *)

Lemma getRedirectRule_request this ruleId w :
  exists (info : option RedirectRuleInfo.t) (now : bool),
    getRedirectRule this ruleId w
    = (info,
       mkWorld (storage w) (clock w) (if now then S (ticks w) else ticks w) (net w)
         (S (sent w))
         (trace w ++ [EvFetch (CloudflareAPIClient.getRuleset this ruleId)
                        (net w (sent w) (CloudflareAPIClient.getRuleset this ruleId))])).
Proof.
  unfold getRedirectRule, fetch. cbn [fst snd].
  destruct (net w (sent w) (CloudflareAPIClient.getRuleset this ruleId)) as [e|response];
    [exists None, false; reflexivity|].
  destruct (Http.ok response); cbn [negb]; [|exists None, false; reflexivity].
  destruct (Http.rules response) as [[|rule rest]|];
    [exists None, false; reflexivity| |exists None, false; reflexivity].
  cbv zeta.
  destruct (getProp "last_updated" rule) as [value|].
  - destruct (truthy (Some value)).
    + eexists; exists false; reflexivity.
    + eexists; exists true; reflexivity.
  - eexists; exists true; reflexivity.
Qed.

(** X18. [getRedirectRule] sends one request, the GET of the ruleset
    that an update starts with, and never a PUT; it leaves the stored
    state and the network alone, reads the clock at most once, and it
    answers null when the request is rejected or the response is not ok
    or carries no rule. *)
Theorem get_redirect_rule_reads_only :
  forall this ruleId w,
    let info := fst (getRedirectRule this ruleId w) in
    let w' := snd (getRedirectRule this ruleId w) in
    storage w' = storage w
    /\ net w' = net w
    /\ eventsSince w w'
       = [EvFetch (CloudflareAPIClient.getRuleset this ruleId)
            (net w (sent w) (CloudflareAPIClient.getRuleset this ruleId))]
    /\ (ticks w <= ticks w' <= S (ticks w))%nat
    /\ (info <> None ->
        exists response rule rest,
          net w (sent w) (CloudflareAPIClient.getRuleset this ruleId)
            = Http.Resolved response
          /\ Http.ok response = true
          /\ Http.rules response = Some (rule :: rest)).
Proof.
  intros this ruleId w info w'.
  assert (Last : info <> None ->
            exists response rule rest,
              net w (sent w) (CloudflareAPIClient.getRuleset this ruleId)
                = Http.Resolved response
              /\ Http.ok response = true
              /\ Http.rules response = Some (rule :: rest)).
  { unfold info, getRedirectRule, fetch. cbn [fst snd].
    destruct (net w (sent w) (CloudflareAPIClient.getRuleset this ruleId)) as [e|response];
      [intros N; contradiction N; reflexivity|].
    destruct (Http.ok response) eqn:O; cbn [negb];
      [|intros N; contradiction N; reflexivity].
    destruct (Http.rules response) as [[|rule rest]|] eqn:R;
      [intros N; contradiction N; reflexivity| |intros N; contradiction N; reflexivity].
    intros _. exists response, rule, rest. repeat split; assumption. }
  destruct (getRedirectRule_request this ruleId w) as (i & now & E).
  unfold w'. rewrite E. cbn [fst snd storage net ticks].
  split; [reflexivity|]. split; [reflexivity|].
  split; [apply eventsSince_app; reflexivity|].
  split; [destruct now; lia|]. exact Last.
Qed.

(** X19. Reading back what an update wrote: when the ruleset answered
    is the collection that [updateRedirectRule] submits for a flag, and
    it is not empty, [getRedirectRule] reports that flag, the matching
    status (active for enabled, inactive for disabled) and the id of the
    first rule. *)
Theorem get_after_update_round_trip :
  forall this ruleId enabled rules response w,
    net w (sent w) (CloudflareAPIClient.getRuleset this ruleId) = Http.Resolved response ->
    Http.ok response = true ->
    Http.rules response = Some (CloudflareAPIClient.updatedRules enabled rules) ->
    rules <> [] ->
    exists info,
      fst (getRedirectRule this ruleId w) = Some info
      /\ RedirectRuleInfo.enabled info = enabled
      /\ RedirectRuleInfo.status info = (if enabled then "active" else "inactive")
      /\ RedirectRuleInfo.id info = getProp "id" (hd [] rules).
Proof.
  intros this ruleId enabled rules response w N O R Ne.
  destruct rules as [|rule rest]; [contradiction Ne; reflexivity|]. clear Ne.
  cbn [CloudflareAPIClient.updatedRules map hd] in R |- *.
  unfold getRedirectRule, fetch. cbn [fst snd]. rewrite N, O, R. cbn [negb]. cbv zeta.
  rewrite getProp_setProp_same.
  rewrite (getProp_setProp_other "enabled" "id") by discriminate.
  rewrite (getProp_setProp_other "enabled" "last_updated") by discriminate.
  destruct (getProp "last_updated" rule) as [value|];
    [destruct (truthy (Some value))|];
    eexists; (split; [reflexivity|]); cbn [RedirectRuleInfo.enabled RedirectRuleInfo.status
      RedirectRuleInfo.id truthy]; destruct enabled; repeat split.
Qed.

(** * The rate limiter *)

Section RateLimiterFacts.
Import RateLimiter.

Lemma get_set_same ip entry entries : get ip (set ip entry entries) = Some entry.
Proof.
  induction entries as [|[ip' entry'] rest IH]; cbn.
  - rewrite String.eqb_refl. reflexivity.
  - destruct (String.eqb ip' ip) eqn:E; cbn; rewrite E; [reflexivity|exact IH].
Qed.

(** A sweep keeps the entry of an address whose window is not over. *)
Lemma get_cleanup ip now entries entry :
  get ip entries = Some entry ->
  now <= resetTime entry ->
  get ip (cleanup now entries) = Some entry.
Proof.
  intros G L. induction entries as [|[ip' entry'] rest IH]; [discriminate|].
  cbn in G |- *. destruct (String.eqb ip' ip) eqn:E.
  - injection G as ->.
    replace (now >? resetTime entry) with false
      by (symmetry; rewrite Z.gtb_ltb; apply Z.ltb_ge; exact L).
    cbn. rewrite E. reflexivity.
  - destruct (negb (now >? resetTime entry')); cbn; [rewrite E|]; exact (IH G).
Qed.

Lemma get_swept ip now (sweep : bool) entries entry :
  get ip entries = Some entry ->
  now <= resetTime entry ->
  get ip (if sweep then cleanup now entries else entries) = Some entry.
Proof. intros G L. destruct sweep; [apply get_cleanup; assumption|exact G]. Qed.

(** Inside a window: the requests are allowed until the count reaches
    the limit. *)
Lemma burst_in_window ip arrivals :
  forall this c r,
    get ip (requests this) = Some (mkEntry c r) ->
    (forall now sweep, In (now, sweep) arrivals -> now <= r) ->
    fst (burst this ip arrivals)
    = repeat true (Nat.min (List.length arrivals) (Z.to_nat (maxRequests this - c)))
      ++ repeat false (List.length arrivals - Z.to_nat (maxRequests this - c)).
Proof.
  induction arrivals as [|[now sweep] rest IH]; intros this c r G B; [reflexivity|].
  assert (L : now <= r) by (apply (B now sweep); left; reflexivity).
  assert (B' : forall now sweep, In (now, sweep) rest -> now <= r)
    by (intros n s I; apply (B n s); right; exact I).
  cbn [burst]. unfold check. rewrite G. cbv zeta. cbn [resetTime count].
  replace (now >? r) with false by (symmetry; rewrite Z.gtb_ltb; apply Z.ltb_ge; exact L).
  destruct (c >=? maxRequests this) eqn:F; rewrite Z.geb_leb in F.
  - apply Z.leb_le in F.
    match goal with |- context [burst ?t ip rest] =>
      pose proof (IH t c r (get_swept ip now sweep _ _ G L) B') as H;
      destruct (burst t ip rest) as [answers this2] end.
    cbn [fst allowed maxRequests] in H |- *. rewrite H.
    replace (Z.to_nat (maxRequests this - c)) with 0%nat by lia.
    rewrite !Nat.min_0_r, !Nat.sub_0_r. reflexivity.
  - apply Z.leb_gt in F.
    match goal with |- context [burst ?t ip rest] =>
      pose proof (IH t (c + 1) r (get_set_same ip _ _) B') as H;
      destruct (burst t ip rest) as [answers this2] end.
    cbn [fst allowed maxRequests] in H |- *. rewrite H.
    replace (Z.to_nat (maxRequests this - c))
      with (S (Z.to_nat (maxRequests this - (c + 1)))) by lia.
    cbn [List.length Nat.min Nat.sub repeat app]. reflexivity.
Qed.

(** A request that starts a new window. *)
Lemma check_new_window this ip now sweep :
  (forall entry, get ip (requests this) = Some entry -> resetTime entry < now) ->
  check this ip now sweep
  = (mkResult true None,
     mk (set ip (mkEntry 1 (now + windowMs this))
           (if sweep then cleanup now (requests this) else requests this))
       (maxRequests this) (windowMs this)).
Proof.
  intros New. unfold check. cbv zeta.
  destruct (get ip (requests this)) as [entry|]; [|reflexivity].
  replace (now >? resetTime entry) with true; [reflexivity|].
  symmetry. rewrite Z.gtb_ltb. apply Z.ltb_lt. apply New. reflexivity.
Qed.

(** X21. A burst of requests of one address that starts a new window
    (the address is unknown or its last window is over) and stays within
    that window: the first request is always allowed, even with a limit
    of zero or less; then as many as the limit less one; every further
    one is refused.  The sweeps change none of the answers. *)
Theorem burst_is_capped :
  forall this ip t0 sweep0 rest,
    (forall entry, get ip (requests this) = Some entry -> resetTime entry < t0) ->
    (forall now sweep, In (now, sweep) rest -> now <= t0 + windowMs this) ->
    fst (burst this ip ((t0, sweep0) :: rest))
    = true
      :: repeat true (Nat.min (List.length rest) (Z.to_nat (maxRequests this - 1)))
      ++ repeat false (List.length rest - Z.to_nat (maxRequests this - 1)).
Proof.
  intros this ip t0 sweep0 rest New Within.
  cbn [burst]. rewrite (check_new_window this ip t0 sweep0 New).
  match goal with |- context [burst ?t ip rest] =>
    pose proof (burst_in_window ip rest t 1 (t0 + windowMs this)
                  (get_set_same ip _ _) Within) as H;
    destruct (burst t ip rest) as [answers this2] end.
  cbn [fst allowed maxRequests] in H |- *. rewrite H. reflexivity.
Qed.

(** X22. A request is refused only inside the window of its address,
    when the count has reached the limit.  The refusal leaves the entry
    as it is, and its [retryAfter] is the time to the end of the window
    in seconds, rounded up: a request of that address later than the end
    of the window, and so any request more than [retryAfter] seconds
    later, is allowed. *)
Theorem refusal_tells_when_to_retry :
  forall this ip now sweep,
    allowed (fst (check this ip now sweep)) = false ->
    exists entry k,
      get ip (requests this) = Some entry
      /\ now <= resetTime entry
      /\ maxRequests this <= count entry
      /\ retryAfter (fst (check this ip now sweep)) = Some k
      /\ 1000 * (k - 1) < resetTime entry - now <= 1000 * k
      /\ get ip (requests (snd (check this ip now sweep))) = Some entry
      /\ forall later sweep',
           now + 1000 * k < later ->
           allowed (fst (check (snd (check this ip now sweep)) ip later sweep')) = true.
Proof.
  intros this ip now sweep. unfold check at 1. cbv zeta.
  destruct (get ip (requests this)) as [entry|] eqn:G; [|discriminate].
  destruct (now >? resetTime entry) eqn:W; [discriminate|].
  destruct (count entry >=? maxRequests this) eqn:F; [|discriminate].
  intros _.
  rewrite Z.gtb_ltb in W. apply Z.ltb_ge in W.
  rewrite Z.geb_leb in F. apply Z.leb_le in F.
  assert (C : check this ip now sweep
              = (mkResult false (Some (ceilSeconds (resetTime entry - now))),
                 mk (if sweep then cleanup now (requests this) else requests this)
                   (maxRequests this) (windowMs this))).
  { unfold check. cbv zeta. rewrite G.
    replace (now >? resetTime entry) with false
      by (symmetry; rewrite Z.gtb_ltb; apply Z.ltb_ge; exact W).
    replace (count entry >=? maxRequests this) with true
      by (symmetry; rewrite Z.geb_leb; apply Z.leb_le; exact F).
    reflexivity. }
  rewrite C. cbn [fst snd retryAfter requests].
  exists entry, (ceilSeconds (resetTime entry - now)).
  assert (K : 1000 * (ceilSeconds (resetTime entry - now) - 1)
              < resetTime entry - now
              <= 1000 * ceilSeconds (resetTime entry - now)).
  { unfold ceilSeconds.
    pose proof (Z.div_mod (- (resetTime entry - now)) 1000 ltac:(lia)) as D.
    pose proof (Z.mod_pos_bound (- (resetTime entry - now)) 1000 ltac:(lia)) as B.
    lia. }
  split; [reflexivity|]. split; [exact W|]. split; [exact F|].
  split; [reflexivity|]. split; [exact K|].
  split; [exact (get_swept ip now sweep _ _ G W)|].
  intros later sweep' L.
  rewrite check_new_window; [reflexivity|].
  cbn [requests]. intros entry' G'.
  rewrite (get_swept ip now sweep _ _ G W) in G'. injection G' as <-. lia.
Qed.

Lemma get_set_other ip ip' entry entries :
  ip <> ip' -> get ip' (set ip entry entries) = get ip' entries.
Proof.
  intros N. induction entries as [|[k e] rest IH]; cbn.
  - destruct (String.eqb ip ip') eqn:E; [apply String.eqb_eq in E; contradiction|reflexivity].
  - destruct (String.eqb k ip) eqn:K; cbn.
    + apply String.eqb_eq in K. subst k.
      destruct (String.eqb ip ip') eqn:E; [apply String.eqb_eq in E; contradiction|reflexivity].
    + destruct (String.eqb k ip'); [reflexivity|exact IH].
Qed.

Lemma get_in ip entries entry : get ip entries = Some entry -> In ip (map fst entries).
Proof.
  induction entries as [|[k e] rest IH]; [discriminate|]. cbn.
  destruct (String.eqb k ip) eqn:K; [apply String.eqb_eq in K; auto|auto].
Qed.

Lemma get_not_in ip entries : ~ In ip (map fst entries) -> get ip entries = None.
Proof.
  intros N. destruct (get ip entries) as [entry|] eqn:G; [|reflexivity].
  contradiction N. exact (get_in ip entries entry G).
Qed.

Lemma cleanup_keys now entries ip :
  In ip (map fst (cleanup now entries)) -> In ip (map fst entries).
Proof.
  unfold cleanup. intros I. apply in_map_iff in I. destruct I as ([k e] & <- & I).
  apply filter_In in I. apply in_map_iff. exists (k, e). tauto.
Qed.

Lemma set_keys ip entry entries k :
  In k (map fst (set ip entry entries)) -> k = ip \/ In k (map fst entries).
Proof.
  induction entries as [|[k0 e0] rest IH]; cbn.
  - intros [<-|[]]. left. reflexivity.
  - destruct (String.eqb k0 ip) eqn:K; cbn; [tauto|].
    intros [<-|I]; [right; left; reflexivity|]. destruct (IH I); tauto.
Qed.

Lemma NoDup_cleanup now entries :
  NoDup (map fst entries) -> NoDup (map fst (cleanup now entries)).
Proof.
  induction entries as [|[k e] rest IH]; intros N; [constructor|].
  inversion N as [|? ? Nk Nr]; subst. cbn.
  destruct (negb (now >? resetTime e)); cbn; [|exact (IH Nr)].
  constructor; [|exact (IH Nr)].
  intros I. apply Nk. exact (cleanup_keys now rest k I).
Qed.

Lemma NoDup_set ip entry entries :
  NoDup (map fst entries) -> NoDup (map fst (set ip entry entries)).
Proof.
  induction entries as [|[k e] rest IH]; intros N; cbn.
  - constructor; [intros []|constructor].
  - inversion N as [|? ? Nk Nr]; subst.
    destruct (String.eqb k ip) eqn:K; cbn; [exact N|].
    constructor; [|exact (IH Nr)].
    intros I. destruct (set_keys ip entry rest k I) as [->|I'].
    + rewrite String.eqb_refl in K. discriminate.
    + exact (Nk I').
Qed.

(** The keys of the map are distinct, as in a [Map]. *)
Lemma served_NoDup this : served this -> NoDup (map fst (requests this)).
Proof.
  induction 1 as [m wm|this ip now sweep _ IH]; [constructor|].
  assert (S : NoDup (map fst (if sweep then cleanup now (requests this)
                               else requests this)))
    by (destruct sweep; [apply NoDup_cleanup|]; exact IH).
  unfold check. cbv zeta.
  destruct (get ip (requests this)) as [entry|];
    [destruct (now >? resetTime entry);
     [|destruct (count entry >=? maxRequests this)]|];
    cbn [snd requests]; first [apply NoDup_set; exact S | exact S].
Qed.

(** With distinct keys, a sweep deletes the entry of an address exactly
    when its window is over. *)
Lemma get_cleanup_NoDup ip now entries :
  NoDup (map fst entries) ->
  get ip (cleanup now entries)
  = match get ip entries with
    | Some entry => if now >? resetTime entry then None else Some entry
    | None => None
    end.
Proof.
  induction entries as [|[k e] rest IH]; intros N; [reflexivity|].
  inversion N as [|? ? Nk Nr]; subst. cbn.
  destruct (String.eqb k ip) eqn:K.
  - apply String.eqb_eq in K. subst k.
    destruct (now >? resetTime e); cbn.
    + apply get_not_in. intros I. apply Nk. exact (cleanup_keys now rest ip I).
    + rewrite String.eqb_refl. reflexivity.
  - destruct (negb (now >? resetTime e)); cbn; [rewrite K|]; exact (IH Nr).
Qed.

(** The answer to a request, by the entry of its address. *)
Lemma check_answer this ip now sweep :
  fst (check this ip now sweep)
  = match get ip (requests this) with
    | Some entry =>
        if now >? resetTime entry then mkResult true None
        else if count entry >=? maxRequests this
             then mkResult false (Some (ceilSeconds (resetTime entry - now)))
             else mkResult true None
    | None => mkResult true None
    end.
Proof.
  unfold check. cbv zeta.
  destruct (get ip (requests this)) as [entry|]; [|reflexivity].
  destruct (now >? resetTime entry); [reflexivity|].
  destruct (count entry >=? maxRequests this); reflexivity.
Qed.

(** X26. The addresses are limited independently: a request of one
    address, with or without a sweep, changes the answer to no later
    request of another address. *)
Theorem addresses_are_independent :
  forall this ip ip' now sweep now' sweep',
    served this ->
    ip <> ip' ->
    now <= now' ->
    fst (check (snd (check this ip now sweep)) ip' now' sweep')
    = fst (check this ip' now' sweep').
Proof.
  intros this ip ip' now sweep now' sweep' Hs Hn Ht.
  pose proof (served_NoDup this Hs) as D.
  rewrite !check_answer.
  assert (L : maxRequests (snd (check this ip now sweep)) = maxRequests this).
  { unfold check. cbv zeta.
    destruct (get ip (requests this)) as [entry|];
      [destruct (now >? resetTime entry);
       [|destruct (count entry >=? maxRequests this)]|]; reflexivity. }
  assert (G : get ip' (requests (snd (check this ip now sweep)))
              = get ip' (if sweep then cleanup now (requests this) else requests this)).
  { unfold check. cbv zeta.
    destruct (get ip (requests this)) as [entry|];
      [destruct (now >? resetTime entry);
       [|destruct (count entry >=? maxRequests this)]|];
      cbn [snd requests]; first [apply get_set_other; exact Hn | reflexivity]. }
  rewrite L, G. destruct sweep; [|reflexivity].
  rewrite (get_cleanup_NoDup ip' now (requests this) D).
  destruct (get ip' (requests this)) as [entry|]; [|reflexivity].
  destruct (now >? resetTime entry) eqn:W; [|reflexivity].
  rewrite Z.gtb_ltb in W. apply Z.ltb_lt in W.
  replace (now' >? resetTime entry) with true
    by (symmetry; rewrite Z.gtb_ltb; apply Z.ltb_lt; lia).
  reflexivity.
Qed.
End RateLimiterFacts.

(** * The further theorems at concrete inputs *)

Lemma reachable_worldRecorded : reachable worldRecorded.
Proof. unfold worldRecorded. apply reach_fetch, reach_init. reflexivity. Defined.

Lemma history_capped_witness :
  (List.length (redirectRuleHistory stateRecorded) <= 50)%nat
  /\ redirectRuleHistory
       (MonitorState.updateRedirectRuleState false "back" 7000 stateRecorded)
     = historyEntry false "back" 7000 stateRecorded
         :: firstn 49 (redirectRuleHistory stateRecorded).
Proof.
  destruct (history_capped worldRecorded reachable_worldRecorded stateRecorded eq_refl)
    as [L H].
  split; [exact L|apply H].
Defined.

Lemma checks_are_successes_and_failures_witness :
  healthChecksTotal stateChecked = successesTotal stateChecked + failuresTotal stateChecked.
Proof.
  apply (checks_are_successes_and_failures
           (snd (MonitorState.fetch
                   (MonitorState.mkRequest Http.POST "/increment-failure" None)
                   worldRecorded))).
  - apply reach_fetch, reachable_worldRecorded.
  - reflexivity.
Defined.

Lemma totals_only_reset_by_reset_counters_witness : totalsGrow stateRecorded stateChecked.
Proof.
  apply (totals_only_reset_by_reset_counters
           (MonitorState.mkRequest Http.POST "/increment-failure" None) worldRecorded);
    reflexivity.
Defined.

Lemma start_time_and_latch_kept_witness :
  exists state',
    storage (snd (MonitorState.fetch
                    (MonitorState.mkRequest Http.POST "/reset-counters" None)
                    worldRecorded)) = Some state'
    /\ workerStartTime state' = workerStartTime stateRecorded
    /\ (apiCallsDisabled stateRecorded = true -> apiCallsDisabled state' = true).
Proof.
  exact (start_time_and_latch_kept
           (MonitorState.mkRequest Http.POST "/reset-counters" None)
           worldRecorded stateRecorded eq_refl).
Defined.

Lemma window_add_then_delete_witness :
  option_map scheduledMaintenanceWindows
    (storage (snd (StateManager.deleteMaintenanceWindow "w-1"
                     (snd (StateManager.addMaintenanceWindow demoWindow worldRecorded)))))
  = Some [].
Proof.
  destruct (window_add_then_delete demoWindow worldRecorded stateRecorded eq_refl eq_refl)
    as (_ & _ & H).
  apply H. vm_compute. tauto.
Defined.

Lemma sweep_keeps_later_suppression_witness :
  maintenanceModeActive (MonitorState.cleanMaintenanceWindows 9500 stateExpired) 9600
  = maintenanceModeActive stateExpired 9600.
Proof.
  apply (sweep_keeps_later_suppression stateExpired 9500 9600). reflexivity.
Defined.

Lemma streak_toggles_at_threshold_witness :
  requestsOf (eventsSince worldStored (cycles (demoConfig 3 2) 2 worldStored))
  = repeat (probeRequest (demoConfig 3 2)) 2
  /\ exists rules,
       requestsOf (eventsSince (cycles (demoConfig 3 2) 2 worldStored)
                     (cycles (demoConfig 3 2) 3 worldStored))
       = probeRequest (demoConfig 3 2) :: toggleCall (demoConfig 3 2) true rules.
Proof.
  destruct (streak_toggles_at_threshold (demoConfig 3 2) false 2 worldStored
              (MonitorState.defaultState 0)) as (A & _ & _ & B & _).
  - reflexivity.
  - repeat split.
  - reflexivity.
  - reflexivity.
  - intros n. reflexivity.
  - apply demo_rule_controller_succeeds.
  - split; [exact A|exact B].
Defined.

Lemma unreachable_api_is_retried_every_cycle_witness :
  exists sn,
    storage (cycles (demoConfig 3 2) 2 worldUnreachable) = Some sn
    /\ requestsOf (eventsSince worldUnreachable (cycles (demoConfig 3 2) 2 worldUnreachable))
       = failedCycle (demoConfig 3 2) ++ failedCycle (demoConfig 3 2)
    /\ apiErrorsTotal sn = 2
    /\ failureCount sn = 4
    /\ redirectRuleEnabled sn = false.
Proof.
  destruct (unreachable_api_is_retried_every_cycle (demoConfig 3 2) false 2
              worldUnreachable (set_failureCount 2 (MonitorState.defaultState 0)))
    as (sn & S & R & _ & A & K & E & _).
  - reflexivity.
  - repeat split.
  - reflexivity.
  - vm_compute. discriminate.
  - intros n. reflexivity.
  - intros n. exists (mkError "connect failed"). split; reflexivity.
  - exists sn. split; [exact S|]. split; [exact R|]. split; [exact A|].
    split; [exact K|exact E].
Defined.

Lemma cycle_work_is_bounded_witness :
  (List.length
     (requestsOf (eventsSince worldDenied (handleScheduled (Ok (demoConfig 1 1)) worldDenied)))
   <= 7)%nat.
Proof.
  exact (proj1 (cycle_work_is_bounded (demoConfig 1 1) worldDenied
                  (MonitorState.defaultState 0) eq_refl)).
Defined.

Lemma latched_worker_stays_silent_witness :
  exists sn,
    storage (cycles (demoConfig 3 2) 3 worldLatchedDemo) = Some sn
    /\ trace (cycles (demoConfig 3 2) 3 worldLatchedDemo) = trace worldLatchedDemo
    /\ sent (cycles (demoConfig 3 2) 3 worldLatchedDemo) = sent worldLatchedDemo
    /\ apiCallsDisabled sn = true
    /\ failureCount sn = failureCount latched
    /\ recoveryCount sn = recoveryCount latched
    /\ totals sn = totals latched
    /\ redirectRuleEnabled sn = redirectRuleEnabled latched
    /\ redirectRuleHistory sn = redirectRuleHistory latched.
Proof.
  exact (latched_worker_stays_silent (demoConfig 3 2) 3 worldLatchedDemo latched
           eq_refl eq_refl).
Defined.

Lemma validated_config_is_sound_witness :
  0 < failureCountThreshold demoValidated
  /\ 0 < recoveryCountThreshold demoValidated
  /\ 1 <= timeoutSeconds demoValidated <= 30
  /\ In (logLevel demoValidated) ["debug"; "info"; "warn"; "error"].
Proof.
  destruct (validated_config_is_sound demoParseInt demoProtocolOf demoEnv demoValidated
              eq_refl) as (A & B & C & _ & _ & _ & D).
  repeat split; try assumption; apply C.
Defined.

Lemma health_follows_cron_age_witness :
  Api.HealthResponse.code (fst (Api.health worldRecorded)) = 200
  /\ Api.HealthResponse.status (fst (Api.health worldRecorded)) = Api.degraded.
Proof.
  destruct (health_follows_cron_age worldRecorded stateRecorded eq_refl)
    as (C & _ & _ & D & _).
  split; [exact C|]. apply D. reflexivity.
Defined.

Lemma latched_worker_reports_healthy_witness :
  trace (handleScheduled (Ok (demoConfig 3 2)) worldLatchedDemo) = trace worldLatchedDemo
  /\ Api.HealthResponse.code
       (fst (Api.health (handleScheduled (Ok (demoConfig 3 2)) worldLatchedDemo))) = 200
  /\ Api.HealthResponse.status
       (fst (Api.health (handleScheduled (Ok (demoConfig 3 2)) worldLatchedDemo)))
     = Api.healthy.
Proof.
  apply (latched_worker_reports_healthy (demoConfig 3 2) worldLatchedDemo latched);
    reflexivity.
Defined.

Lemma listed_windows_match_suppression_witness :
  exists listed,
    Api.maintenanceWindows worldMaintenance = (Api.Windows listed, tick worldMaintenance)
    /\ map fst listed = scheduledMaintenanceWindows underMaintenance
    /\ existsb snd listed = isInMaintenanceWindow underMaintenance 0.
Proof.
  destruct (listed_windows_match_suppression worldMaintenance underMaintenance eq_refl)
    as (listed & A & B & _ & C).
  exists listed. split; [exact A|]. split; [exact B|exact C].
Defined.

Lemma get_after_update_round_trip_witness :
  exists info,
    fst (getRedirectRule demoClient "a" worldUpdated) = Some info
    /\ RedirectRuleInfo.enabled info = true
    /\ RedirectRuleInfo.status info = "active"
    /\ RedirectRuleInfo.id info = Some (JString "a").
Proof.
  apply (get_after_update_round_trip demoClient "a" true demoRules
           (Http.mkResponse 200 "" (Some (CloudflareAPIClient.updatedRules true demoRules)))
           worldUpdated).
  - reflexivity.
  - reflexivity.
  - reflexivity.
  - discriminate.
Defined.

Lemma stub_calls_reach_their_routes_witness :
  exists state,
    StateManager.incrementFailure worldRecorded
    = (Ok state, snd (StateManager.incrementFailure worldRecorded))
    /\ storage (snd (StateManager.incrementFailure worldRecorded)) = Some state
    /\ trace (snd (StateManager.incrementFailure worldRecorded)) = trace worldRecorded
    /\ sent (snd (StateManager.incrementFailure worldRecorded)) = sent worldRecorded
    /\ net (snd (StateManager.incrementFailure worldRecorded)) = net worldRecorded.
Proof.
  exact (stub_calls_reach_their_routes StateManager.incrementFailure
           stub_incrementFailure worldRecorded).
Defined.

Lemma burst_is_capped_witness :
  fst (RateLimiter.burst (RateLimiter.new 2 1) "203.0.113.7"
         [(0, false); (10, false); (20, true); (30, false)])
  = [true; true; false; false].
Proof.
  apply (burst_is_capped (RateLimiter.new 2 1) "203.0.113.7" 0 false
           [(10, false); (20, true); (30, false)]).
  - intros entry H. discriminate H.
  - intros now sweep H. cbn in H.
    destruct H as [H|[H|[H|[]]]]; injection H as <- _; vm_compute; discriminate.
Defined.

Lemma refusal_tells_when_to_retry_witness :
  exists entry k,
    RateLimiter.get "203.0.113.7" (RateLimiter.requests limiterFull) = Some entry
    /\ 500 <= RateLimiter.resetTime entry
    /\ RateLimiter.maxRequests limiterFull <= RateLimiter.count entry
    /\ RateLimiter.retryAfter (fst (RateLimiter.check limiterFull "203.0.113.7" 500 false))
       = Some k
    /\ 1000 * (k - 1) < RateLimiter.resetTime entry - 500 <= 1000 * k
    /\ RateLimiter.get "203.0.113.7"
         (RateLimiter.requests (snd (RateLimiter.check limiterFull "203.0.113.7" 500 false)))
       = Some entry
    /\ forall later sweep',
         500 + 1000 * k < later ->
         RateLimiter.allowed
           (fst (RateLimiter.check
                   (snd (RateLimiter.check limiterFull "203.0.113.7" 500 false))
                   "203.0.113.7" later sweep')) = true.
Proof.
  exact (refusal_tells_when_to_retry limiterFull "203.0.113.7" 500 false eq_refl).
Defined.

Lemma every_cycle_stamps_and_sweeps_witness :
  exists s',
    storage (handleScheduled (Ok (demoConfig 3 2)) worldExpired) = Some s'
    /\ lastCronExecution s' = Some 0
    /\ scheduledMaintenanceWindows s' = [demoWindow].
Proof.
  destruct (every_cycle_stamps_and_sweeps (demoConfig 3 2) worldExpired _ eq_refl)
    as (s' & A & B & C & _).
  exists s'. split; [exact A|]. split; [exact B|exact C].
Defined.

Lemma only_status_200_is_healthy_witness :
  exists s',
    storage (handleScheduled (Ok (demoConfig 3 2)) worldNoContent) = Some s'
    /\ failureCount s' = 1
    /\ recoveryCount s' = 0
    /\ failuresTotal s' = 1
    /\ successesTotal s' = 0.
Proof.
  destruct (only_status_200_is_healthy (demoConfig 3 2) worldNoContent
              (set_redirectRuleEnabled true (MonitorState.defaultState 0)))
    as (s' & A & B & C & D & E & _).
  - reflexivity.
  - reflexivity.
  - reflexivity.
  - intros r H. injection H as <-. vm_compute. discriminate.
  - exists s'. split; [exact A|]. split; [exact B|]. split; [exact C|].
    split; [exact D|exact E].
Defined.

Lemma authentication_failure_silences_worker_witness :
  requestsOf (eventsSince worldDenied (handleScheduled (Ok (demoConfig 1 1)) worldDenied))
  = [probeRequest (demoConfig 1 1);
     CloudflareAPIClient.getRuleset (apiClient (demoConfig 1 1))
       (redirectRuleId (demoConfig 1 1))]
  /\ trace (cycles (demoConfig 1 1) 3 (handleScheduled (Ok (demoConfig 1 1)) worldDenied))
     = trace (handleScheduled (Ok (demoConfig 1 1)) worldDenied).
Proof.
  destruct (authentication_failure_silences_worker (demoConfig 1 1) false 3 worldDenied
              (MonitorState.defaultState 0)) as (A & _ & _ & B).
  - reflexivity.
  - reflexivity.
  - reflexivity.
  - reflexivity.
  - vm_compute. discriminate.
  - reflexivity.
  - intros n. exists (Http.mkResponse 401 "" None). repeat split.
  - split; [exact A|exact B].
Defined.

Lemma addresses_are_independent_witness :
  fst (RateLimiter.check
         (snd (RateLimiter.check limiterFull "198.51.100.2" 70000 true))
         "203.0.113.7" 80000 false)
  = fst (RateLimiter.check limiterFull "203.0.113.7" 80000 false).
Proof.
  apply (addresses_are_independent limiterFull "198.51.100.2" "203.0.113.7"
           70000 true 80000 false).
  - unfold limiterFull. apply served_check, served_new.
  - discriminate.
  - vm_compute. discriminate.
Defined.
